(** * Regolancer: fee ceiling, route finder, caches and the rebalance loop

    A shallow embedding of [routes.go] and [main.go].  Go's [int64] and
    [uint64] are integers of [Z] with the wrap-around written out, [float64]
    is the kernel's binary64 [float], maps are [gmap]s, the receiver
    [r *regolancer] is a record threaded through every method, and the
    gRPC client [lnrpc.LightningClient] is an interface (a type class) over
    an abstract state of the outside world. *)

From Stdlib Require Import ZArith String Ascii List Bool Lia Floats.
From stdpp Require Import gmap strings list.

Local Open Scope string_scope.
Local Open Scope list_scope.
Local Open Scope Z_scope.

(** ** Machine integers *)

Module Int64.

Definition min_int : Z := - 2 ^ 63.
Definition max_int : Z := 2 ^ 63 - 1.

Definition in_range (z : Z) : Prop := min_int <= z <= max_int.

Definition in_rangeb (z : Z) : bool := (min_int <=? z) && (z <=? max_int).

(** Two's complement wrap-around of a mathematical integer into [int64]. *)
Definition wrap (z : Z) : Z := (z + 2 ^ 63) mod 2 ^ 64 - 2 ^ 63.

Definition add (a b : Z) : Z := wrap (a + b).
Definition sub (a b : Z) : Z := wrap (a - b).
Definition mul (a b : Z) : Z := wrap (a * b).
(** Go's [/] on integers truncates towards zero. *)
Definition quot (a b : Z) : Z := wrap (Z.quot a b).

(** [uint64(x)] for [x : int64]. *)
Definition to_uint64 (z : Z) : Z := z mod 2 ^ 64.

End Int64.

(** ** float64 conversions *)

Module Float64.

(** [float64(x)] for an integer [x]: rounding to nearest, ties to even. *)
Definition of_int (z : Z) : float :=
  SF2Prim (binary_normalize prec emax z 0 false).

(** The integer part of a finite float (the fraction is discarded). *)
Definition trunc (f : float) : option Z :=
  match Prim2SF f with
  | S754_zero _ => Some 0
  | S754_finite s m e =>
      let v := if 0 <=? e then Z.pos m * 2 ^ e else Z.quot (Z.pos m) (2 ^ (- e)) in
      Some (if s then - v else v)
  | S754_infinity _ | S754_nan => None
  end.

(** [int64(f)]: truncation towards zero.  Outside the range of [int64] (and
    for NaN) Go leaves the result to the implementation; amd64 yields the
    "integer indefinite" value [-2^63], which is what is written here. *)
Definition to_int64 (f : float) : Z :=
  match trunc f with
  | Some z => if Int64.in_rangeb z then z else Int64.min_int
  | None => Int64.min_int
  end.

End Float64.

(** ** encoding/hex *)

Module Hex.

Definition fromHexChar (c : ascii) : option Z :=
  let n := Z.of_N (N_of_ascii c) in
  if (48 <=? n) && (n <=? 57) then Some (n - 48)
  else if (97 <=? n) && (n <=? 102) then Some (n - 97 + 10)
  else if (65 <=? n) && (n <=? 70) then Some (n - 65 + 10)
  else None.

(** [strconv.IsPrint] on a rune below 256: the ASCII from the space to the
    tilde, and Latin-1 from the inverted exclamation mark on, but for the soft
    hyphen. *)
Definition isPrint (n : Z) : bool :=
  ((32 <=? n) && (n <=? 126)) || ((161 <=? n) && (n <=? 255) && negb (n =? 173)).

Definition upperHex (n : Z) : ascii :=
  ascii_of_N (Z.to_N (if n <? 10 then 48 + n else 65 + (n - 10))).

(** The UTF-8 bytes of a rune below 256. *)
Definition utf8 (n : Z) : string :=
  if n <? 128 then String (ascii_of_N (Z.to_N n)) EmptyString
  else String (ascii_of_N (Z.to_N (192 + n / 64)))
         (String (ascii_of_N (Z.to_N (128 + n mod 64))) EmptyString).

(** [InvalidByteError(c).Error()]: the byte, as a rune, under the verb
    [%#U]: four hexadecimal digits, then the character in quotes when it is
    printable. *)
Definition InvalidByteError (c : ascii) : string :=
  let n := Z.of_N (N_of_ascii c) in
  ("encoding/hex: invalid byte: U+00"
   ++ String (upperHex (n / 16)) (String (upperHex (n mod 16)) EmptyString)
   ++ (if isPrint n then " '" ++ utf8 n ++ "'" else ""))%string.

Definition ErrLength : string := "encoding/hex: odd length hex string".

(** [hex.DecodeString]: the bytes decoded before the first error, and the
    error if there is one: the first byte that is no hexadecimal digit, or,
    when there is none, the odd length. *)
Fixpoint DecodeString (s : string) : list Z * option string :=
  match s with
  | EmptyString => ([], None)
  | String p EmptyString =>
      match fromHexChar p with
      | None => ([], Some (InvalidByteError p))
      | Some _ => ([], Some ErrLength)
      end
  | String p (String q rest) =>
      match fromHexChar p, fromHexChar q with
      | Some a, Some b =>
          let '(bs, err) := DecodeString rest in (a * 16 + b :: bs, err)
      | None, _ => ([], Some (InvalidByteError p))
      | Some _, None => ([], Some (InvalidByteError q))
      end
  end.

End Hex.

(** ** Errors, contexts and the clock *)

(** Go's [error] values that the program tells apart: [ErrRetry] carries the
    probed amount, the two context errors are those of package [context],
    anything else is an error with a message. *)
Inductive error : Type :=
| errorString (msg : string)
| ErrRetry (amount : Z)
| DeadlineExceeded
| Canceled.

(** A call that returns [(value, error)]. *)
Inductive result (A : Type) : Type :=
| Ok (a : A)
| Err (e : error).
Arguments Ok {A} a.
Arguments Err {A} e.

Module Context.

(** A context is known by its deadline, in nanoseconds of the clock;
    [Background] has none. *)
Record t : Type := { deadline : option Z }.

Definition Background : t := {| deadline := None |}.

(** [context.WithTimeout(parent, d)] called at time [now]: the earlier of
    the parent's deadline and [now + d]. *)
Definition WithTimeout (parent : t) (now d : Z) : t :=
  {| deadline := Some (match deadline parent with
                       | Some p => Z.min p (now + d)
                       | None => now + d
                       end) |}.

(** [ctx.Err() == context.DeadlineExceeded] observed at time [now], for a
    context that was not cancelled before its deadline. *)
Definition deadlineExceeded (c : t) (now : Z) : bool :=
  match deadline c with
  | Some d => d <=? now
  | None => false
  end.

End Context.

Definition Second : Z := 1000000000.
Definition Minute : Z := 60 * Second.

(** ** The lnrpc messages the program reads and writes *)

Record RoutingPolicy : Type := {
  TimeLockDelta : Z;
  MinHtlc : Z;
  FeeBaseMsat : Z;
  FeeRateMilliMsat : Z;
  MaxHtlcMsat : Z
}.

Record ChannelEdge : Type := {
  ChannelId : Z;
  Node1Pub : string;
  Node2Pub : string;
  EdgeCapacity : Z;
  Node1Policy : RoutingPolicy;
  Node2Policy : RoutingPolicy
}.

Record Channel : Type := {
  Active : bool;
  RemotePubkey : string;
  ChanId : Z;
  Capacity : Z;
  LocalBalance : Z;
  RemoteBalance : Z
}.

Record Hop : Type := {
  HopChanId : Z;
  HopPubKey : string;
  AmtToForwardMsat : Z;
  FeeMsat : Z
}.

Record Route : Type := {
  Hops : list Hop;
  TotalFeesMsat : Z;
  TotalAmtMsat : Z
}.

Record NodeInfo : Type := {
  Alias : string;
  LastUpdate : Z;
  NumChannels : Z;
  TotalCapacity : Z
}.

Record QueryRoutesRequest : Type := {
  PubKey : string;
  OutgoingChanId : Z;
  LastHopPubkey : list Z;
  AmtMsat : Z;
  UseMissionControl : bool;
  FeeLimitFixedMsat : Z
}.

Record ListChannelsRequest : Type := {
  ActiveOnly : bool;
  PublicOnly : bool;
  Peer : list Z
}.

(** The remote procedure calls, as the trace of a run records them: the
    request and the answer. *)
Inductive Rpc : Type :=
| RpcGetChanInfo (chanId : Z) (resp : result ChannelEdge)
| RpcGetNodeInfo (pk : string) (resp : result NodeInfo)
| RpcQueryRoutes (req : QueryRoutesRequest) (resp : result (list Route))
| RpcListChannels (req : ListChannelsRequest) (resp : result (list Channel)).

(** [lnrpc.LightningClient] and the wall clock, over the state [W] of the
    world outside the process (the node, the network, the time). *)
Class LightningClient (W : Type) : Type := {
  time_Now : W -> Z;
  GetChanInfo : W -> Context.t -> Z -> result ChannelEdge * W;
  GetNodeInfo : W -> Context.t -> string -> result NodeInfo * W;
  QueryRoutes : W -> Context.t -> QueryRoutesRequest -> result (list Route) * W;
  ListChannels : W -> Context.t -> ListChannelsRequest -> result (list Channel) * W
}.

Record AddInvoiceResponse : Type := {
  RHash : list Z;
  PaymentRequest : string;
  PaymentAddr : list Z
}.

Record NodePair : Type := {
  PairFrom : list Z;
  PairTo : list Z
}.

(** ** The rebalancer's state ([type regolancer struct]) *)

Record failedRoute : Type := {
  channelPair : Channel * Channel;
  expiration : option Z
}.

(** The two clients of the struct are the [LightningClient] instance.  The
    node cache holds what [getNodeInfo] of [routes.go] stores in it. *)
Record regolancer : Type := {
  myPK : string;
  channels : list Channel;
  fromChannels : list Channel;
  fromChannelId : gset Z;
  toChannels : list Channel;
  toChannelId : gset Z;
  channelPairs : gmap string (Channel * Channel);
  nodeCache : gmap string NodeInfo;
  chanCache : gmap Z ChannelEdge;
  failureCache : gmap string failedRoute;
  excludeIn : gset Z;
  excludeOut : gset Z;
  excludeBoth : gset Z;
  excludeNodes : list (list Z);
  statFilename : string;
  routeFound : bool;
  invoiceCache : gmap Z AddInvoiceResponse;
  mcCache : gmap string Z;
  failedPairs : list NodePair
}.

Definition set_chanCache (r : regolancer) (v : gmap Z ChannelEdge) : regolancer :=
  {| myPK := myPK r; channels := channels r; fromChannels := fromChannels r;
     fromChannelId := fromChannelId r; toChannels := toChannels r;
     toChannelId := toChannelId r; channelPairs := channelPairs r;
     nodeCache := nodeCache r; chanCache := v; failureCache := failureCache r;
     excludeIn := excludeIn r; excludeOut := excludeOut r;
     excludeBoth := excludeBoth r; excludeNodes := excludeNodes r;
     statFilename := statFilename r; routeFound := routeFound r;
     invoiceCache := invoiceCache r; mcCache := mcCache r;
     failedPairs := failedPairs r |}.

Definition set_nodeCache (r : regolancer) (v : gmap string NodeInfo) : regolancer :=
  {| myPK := myPK r; channels := channels r; fromChannels := fromChannels r;
     fromChannelId := fromChannelId r; toChannels := toChannels r;
     toChannelId := toChannelId r; channelPairs := channelPairs r;
     nodeCache := v; chanCache := chanCache r; failureCache := failureCache r;
     excludeIn := excludeIn r; excludeOut := excludeOut r;
     excludeBoth := excludeBoth r; excludeNodes := excludeNodes r;
     statFilename := statFilename r; routeFound := routeFound r;
     invoiceCache := invoiceCache r; mcCache := mcCache r;
     failedPairs := failedPairs r |}.

Definition set_fromChannelId (r : regolancer) (v : gset Z) : regolancer :=
  {| myPK := myPK r; channels := channels r; fromChannels := fromChannels r;
     fromChannelId := v; toChannels := toChannels r;
     toChannelId := toChannelId r; channelPairs := channelPairs r;
     nodeCache := nodeCache r; chanCache := chanCache r; failureCache := failureCache r;
     excludeIn := excludeIn r; excludeOut := excludeOut r;
     excludeBoth := excludeBoth r; excludeNodes := excludeNodes r;
     statFilename := statFilename r; routeFound := routeFound r;
     invoiceCache := invoiceCache r; mcCache := mcCache r;
     failedPairs := failedPairs r |}.

Definition set_toChannelId (r : regolancer) (v : gset Z) : regolancer :=
  {| myPK := myPK r; channels := channels r; fromChannels := fromChannels r;
     fromChannelId := fromChannelId r; toChannels := toChannels r;
     toChannelId := v; channelPairs := channelPairs r;
     nodeCache := nodeCache r; chanCache := chanCache r; failureCache := failureCache r;
     excludeIn := excludeIn r; excludeOut := excludeOut r;
     excludeBoth := excludeBoth r; excludeNodes := excludeNodes r;
     statFilename := statFilename r; routeFound := routeFound r;
     invoiceCache := invoiceCache r; mcCache := mcCache r;
     failedPairs := failedPairs r |}.

Definition set_channels (r : regolancer) (v : list Channel) : regolancer :=
  {| myPK := myPK r; channels := v; fromChannels := fromChannels r;
     fromChannelId := fromChannelId r; toChannels := toChannels r;
     toChannelId := toChannelId r; channelPairs := channelPairs r;
     nodeCache := nodeCache r; chanCache := chanCache r; failureCache := failureCache r;
     excludeIn := excludeIn r; excludeOut := excludeOut r;
     excludeBoth := excludeBoth r; excludeNodes := excludeNodes r;
     statFilename := statFilename r; routeFound := routeFound r;
     invoiceCache := invoiceCache r; mcCache := mcCache r;
     failedPairs := failedPairs r |}.

Definition set_fromChannels (r : regolancer) (v : list Channel) : regolancer :=
  {| myPK := myPK r; channels := channels r; fromChannels := v;
     fromChannelId := fromChannelId r; toChannels := toChannels r;
     toChannelId := toChannelId r; channelPairs := channelPairs r;
     nodeCache := nodeCache r; chanCache := chanCache r; failureCache := failureCache r;
     excludeIn := excludeIn r; excludeOut := excludeOut r;
     excludeBoth := excludeBoth r; excludeNodes := excludeNodes r;
     statFilename := statFilename r; routeFound := routeFound r;
     invoiceCache := invoiceCache r; mcCache := mcCache r;
     failedPairs := failedPairs r |}.

Definition set_toChannels (r : regolancer) (v : list Channel) : regolancer :=
  {| myPK := myPK r; channels := channels r; fromChannels := fromChannels r;
     fromChannelId := fromChannelId r; toChannels := v;
     toChannelId := toChannelId r; channelPairs := channelPairs r;
     nodeCache := nodeCache r; chanCache := chanCache r; failureCache := failureCache r;
     excludeIn := excludeIn r; excludeOut := excludeOut r;
     excludeBoth := excludeBoth r; excludeNodes := excludeNodes r;
     statFilename := statFilename r; routeFound := routeFound r;
     invoiceCache := invoiceCache r; mcCache := mcCache r;
     failedPairs := failedPairs r |}.

Definition set_failureCache (r : regolancer) (v : gmap string failedRoute) : regolancer :=
  {| myPK := myPK r; channels := channels r; fromChannels := fromChannels r;
     fromChannelId := fromChannelId r; toChannels := toChannels r;
     toChannelId := toChannelId r; channelPairs := channelPairs r;
     nodeCache := nodeCache r; chanCache := chanCache r; failureCache := v;
     excludeIn := excludeIn r; excludeOut := excludeOut r;
     excludeBoth := excludeBoth r; excludeNodes := excludeNodes r;
     statFilename := statFilename r; routeFound := routeFound r;
     invoiceCache := invoiceCache r; mcCache := mcCache r;
     failedPairs := failedPairs r |}.

Definition set_channelPairs (r : regolancer) (v : gmap string (Channel * Channel)) : regolancer :=
  {| myPK := myPK r; channels := channels r; fromChannels := fromChannels r;
     fromChannelId := fromChannelId r; toChannels := toChannels r;
     toChannelId := toChannelId r; channelPairs := v;
     nodeCache := nodeCache r; chanCache := chanCache r; failureCache := failureCache r;
     excludeIn := excludeIn r; excludeOut := excludeOut r;
     excludeBoth := excludeBoth r; excludeNodes := excludeNodes r;
     statFilename := statFilename r; routeFound := routeFound r;
     invoiceCache := invoiceCache r; mcCache := mcCache r;
     failedPairs := failedPairs r |}.

(** ** Runs: the rebalancer, the world, and what was called *)

(** One entry of the trace: a remote call, or a call of a method of
    [regolancer] that is declared in another file of the repository. *)
Inductive Event : Type :=
| EvRpc (c : Rpc)
| EvPickChannelPair (amount minAmount : Z) (relFrom relTo : float)
| EvGetRoutes (ctx : Context.t) (from to amtMsat : Z)
| EvAddFailedRoute (from to : Z)
| EvPrintRoute (ctx : Context.t) (route : Route)
| EvPay (ctx : Context.t) (amount minAmount : Z) (route : Route) (probeSteps : Z)
| EvRebuildRoute (ctx : Context.t) (route : Route) (amount : Z)
| EvInvalidateInvoice (amount : Z)
| EvGetChannelCandidates (r : regolancer) (fromPerc toPerc amount : Z)
| EvStartup.

Record State (W : Type) : Type := {
  reg : regolancer;
  world : W;
  trace : list Event
}.
Arguments reg {W} _.
Arguments world {W} _.
Arguments trace {W} _.

Definition set_reg {W} (s : State W) (r : regolancer) : State W :=
  {| reg := r; world := world s; trace := trace s |}.

(** A remote call: the world answers and moves on, the trace grows. *)
Definition rpc {W A} (s : State W) (c : A -> Rpc) (call : W -> A * W) : A * State W :=
  let '(a, w) := call (world s) in
  (a, {| reg := reg s; world := w; trace := trace s ++ [EvRpc (c a)] |}).

(** ** routes.go *)

Module Routes.

Definition calcFeeMsat (amtMsat : Z) (policy : RoutingPolicy) : Z :=
  Int64.add (FeeBaseMsat policy)
            (Int64.quot (Int64.mul amtMsat (FeeRateMilliMsat policy)) 1000000).

Definition getChanInfo {W} `{LightningClient W} (s : State W) (ctx : Context.t)
    (chanId : Z) : result ChannelEdge * State W :=
  match chanCache (reg s) !! chanId with
  | Some c => (Ok c, s)
  | None =>
      let '(res, s1) := rpc s (RpcGetChanInfo chanId)
                            (fun w => GetChanInfo w ctx chanId) in
      match res with
      | Err err => (Err err, s1)
      | Ok c =>
          (Ok c, set_reg s1 (set_chanCache (reg s1) (<[chanId := c]> (chanCache (reg s1)))))
      end
  end.

(** Lines 35-40 of [getRoutes]: the last hop's key and the policy the fee is
    computed from. *)
Definition lastHop (c : ChannelEdge) (myPK : string) : string * RoutingPolicy :=
  if String.eqb (Node1Pub c) myPK
  then (Node2Pub c, Node1Policy c)
  else (Node1Pub c, Node2Policy c).

Definition getRoutes {W} `{LightningClient W} (s : State W) (from to amtMsat : Z)
    (ratio : float) : result (list Route) * State W :=
  let ctx := Context.WithTimeout Context.Background (time_Now (world s)) (30 * Second) in
  let '(res, s1) := getChanInfo s ctx to in
  match res with
  | Err err => (Err err, s1)
  | Ok c =>
      let '(lastPKstr, policy) := lastHop c (myPK (reg s1)) in
      let feeMsat := PrimFloat.mul (Float64.of_int (calcFeeMsat amtMsat policy)) ratio in
      match Hex.DecodeString lastPKstr with
      | (_, Some err) => (Err (errorString err), s1)
      | (lastPK, None) =>
          let req := {| PubKey := myPK (reg s1);
                        OutgoingChanId := from;
                        LastHopPubkey := lastPK;
                        AmtMsat := amtMsat;
                        UseMissionControl := true;
                        FeeLimitFixedMsat := Float64.to_int64 feeMsat |} in
          let '(res, s2) := rpc s1 (RpcQueryRoutes req) (fun w => QueryRoutes w ctx req) in
          match res with
          | Err err => (Err err, s2)
          | Ok routes => (Ok routes, s2)
          end
      end
  end.

Definition getNodeInfo {W} `{LightningClient W} (s : State W) (pk : string)
    : result NodeInfo * State W :=
  match nodeCache (reg s) !! pk with
  | Some nodeInfo => (Ok nodeInfo, s)
  | None =>
      let '(res, s1) := rpc s (RpcGetNodeInfo pk)
                            (fun w => GetNodeInfo w Context.Background pk) in
      match res with
      | Ok nodeInfo =>
          (Ok nodeInfo,
           set_reg s1 (set_nodeCache (reg s1) (<[pk := nodeInfo]> (nodeCache (reg s1)))))
      | Err err => (Err err, s1)
      end
  end.

(** What [printRoute] writes, line by line: the fee of the route without
    the first hop's, one line per hop whose node is known (channel, fee
    unless it is the first hop, alias), and the collected errors at the end.
    The colours and the layout are left out. *)
Inductive printed : Type :=
| PrintTotalFee (feeMsat : Z)
| PrintHop (chanId : Z) (fee : option Z) (alias : string)
| PrintErrors (errs : list error).

(** The loop of [printRoute] from hop [i] on: the hop lines, the errors in
    the order they are appended to [errs], and the state. *)
Fixpoint printHops {W} `{LightningClient W} (s : State W) (i : nat) (hops : list Hop)
    : list printed * list error * State W :=
  match hops with
  | [] => ([], [], s)
  | hop :: rest =>
      let '(res, s1) := getNodeInfo s (HopPubKey hop) in
      match res with
      | Err err =>
          let '(lines, errs, s2) := printHops s1 (S i) rest in
          (lines, err :: errs, s2)
      | Ok nodeInfo =>
          let fee := if Nat.eqb i 0 then None else Some (FeeMsat hop) in
          let '(lines, errs, s2) := printHops s1 (S i) rest in
          (PrintHop (HopChanId hop) fee (Alias nodeInfo) :: lines, errs, s2)
      end
  end.

(** [errs] is a string in the source; every error adds its text and a
    newline to it, so it is empty exactly when there was no error. *)
Definition printRoute {W} `{LightningClient W} (s : State W) (route : Route)
    : list printed * State W :=
  match Hops route with
  | [] => ([], s)
  | first :: _ =>
      let total := PrintTotalFee (Int64.sub (TotalFeesMsat route) (FeeMsat first)) in
      let '(lines, errs, s1) := printHops s 0 (Hops route) in
      (total :: lines ++ match errs with
                         | [] => []
                         | _ :: _ => [PrintErrors errs]
                         end, s1)
  end.

End Routes.

(** The request that [getRoutes] sends once the target edge is known and
    the last hop's key decodes. *)
Definition routeQuery (myKey : string) (from amtMsat : Z) (ratio : float)
    (c : ChannelEdge) (lastPK : list Z) : QueryRoutesRequest :=
  {| PubKey := myKey;
     OutgoingChanId := from;
     LastHopPubkey := lastPK;
     AmtMsat := amtMsat;
     UseMissionControl := true;
     FeeLimitFixedMsat :=
       Float64.to_int64
         (PrimFloat.mul
            (Float64.of_int (Routes.calcFeeMsat amtMsat (snd (Routes.lastHop c myKey))))
            ratio) |}.


(** A later use of the two caches: a call of [getChanInfo] or of
    [getNodeInfo], with any key. *)
Inductive lookupCall : Type :=
| LookupChan (ctx : Context.t) (chanId : Z)
| LookupNode (pk : string).

Definition lookup1 {W} `{LightningClient W} (s : State W) (call : lookupCall) : State W :=
  match call with
  | LookupChan ctx chanId => snd (Routes.getChanInfo s ctx chanId)
  | LookupNode pk => snd (Routes.getNodeInfo s pk)
  end.

Definition lookups {W} `{LightningClient W} (calls : list lookupCall) (s : State W)
    : State W :=
  fold_left lookup1 calls s.

(** ** Packages strings and strconv, as far as [main.go] uses them *)

Module Strings.

(** [strings.ToLower] on the ASCII letters; every other byte is kept (no
    rune other than [X] has [x] as its lower case). *)
Definition lowerAscii (c : ascii) : ascii :=
  let n := N_of_ascii c in
  if ((65 <=? n) && (n <=? 90))%N then ascii_of_N (n + 32) else c.

Fixpoint ToLower (s : string) : string :=
  match s with
  | EmptyString => EmptyString
  | String c rest => String (lowerAscii c) (ToLower rest)
  end.

(** [strings.Count(s, sep)] for a separator of one byte. *)
Fixpoint Count (s : string) (sep : ascii) : Z :=
  match s with
  | EmptyString => 0
  | String c rest => (if Ascii.eqb c sep then 1 else 0) + Count rest sep
  end.

End Strings.

Module Strconv.

Definition digit (c : ascii) : option Z :=
  let n := Z.of_N (N_of_ascii c) in
  if (48 <=? n) && (n <=? 57) then Some (n - 48) else None.

(** The value of a run of decimal digits, most significant first. *)
Fixpoint digits (s : string) (acc : Z) : option Z :=
  match s with
  | EmptyString => Some acc
  | String c rest =>
      match digit c with
      | Some d => digits rest (acc * 10 + d)
      | None => None
      end
  end.

(** The digits after the sign: at least one, the signed value within
    [int64]. *)
Definition parseMagnitude (neg : bool) (body : string) : result Z :=
  match body with
  | EmptyString => Err (errorString "invalid syntax")
  | _ =>
      match digits body 0 with
      | None => Err (errorString "invalid syntax")
      | Some n =>
          let v := if neg then - n else n in
          if Int64.in_rangeb v then Ok v
          else Err (errorString "value out of range")
      end
  end.

(** [strconv.ParseInt(s, 10, 64)]: an optional sign, then one or more
    decimal digits, the value within [int64]. *)
Definition ParseInt (s : string) : result Z :=
  match s with
  | String "+" rest => parseMagnitude false rest
  | String "-" rest => parseMagnitude true rest
  | _ => parseMagnitude false s
  end.

(** [strconv.FormatInt(v, 10)], the decimal numeral of [v]. *)
Fixpoint formatNat (fuel : nat) (n : Z) (acc : string) : string :=
  match fuel with
  | O => acc
  | S fuel' =>
      let acc' := String (ascii_of_N (Z.to_N (48 + n mod 10))) acc in
      if n <? 10 then acc' else formatNat fuel' (n / 10) acc'
  end.

Definition FormatInt (v : Z) : string :=
  if v <? 0 then String "-" (formatNat (S (Z.to_nat (Z.log2 (- v)))) (- v) EmptyString)
  else formatNat (S (Z.to_nat (Z.log2 v))) v EmptyString.

End Strconv.

(** ** main.go *)

Module Main.

Record configParams : Type := {
  Config : string;
  Connect : string;
  TLSCert : string;
  MacaroonDir : string;
  MacaroonFilename : string;
  Network : string;
  FromPerc : Z;
  ToPerc : Z;
  Perc : Z;
  Amount : Z;
  RelAmountTo : float;
  RelAmountFrom : float;
  EconRatio : float;
  EconRatioMaxPPM : Z;
  FeeLimitPPM : Z;
  LostProfit : bool;
  ProbeSteps : Z;
  AllowRapidRebalance : bool;
  MinAmount : Z;
  ExcludeChannelsIn : list string;
  ExcludeChannelsOut : list string;
  ExcludeChannels : list string;
  ExcludeNodes : list string;
  Exclude : list string;
  To : list string;
  From : list string;
  FailTolerance : Z;
  AllowUnbalanceFrom : bool;
  AllowUnbalanceTo : bool;
  StatFilename : string;
  NodeCacheFilename : string;
  NodeCacheLifetime : Z;
  NodeCacheInfo : bool;
  TimeoutRebalance : Z;
  TimeoutAttempt : Z;
  TimeoutInfo : Z;
  TimeoutRoute : Z;
  Version : bool
}.

Definition set_Connect (v : string) (p : configParams) : configParams :=
  {| Config := Config p; Connect := v; TLSCert := TLSCert p;
     MacaroonDir := MacaroonDir p; MacaroonFilename := MacaroonFilename p;
     Network := Network p; FromPerc := FromPerc p; ToPerc := ToPerc p; Perc := Perc p;
     Amount := Amount p; RelAmountTo := RelAmountTo p;
     RelAmountFrom := RelAmountFrom p; EconRatio := EconRatio p;
     EconRatioMaxPPM := EconRatioMaxPPM p; FeeLimitPPM := FeeLimitPPM p;
     LostProfit := LostProfit p; ProbeSteps := ProbeSteps p;
     AllowRapidRebalance := AllowRapidRebalance p; MinAmount := MinAmount p;
     ExcludeChannelsIn := ExcludeChannelsIn p;
     ExcludeChannelsOut := ExcludeChannelsOut p; ExcludeChannels := ExcludeChannels p;
     ExcludeNodes := ExcludeNodes p; Exclude := Exclude p; To := To p; From := From p;
     FailTolerance := FailTolerance p; AllowUnbalanceFrom := AllowUnbalanceFrom p;
     AllowUnbalanceTo := AllowUnbalanceTo p; StatFilename := StatFilename p;
     NodeCacheFilename := NodeCacheFilename p;
     NodeCacheLifetime := NodeCacheLifetime p; NodeCacheInfo := NodeCacheInfo p;
     TimeoutRebalance := TimeoutRebalance p; TimeoutAttempt := TimeoutAttempt p;
     TimeoutInfo := TimeoutInfo p; TimeoutRoute := TimeoutRoute p;
     Version := Version p |}.

Definition set_MacaroonFilename (v : string) (p : configParams) : configParams :=
  {| Config := Config p; Connect := Connect p; TLSCert := TLSCert p;
     MacaroonDir := MacaroonDir p; MacaroonFilename := v; Network := Network p;
     FromPerc := FromPerc p; ToPerc := ToPerc p; Perc := Perc p; Amount := Amount p;
     RelAmountTo := RelAmountTo p; RelAmountFrom := RelAmountFrom p;
     EconRatio := EconRatio p; EconRatioMaxPPM := EconRatioMaxPPM p;
     FeeLimitPPM := FeeLimitPPM p; LostProfit := LostProfit p;
     ProbeSteps := ProbeSteps p; AllowRapidRebalance := AllowRapidRebalance p;
     MinAmount := MinAmount p; ExcludeChannelsIn := ExcludeChannelsIn p;
     ExcludeChannelsOut := ExcludeChannelsOut p; ExcludeChannels := ExcludeChannels p;
     ExcludeNodes := ExcludeNodes p; Exclude := Exclude p; To := To p; From := From p;
     FailTolerance := FailTolerance p; AllowUnbalanceFrom := AllowUnbalanceFrom p;
     AllowUnbalanceTo := AllowUnbalanceTo p; StatFilename := StatFilename p;
     NodeCacheFilename := NodeCacheFilename p;
     NodeCacheLifetime := NodeCacheLifetime p; NodeCacheInfo := NodeCacheInfo p;
     TimeoutRebalance := TimeoutRebalance p; TimeoutAttempt := TimeoutAttempt p;
     TimeoutInfo := TimeoutInfo p; TimeoutRoute := TimeoutRoute p;
     Version := Version p |}.

Definition set_Network (v : string) (p : configParams) : configParams :=
  {| Config := Config p; Connect := Connect p; TLSCert := TLSCert p;
     MacaroonDir := MacaroonDir p; MacaroonFilename := MacaroonFilename p;
     Network := v; FromPerc := FromPerc p; ToPerc := ToPerc p; Perc := Perc p;
     Amount := Amount p; RelAmountTo := RelAmountTo p;
     RelAmountFrom := RelAmountFrom p; EconRatio := EconRatio p;
     EconRatioMaxPPM := EconRatioMaxPPM p; FeeLimitPPM := FeeLimitPPM p;
     LostProfit := LostProfit p; ProbeSteps := ProbeSteps p;
     AllowRapidRebalance := AllowRapidRebalance p; MinAmount := MinAmount p;
     ExcludeChannelsIn := ExcludeChannelsIn p;
     ExcludeChannelsOut := ExcludeChannelsOut p; ExcludeChannels := ExcludeChannels p;
     ExcludeNodes := ExcludeNodes p; Exclude := Exclude p; To := To p; From := From p;
     FailTolerance := FailTolerance p; AllowUnbalanceFrom := AllowUnbalanceFrom p;
     AllowUnbalanceTo := AllowUnbalanceTo p; StatFilename := StatFilename p;
     NodeCacheFilename := NodeCacheFilename p;
     NodeCacheLifetime := NodeCacheLifetime p; NodeCacheInfo := NodeCacheInfo p;
     TimeoutRebalance := TimeoutRebalance p; TimeoutAttempt := TimeoutAttempt p;
     TimeoutInfo := TimeoutInfo p; TimeoutRoute := TimeoutRoute p;
     Version := Version p |}.

Definition set_FromPerc (v : Z) (p : configParams) : configParams :=
  {| Config := Config p; Connect := Connect p; TLSCert := TLSCert p;
     MacaroonDir := MacaroonDir p; MacaroonFilename := MacaroonFilename p;
     Network := Network p; FromPerc := v; ToPerc := ToPerc p; Perc := Perc p;
     Amount := Amount p; RelAmountTo := RelAmountTo p;
     RelAmountFrom := RelAmountFrom p; EconRatio := EconRatio p;
     EconRatioMaxPPM := EconRatioMaxPPM p; FeeLimitPPM := FeeLimitPPM p;
     LostProfit := LostProfit p; ProbeSteps := ProbeSteps p;
     AllowRapidRebalance := AllowRapidRebalance p; MinAmount := MinAmount p;
     ExcludeChannelsIn := ExcludeChannelsIn p;
     ExcludeChannelsOut := ExcludeChannelsOut p; ExcludeChannels := ExcludeChannels p;
     ExcludeNodes := ExcludeNodes p; Exclude := Exclude p; To := To p; From := From p;
     FailTolerance := FailTolerance p; AllowUnbalanceFrom := AllowUnbalanceFrom p;
     AllowUnbalanceTo := AllowUnbalanceTo p; StatFilename := StatFilename p;
     NodeCacheFilename := NodeCacheFilename p;
     NodeCacheLifetime := NodeCacheLifetime p; NodeCacheInfo := NodeCacheInfo p;
     TimeoutRebalance := TimeoutRebalance p; TimeoutAttempt := TimeoutAttempt p;
     TimeoutInfo := TimeoutInfo p; TimeoutRoute := TimeoutRoute p;
     Version := Version p |}.

Definition set_ToPerc (v : Z) (p : configParams) : configParams :=
  {| Config := Config p; Connect := Connect p; TLSCert := TLSCert p;
     MacaroonDir := MacaroonDir p; MacaroonFilename := MacaroonFilename p;
     Network := Network p; FromPerc := FromPerc p; ToPerc := v; Perc := Perc p;
     Amount := Amount p; RelAmountTo := RelAmountTo p;
     RelAmountFrom := RelAmountFrom p; EconRatio := EconRatio p;
     EconRatioMaxPPM := EconRatioMaxPPM p; FeeLimitPPM := FeeLimitPPM p;
     LostProfit := LostProfit p; ProbeSteps := ProbeSteps p;
     AllowRapidRebalance := AllowRapidRebalance p; MinAmount := MinAmount p;
     ExcludeChannelsIn := ExcludeChannelsIn p;
     ExcludeChannelsOut := ExcludeChannelsOut p; ExcludeChannels := ExcludeChannels p;
     ExcludeNodes := ExcludeNodes p; Exclude := Exclude p; To := To p; From := From p;
     FailTolerance := FailTolerance p; AllowUnbalanceFrom := AllowUnbalanceFrom p;
     AllowUnbalanceTo := AllowUnbalanceTo p; StatFilename := StatFilename p;
     NodeCacheFilename := NodeCacheFilename p;
     NodeCacheLifetime := NodeCacheLifetime p; NodeCacheInfo := NodeCacheInfo p;
     TimeoutRebalance := TimeoutRebalance p; TimeoutAttempt := TimeoutAttempt p;
     TimeoutInfo := TimeoutInfo p; TimeoutRoute := TimeoutRoute p;
     Version := Version p |}.

Definition set_EconRatio (v : float) (p : configParams) : configParams :=
  {| Config := Config p; Connect := Connect p; TLSCert := TLSCert p;
     MacaroonDir := MacaroonDir p; MacaroonFilename := MacaroonFilename p;
     Network := Network p; FromPerc := FromPerc p; ToPerc := ToPerc p; Perc := Perc p;
     Amount := Amount p; RelAmountTo := RelAmountTo p;
     RelAmountFrom := RelAmountFrom p; EconRatio := v;
     EconRatioMaxPPM := EconRatioMaxPPM p; FeeLimitPPM := FeeLimitPPM p;
     LostProfit := LostProfit p; ProbeSteps := ProbeSteps p;
     AllowRapidRebalance := AllowRapidRebalance p; MinAmount := MinAmount p;
     ExcludeChannelsIn := ExcludeChannelsIn p;
     ExcludeChannelsOut := ExcludeChannelsOut p; ExcludeChannels := ExcludeChannels p;
     ExcludeNodes := ExcludeNodes p; Exclude := Exclude p; To := To p; From := From p;
     FailTolerance := FailTolerance p; AllowUnbalanceFrom := AllowUnbalanceFrom p;
     AllowUnbalanceTo := AllowUnbalanceTo p; StatFilename := StatFilename p;
     NodeCacheFilename := NodeCacheFilename p;
     NodeCacheLifetime := NodeCacheLifetime p; NodeCacheInfo := NodeCacheInfo p;
     TimeoutRebalance := TimeoutRebalance p; TimeoutAttempt := TimeoutAttempt p;
     TimeoutInfo := TimeoutInfo p; TimeoutRoute := TimeoutRoute p;
     Version := Version p |}.

Definition set_FailTolerance (v : Z) (p : configParams) : configParams :=
  {| Config := Config p; Connect := Connect p; TLSCert := TLSCert p;
     MacaroonDir := MacaroonDir p; MacaroonFilename := MacaroonFilename p;
     Network := Network p; FromPerc := FromPerc p; ToPerc := ToPerc p; Perc := Perc p;
     Amount := Amount p; RelAmountTo := RelAmountTo p;
     RelAmountFrom := RelAmountFrom p; EconRatio := EconRatio p;
     EconRatioMaxPPM := EconRatioMaxPPM p; FeeLimitPPM := FeeLimitPPM p;
     LostProfit := LostProfit p; ProbeSteps := ProbeSteps p;
     AllowRapidRebalance := AllowRapidRebalance p; MinAmount := MinAmount p;
     ExcludeChannelsIn := ExcludeChannelsIn p;
     ExcludeChannelsOut := ExcludeChannelsOut p; ExcludeChannels := ExcludeChannels p;
     ExcludeNodes := ExcludeNodes p; Exclude := Exclude p; To := To p; From := From p;
     FailTolerance := v; AllowUnbalanceFrom := AllowUnbalanceFrom p;
     AllowUnbalanceTo := AllowUnbalanceTo p; StatFilename := StatFilename p;
     NodeCacheFilename := NodeCacheFilename p;
     NodeCacheLifetime := NodeCacheLifetime p; NodeCacheInfo := NodeCacheInfo p;
     TimeoutRebalance := TimeoutRebalance p; TimeoutAttempt := TimeoutAttempt p;
     TimeoutInfo := TimeoutInfo p; TimeoutRoute := TimeoutRoute p;
     Version := Version p |}.

Definition set_NodeCacheLifetime (v : Z) (p : configParams) : configParams :=
  {| Config := Config p; Connect := Connect p; TLSCert := TLSCert p;
     MacaroonDir := MacaroonDir p; MacaroonFilename := MacaroonFilename p;
     Network := Network p; FromPerc := FromPerc p; ToPerc := ToPerc p; Perc := Perc p;
     Amount := Amount p; RelAmountTo := RelAmountTo p;
     RelAmountFrom := RelAmountFrom p; EconRatio := EconRatio p;
     EconRatioMaxPPM := EconRatioMaxPPM p; FeeLimitPPM := FeeLimitPPM p;
     LostProfit := LostProfit p; ProbeSteps := ProbeSteps p;
     AllowRapidRebalance := AllowRapidRebalance p; MinAmount := MinAmount p;
     ExcludeChannelsIn := ExcludeChannelsIn p;
     ExcludeChannelsOut := ExcludeChannelsOut p; ExcludeChannels := ExcludeChannels p;
     ExcludeNodes := ExcludeNodes p; Exclude := Exclude p; To := To p; From := From p;
     FailTolerance := FailTolerance p; AllowUnbalanceFrom := AllowUnbalanceFrom p;
     AllowUnbalanceTo := AllowUnbalanceTo p; StatFilename := StatFilename p;
     NodeCacheFilename := NodeCacheFilename p; NodeCacheLifetime := v;
     NodeCacheInfo := NodeCacheInfo p; TimeoutRebalance := TimeoutRebalance p;
     TimeoutAttempt := TimeoutAttempt p; TimeoutInfo := TimeoutInfo p;
     TimeoutRoute := TimeoutRoute p; Version := Version p |}.

Definition set_TimeoutAttempt (v : Z) (p : configParams) : configParams :=
  {| Config := Config p; Connect := Connect p; TLSCert := TLSCert p;
     MacaroonDir := MacaroonDir p; MacaroonFilename := MacaroonFilename p;
     Network := Network p; FromPerc := FromPerc p; ToPerc := ToPerc p; Perc := Perc p;
     Amount := Amount p; RelAmountTo := RelAmountTo p;
     RelAmountFrom := RelAmountFrom p; EconRatio := EconRatio p;
     EconRatioMaxPPM := EconRatioMaxPPM p; FeeLimitPPM := FeeLimitPPM p;
     LostProfit := LostProfit p; ProbeSteps := ProbeSteps p;
     AllowRapidRebalance := AllowRapidRebalance p; MinAmount := MinAmount p;
     ExcludeChannelsIn := ExcludeChannelsIn p;
     ExcludeChannelsOut := ExcludeChannelsOut p; ExcludeChannels := ExcludeChannels p;
     ExcludeNodes := ExcludeNodes p; Exclude := Exclude p; To := To p; From := From p;
     FailTolerance := FailTolerance p; AllowUnbalanceFrom := AllowUnbalanceFrom p;
     AllowUnbalanceTo := AllowUnbalanceTo p; StatFilename := StatFilename p;
     NodeCacheFilename := NodeCacheFilename p;
     NodeCacheLifetime := NodeCacheLifetime p; NodeCacheInfo := NodeCacheInfo p;
     TimeoutRebalance := TimeoutRebalance p; TimeoutAttempt := v;
     TimeoutInfo := TimeoutInfo p; TimeoutRoute := TimeoutRoute p;
     Version := Version p |}.

Definition set_TimeoutRebalance (v : Z) (p : configParams) : configParams :=
  {| Config := Config p; Connect := Connect p; TLSCert := TLSCert p;
     MacaroonDir := MacaroonDir p; MacaroonFilename := MacaroonFilename p;
     Network := Network p; FromPerc := FromPerc p; ToPerc := ToPerc p; Perc := Perc p;
     Amount := Amount p; RelAmountTo := RelAmountTo p;
     RelAmountFrom := RelAmountFrom p; EconRatio := EconRatio p;
     EconRatioMaxPPM := EconRatioMaxPPM p; FeeLimitPPM := FeeLimitPPM p;
     LostProfit := LostProfit p; ProbeSteps := ProbeSteps p;
     AllowRapidRebalance := AllowRapidRebalance p; MinAmount := MinAmount p;
     ExcludeChannelsIn := ExcludeChannelsIn p;
     ExcludeChannelsOut := ExcludeChannelsOut p; ExcludeChannels := ExcludeChannels p;
     ExcludeNodes := ExcludeNodes p; Exclude := Exclude p; To := To p; From := From p;
     FailTolerance := FailTolerance p; AllowUnbalanceFrom := AllowUnbalanceFrom p;
     AllowUnbalanceTo := AllowUnbalanceTo p; StatFilename := StatFilename p;
     NodeCacheFilename := NodeCacheFilename p;
     NodeCacheLifetime := NodeCacheLifetime p; NodeCacheInfo := NodeCacheInfo p;
     TimeoutRebalance := v; TimeoutAttempt := TimeoutAttempt p;
     TimeoutInfo := TimeoutInfo p; TimeoutRoute := TimeoutRoute p;
     Version := Version p |}.

Definition set_TimeoutInfo (v : Z) (p : configParams) : configParams :=
  {| Config := Config p; Connect := Connect p; TLSCert := TLSCert p;
     MacaroonDir := MacaroonDir p; MacaroonFilename := MacaroonFilename p;
     Network := Network p; FromPerc := FromPerc p; ToPerc := ToPerc p; Perc := Perc p;
     Amount := Amount p; RelAmountTo := RelAmountTo p;
     RelAmountFrom := RelAmountFrom p; EconRatio := EconRatio p;
     EconRatioMaxPPM := EconRatioMaxPPM p; FeeLimitPPM := FeeLimitPPM p;
     LostProfit := LostProfit p; ProbeSteps := ProbeSteps p;
     AllowRapidRebalance := AllowRapidRebalance p; MinAmount := MinAmount p;
     ExcludeChannelsIn := ExcludeChannelsIn p;
     ExcludeChannelsOut := ExcludeChannelsOut p; ExcludeChannels := ExcludeChannels p;
     ExcludeNodes := ExcludeNodes p; Exclude := Exclude p; To := To p; From := From p;
     FailTolerance := FailTolerance p; AllowUnbalanceFrom := AllowUnbalanceFrom p;
     AllowUnbalanceTo := AllowUnbalanceTo p; StatFilename := StatFilename p;
     NodeCacheFilename := NodeCacheFilename p;
     NodeCacheLifetime := NodeCacheLifetime p; NodeCacheInfo := NodeCacheInfo p;
     TimeoutRebalance := TimeoutRebalance p; TimeoutAttempt := TimeoutAttempt p;
     TimeoutInfo := v; TimeoutRoute := TimeoutRoute p; Version := Version p |}.

Definition set_TimeoutRoute (v : Z) (p : configParams) : configParams :=
  {| Config := Config p; Connect := Connect p; TLSCert := TLSCert p;
     MacaroonDir := MacaroonDir p; MacaroonFilename := MacaroonFilename p;
     Network := Network p; FromPerc := FromPerc p; ToPerc := ToPerc p; Perc := Perc p;
     Amount := Amount p; RelAmountTo := RelAmountTo p;
     RelAmountFrom := RelAmountFrom p; EconRatio := EconRatio p;
     EconRatioMaxPPM := EconRatioMaxPPM p; FeeLimitPPM := FeeLimitPPM p;
     LostProfit := LostProfit p; ProbeSteps := ProbeSteps p;
     AllowRapidRebalance := AllowRapidRebalance p; MinAmount := MinAmount p;
     ExcludeChannelsIn := ExcludeChannelsIn p;
     ExcludeChannelsOut := ExcludeChannelsOut p; ExcludeChannels := ExcludeChannels p;
     ExcludeNodes := ExcludeNodes p; Exclude := Exclude p; To := To p; From := From p;
     FailTolerance := FailTolerance p; AllowUnbalanceFrom := AllowUnbalanceFrom p;
     AllowUnbalanceTo := AllowUnbalanceTo p; StatFilename := StatFilename p;
     NodeCacheFilename := NodeCacheFilename p;
     NodeCacheLifetime := NodeCacheLifetime p; NodeCacheInfo := NodeCacheInfo p;
     TimeoutRebalance := TimeoutRebalance p; TimeoutAttempt := TimeoutAttempt p;
     TimeoutInfo := TimeoutInfo p; TimeoutRoute := v; Version := Version p |}.


(** What a function that may end the process comes to: [os.Exit] and
    [log.Fatal] leave with a status, otherwise the function returns. *)
Inductive outcome (A : Type) : Type :=
| Exit (code : Z)
| Return (a : A).
Arguments Exit {A} code.
Arguments Return {A} a.

(** [convertChanStringToInt].  [parseScid] is declared in another file of
    the repository; [None] stands for a call that ended the process. *)
Section ConvertChanString.

Variable parseScid : string -> option Z.

Definition isScid (cid : string) : bool :=
  Strings.Count (Strings.ToLower cid) "x" =? 2.

(** The body of the loop: the id of one string, or the fatal exit. *)
Definition convertChanString (cid : string) : outcome Z :=
  match Strconv.ParseInt cid with
  | Ok chanId => Return (Int64.to_uint64 chanId)
  | Err _ =>
      if isScid cid then
        match parseScid cid with
        | Some chanId => Return (Int64.to_uint64 chanId)
        | None => Exit 1
        end
      else Exit 1
  end.

Fixpoint convertChanStringToInt_from (channels : list Z) (chanIds : list string)
    : outcome (list Z) :=
  match chanIds with
  | [] => Return channels
  | cid :: rest =>
      match convertChanString cid with
      | Exit code => Exit code
      | Return chanId => convertChanStringToInt_from (channels ++ [chanId]) rest
      end
  end.

Definition convertChanStringToInt (chanIds : list string) : outcome (list Z) :=
  convertChanStringToInt_from [] chanIds.

End ConvertChanString.

(** *** Statements over the parameters

    [preflightChecks] is a run of [if] statements on [*configParams]: each
    either assigns a field, or returns an error, or ends the process.  A
    statement maps the parameters to what comes next. *)
Inductive flow : Type :=
| Next (params : configParams)
| Done (o : outcome (configParams * option error)).

Definition stmt : Type := configParams -> flow.

Definition seq (a b : stmt) : stmt :=
  fun params => match a params with
                | Next params' => b params'
                | Done o => Done o
                end.

Definition when (cond : configParams -> bool) (body : stmt) : stmt :=
  fun params => if cond params then body params else Next params.

Definition assign (f : configParams -> configParams) : stmt :=
  fun params => Next (f params).

Definition ret (err : option error) : stmt :=
  fun params => Done (Return (params, err)).

Definition os_Exit (code : Z) : stmt :=
  fun _ => Done (Exit code).

Definition Errorf (msg : string) : option error := Some (errorString msg).

Declare Scope stmt_scope.
Delimit Scope stmt_scope with stmt.
Notation "a ;; b" := (seq a b) (at level 100, b at level 200, right associativity) : stmt_scope.

Definition relativeAmount (params : configParams) : bool :=
  PrimFloat.ltb 0%float (RelAmountFrom params) || PrimFloat.ltb 0%float (RelAmountTo params).

(** The body of [preflightChecks], statement by statement (what is only
    printed is left out). *)
Definition preflightChecks_body : stmt :=
  (when Version (os_Exit 1) ;;
  when (fun params => String.eqb (Connect params) "")
       (assign (set_Connect "127.0.0.1:10009")) ;;
  when (fun params => String.eqb (MacaroonFilename params) "")
       (assign (set_MacaroonFilename "admin.macaroon")) ;;
  when (fun params => String.eqb (Network params) "")
       (assign (set_Network "mainnet")) ;;
  when (fun params => FromPerc params =? 0) (assign (set_FromPerc 50)) ;;
  when (fun params => ToPerc params =? 0) (assign (set_ToPerc 50)) ;;
  when (fun params => PrimFloat.eqb (EconRatio params) 0%float && (FeeLimitPPM params =? 0))
       (assign (set_EconRatio 1%float)) ;;
  when (fun params => negb (EconRatioMaxPPM params =? 0) && negb (FeeLimitPPM params =? 0))
       (ret (Errorf "use either econ-ratio-max-ppm or fee-limit-ppm but not both")) ;;
  when (fun params => 0 <? Perc params)
       (assign (fun params => set_FromPerc (Perc params) params) ;;
        assign (fun params => set_ToPerc (Perc params) params)) ;;
  when (fun params => (0 <? MinAmount params) && (0 <? Amount params)
                      && (Amount params <? MinAmount params))
       (ret (Errorf "minimum amount should be less than amount")) ;;
  when (fun params => (0 <? Amount params) && relativeAmount params)
       (ret (Errorf "use either precise amount or relative amounts but not both")) ;;
  when (fun params => (Amount params =? 0)
                      && PrimFloat.eqb (RelAmountFrom params) 0%float
                      && PrimFloat.eqb (RelAmountTo params) 0%float)
       (ret (Errorf
          "no amount specified, use either --amount, --rel-amount-from, or --rel-amount-to")) ;;
  when (fun params => FailTolerance params =? 0) (assign (set_FailTolerance 1000)) ;;
  when (fun params => relativeAmount params && AllowRapidRebalance params)
       (ret (Errorf "use either relative amounts or rapid rebalance but not both")) ;;
  when (fun params => NodeCacheLifetime params =? 0) (assign (set_NodeCacheLifetime 1440)) ;;
  when (fun params => (0 <? Z.of_nat (length (ExcludeChannels params)))
                      || (0 <? Z.of_nat (length (ExcludeNodes params))))
       (when (fun params => 0 <? Z.of_nat (length (Exclude params)))
             (ret (Errorf
                "can't use --exclude and --exclude-channel/--exclude-node (or config parameters) at the same time"))) ;;
  when (fun params => TimeoutAttempt params =? 0) (assign (set_TimeoutAttempt 5)) ;;
  when (fun params => TimeoutRebalance params =? 0) (assign (set_TimeoutRebalance 360)) ;;
  when (fun params => TimeoutInfo params =? 0) (assign (set_TimeoutInfo 30)) ;;
  when (fun params => TimeoutRoute params =? 0) (assign (set_TimeoutRoute 30)) ;;
  ret None)%stmt.

(** [preflightChecks]: the parameters as the function leaves them and the
    error it returns, or the exit of the process (the version flag: status
    1, before anything is checked). *)
Definition preflightChecks (params : configParams) : outcome (configParams * option error) :=
  match preflightChecks_body params with
  | Done o => o
  | Next params' => Return (params', None)
  end.

(** The checks of [preflightChecks], in their order, on the parameters as
    parsed: the error that the first failing check returns. *)
Definition preflightError (params : configParams) : option error :=
  if negb (EconRatioMaxPPM params =? 0) && negb (FeeLimitPPM params =? 0) then
    Errorf "use either econ-ratio-max-ppm or fee-limit-ppm but not both"
  else if (0 <? MinAmount params) && (0 <? Amount params)
          && (Amount params <? MinAmount params) then
    Errorf "minimum amount should be less than amount"
  else if (0 <? Amount params) && relativeAmount params then
    Errorf "use either precise amount or relative amounts but not both"
  else if (Amount params =? 0) && PrimFloat.eqb (RelAmountFrom params) 0%float
          && PrimFloat.eqb (RelAmountTo params) 0%float then
    Errorf "no amount specified, use either --amount, --rel-amount-from, or --rel-amount-to"
  else if relativeAmount params && AllowRapidRebalance params then
    Errorf "use either relative amounts or rapid rebalance but not both"
  else if ((0 <? Z.of_nat (length (ExcludeChannels params)))
           || (0 <? Z.of_nat (length (ExcludeNodes params))))
          && (0 <? Z.of_nat (length (Exclude params))) then
    Errorf "can't use --exclude and --exclude-channel/--exclude-node (or config parameters) at the same time"
  else None.

(** *** The rebalance attempt and the session loop *)

(** The methods of [regolancer] and the functions that [main.go] calls and
    other files of the repository declare.  Each reads and writes the
    rebalancer and the world; [None] as an error is Go's [nil]. *)
Class Helpers (W : Type) : Type := {
  pickChannelPair : regolancer -> W -> Z -> Z -> float -> float ->
                    result (Z * Z * Z) * regolancer * W;
  getRoutes : regolancer -> W -> Context.t -> Z -> Z -> Z ->
              result (list Route * Z) * regolancer * W;
  addFailedRoute : regolancer -> W -> Z -> Z -> unit * regolancer * W;
  printRoute : regolancer -> W -> Context.t -> Route -> unit * regolancer * W;
  pay : regolancer -> W -> Context.t -> Z -> Z -> Route -> Z ->
        option error * regolancer * W;
  rebuildRoute : regolancer -> W -> Context.t -> Route -> Z ->
                 result Route * regolancer * W;
  invalidateInvoice : regolancer -> W -> Z -> unit * regolancer * W;
  getChannelCandidates : regolancer -> W -> Z -> Z -> Z ->
                         option error * regolancer * W;
  (** [lndclient.NewBasicConn] (lines 458-462 of [main]). *)
  connect : configParams -> W -> outcome unit * W;
  (** Lines 475-582 of [main]: node identity, channel lists and filters,
      candidate selection, node cache and signal handler. *)
  prepare : configParams -> Context.t -> regolancer -> W -> outcome unit * regolancer * W
}.

(** A call of a helper: it runs on the rebalancer and the world, and the
    trace records it. *)
Definition helper {W A} (s : State W) (ev : Event)
    (call : regolancer -> W -> A * regolancer * W) : A * State W :=
  let '(a, r, w) := call (reg s) (world s) in
  (a, {| reg := r; world := w; trace := trace s ++ [ev] |}).

(** [makeChanSet], declared in another file: the set of the listed ids. *)
Definition makeChanSet (ids : list Z) : gset Z := list_to_set ids.

Section Rebalance.

Context {W : Type} `{LightningClient W} `{Helpers W}.

(** The global [params], as [preflightChecks] left it. *)
Variable params : configParams.

(** Lines 286-309 of [tryRapidRebalance]: the working state is reset and
    the freshly listed channels of the two peers are taken over. *)
Definition resetWorkingState (r : regolancer) (from to : Z)
    (toChan fromChan : list Channel) : regolancer :=
  let r := set_fromChannelId r (makeChanSet [from]) in
  let r := set_toChannelId r (makeChanSet [to]) in
  let r := set_channels r [] in
  let r := set_fromChannels r [] in
  let r := set_toChannels r [] in
  let r := set_channels r (channels r ++ toChan) in
  let r := set_channels r (channels r ++ fromChan) in
  let r := set_failureCache r ∅ in
  let r := set_channelPairs r ∅ in
  r.

(** The key of the peer of our node on an edge (lines 263-266, 274-277);
    the error of the decoder is dropped, as in the source. *)
Definition peerOf (c : ChannelEdge) (myPK : string) : list Z :=
  if String.eqb (Node1Pub c) myPK
  then fst (Hex.DecodeString (Node2Pub c))
  else fst (Hex.DecodeString (Node1Pub c)).

(** [tryRapidRebalance]: the loop runs for as long as payments succeed, so
    the model takes fuel.  The result is what the function returns, [None]
    for a run that needs more fuel, and the state reached either way. *)
Fixpoint tryRapidRebalance_loop (fuel : nat) (ctx : Context.t) (s : State W)
    (from to : Z) (route : Route) (amt : Z) (rapidAttempt : Z)
    : option (Z * option error) * State W :=
  match fuel with
  | O => (None, s)
  | S fuel' =>
      let '(rTo, s) := Routes.getChanInfo s ctx to in
      match rTo with
      | Err err => (Some (rapidAttempt, Some err), s)
      | Ok cTo =>
      let '(rFrom, s) := Routes.getChanInfo s ctx from in
      match rFrom with
      | Err err => (Some (rapidAttempt, Some err), s)
      | Ok cFrom =>
      let fromPeer := peerOf cFrom (myPK (reg s)) in
      let reqFrom := {| ActiveOnly := true; PublicOnly := true; Peer := fromPeer |} in
      let '(rFromChan, s) := rpc s (RpcListChannels reqFrom)
                                 (fun w => ListChannels w ctx reqFrom) in
      match rFromChan with
      | Err err => (Some (rapidAttempt, Some err), s)
      | Ok fromChan =>
      let toPeer := peerOf cTo (myPK (reg s)) in
      let reqTo := {| ActiveOnly := true; PublicOnly := true; Peer := toPeer |} in
      let '(rToChan, s) := rpc s (RpcListChannels reqTo)
                               (fun w => ListChannels w ctx reqTo) in
      match rToChan with
      | Err err => (Some (rapidAttempt, Some err), s)
      | Ok toChan =>
      let s := set_reg s (resetWorkingState (reg s) from to toChan fromChan) in
      let '(eCand, s) :=
        helper s (EvGetChannelCandidates (reg s) (FromPerc params) (ToPerc params) amt)
               (fun r w => getChannelCandidates r w (FromPerc params) (ToPerc params) amt) in
      match eCand with
      | Some err => (Some (rapidAttempt, Some err), s)
      | None =>
      let '(rPick, s) :=
        helper s (EvPickChannelPair amt (MinAmount params)
                                    (RelAmountFrom params) (RelAmountTo params))
               (fun r w => pickChannelPair r w amt (MinAmount params)
                                           (RelAmountFrom params) (RelAmountTo params)) in
      match rPick with
      | Err err => (Some (rapidAttempt, Some err), s)
      | Ok (from, to, amt) =>
      let '(rRoute, s) := helper s (EvRebuildRoute ctx route amt)
                                 (fun r w => rebuildRoute r w ctx route amt) in
      match rRoute with
      | Err err => (Some (rapidAttempt, Some err), s)
      | Ok route =>
      let attemptCtx := Context.WithTimeout ctx (time_Now (world s))
                          (Int64.mul Minute (TimeoutAttempt params)) in
      let '(ePay, s) := helper s (EvPay attemptCtx amt (MinAmount params) route 0)
                               (fun r w => pay r w attemptCtx amt (MinAmount params) route 0) in
      if Context.deadlineExceeded attemptCtx (time_Now (world s)) then
        (Some (rapidAttempt, Some DeadlineExceeded), s)
      else
        match ePay with
        | Some _ => (Some (rapidAttempt, None), s)
        | None => tryRapidRebalance_loop fuel' ctx s from to route amt (rapidAttempt + 1)
        end
      end end end end end end end
  end.

Definition tryRapidRebalance (fuel : nat) (ctx : Context.t) (s : State W)
    (from to : Z) (route : Route) (amt : Z) : option (Z * option error) * State W :=
  tryRapidRebalance_loop fuel ctx s from to route amt 0.

(** Lines 187-233 of [tryRebalance], the loop over the routes found.  The
    result is [(err, repeat)], the attempt counter and the state. *)
Fixpoint tryRebalance_routes (fuel : nat) (ctx attemptCtx : Context.t)
    (from to : Z) (routes : list Route) (amt attempt : Z) (s : State W)
    : option ((option error * bool) * Z) * State W :=
  match routes with
  | [] => (Some ((None, true), attempt), s)
  | route :: rest =>
      let '(_, s) := helper s (EvPrintRoute attemptCtx route)
                            (fun r w => printRoute r w attemptCtx route) in
      let '(err, s) :=
        helper s (EvPay attemptCtx amt (MinAmount params) route (ProbeSteps params))
               (fun r w => pay r w attemptCtx amt (MinAmount params) route (ProbeSteps params)) in
      match err with
      | None =>
          if AllowRapidRebalance params then
            match tryRapidRebalance fuel ctx s from to route amt with
            | (None, s) => (None, s)
            | (Some _, s) => (Some ((None, false), attempt), s)
            end
          else (Some ((None, false), attempt), s)
      | Some (ErrRetry amount) =>
          let amt := amount in
          let '(rProbed, s) := helper s (EvRebuildRoute attemptCtx route amt)
                                      (fun r w => rebuildRoute r w attemptCtx route amt) in
          match rProbed with
          | Err _ => tryRebalance_routes fuel ctx attemptCtx from to rest amt (attempt + 1) s
          | Ok probedRoute =>
              let '(err, s) := helper s (EvPay ctx amt 0 probedRoute 0)
                                      (fun r w => pay r w ctx amt 0 probedRoute 0) in
              match err with
              | None =>
                  if AllowRapidRebalance params && (0 <? MinAmount params) then
                    match tryRapidRebalance fuel ctx s from to probedRoute amt with
                    | (None, s) => (None, s)
                    | (Some _, s) => (Some ((None, false), attempt), s)
                    end
                  else (Some ((None, false), attempt), s)
              | Some _ =>
                  let '(_, s) := helper s (EvInvalidateInvoice amt)
                                        (fun r w => invalidateInvoice r w amt) in
                  tryRebalance_routes fuel ctx attemptCtx from to rest amt (attempt + 1) s
              end
          end
      | Some _ => tryRebalance_routes fuel ctx attemptCtx from to rest amt (attempt + 1) s
      end
  end.

Definition tryRebalance (fuel : nat) (ctx : Context.t) (s : State W) (attempt : Z)
    : option ((option error * bool) * Z) * State W :=
  let attemptCtx := Context.WithTimeout ctx (time_Now (world s))
                      (Int64.mul Minute (TimeoutAttempt params)) in
  let '(rPick, s) :=
    helper s (EvPickChannelPair (Amount params) (MinAmount params)
                                (RelAmountFrom params) (RelAmountTo params))
           (fun r w => pickChannelPair r w (Amount params) (MinAmount params)
                                       (RelAmountFrom params) (RelAmountTo params)) in
  match rPick with
  | Err err => (Some ((Some err, false), attempt), s)
  | Ok (from, to, amt) =>
      let routeCtx := Context.WithTimeout attemptCtx (time_Now (world s))
                        (Int64.mul Second (TimeoutRoute params)) in
      let '(rRoutes, s) :=
        helper s (EvGetRoutes routeCtx from to (Int64.mul amt 1000))
               (fun r w => getRoutes r w routeCtx from to (Int64.mul amt 1000)) in
      match rRoutes with
      | Err err =>
          if Context.deadlineExceeded routeCtx (time_Now (world s)) then
            (Some ((Some err, false), attempt), s)
          else
            let '(_, s) := helper s (EvAddFailedRoute from to)
                                  (fun r w => addFailedRoute r w from to) in
            (Some ((Some err, true), attempt), s)
      | Ok (routes, fee) =>
          tryRebalance_routes fuel ctx attemptCtx from to routes amt attempt s
      end
  end.

(** How the session loop of [main] (lines 584-593) ends. *)
Inductive sessionEnd : Type :=
| SessionTimedOut
| SessionFinished.

(** The loop, with the number of attempts it made. *)
Fixpoint sessionLoop (fuel : nat) (mainCtx : Context.t) (s : State W)
    (attempt : Z) (attempts : nat) : option (sessionEnd * nat) * State W :=
  match fuel with
  | O => (None, s)
  | S fuel' =>
      match tryRebalance fuel' mainCtx s attempt with
      | (None, s) => (None, s)
      | (Some ((_, retry), attempt), s) =>
          if Context.deadlineExceeded mainCtx (time_Now (world s)) then
            (Some (SessionTimedOut, S attempts), s)
          else if negb retry then
            (Some (SessionFinished, S attempts), s)
          else sessionLoop fuel' mainCtx s attempt (S attempts)
      end
  end.

(** The rebalancer that [main] starts with (lines 463-470). *)
Definition newRegolancer (params : configParams) : regolancer :=
  {| myPK := ""; channels := []; fromChannels := []; fromChannelId := ∅;
     toChannels := []; toChannelId := ∅; channelPairs := ∅; nodeCache := ∅;
     chanCache := ∅; failureCache := ∅; excludeIn := ∅; excludeOut := ∅;
     excludeBoth := ∅; excludeNodes := []; statFilename := StatFilename params;
     routeFound := false; invoiceCache := ∅; mcCache := ∅; failedPairs := [] |}.

End Rebalance.

(** One more entry of the trace: the start-up of [main]. *)
Definition startup {W A} (s : State W) (call : regolancer -> W -> A * regolancer * W)
    : A * State W :=
  let '(a, r, w) := call (reg s) (world s) in
  (a, {| reg := r; world := w; trace := trace s ++ [EvStartup] |}).

(** [main], from the parsed parameters on: the exit status of the process
    ([None] for a run that needs more fuel) and the state reached.
    [log.Fatal] exits with status 1; returning from [main] exits with
    status 0.  The rebalancer of line 463 stands in the state from the
    start; nothing reads it before it is built. *)
Definition main {W : Type} `{LightningClient W} `{Helpers W} (fuel : nat)
    (parsed : configParams) (w : W) : option Z * State W :=
  let s := {| reg := newRegolancer parsed; world := w; trace := [] |} in
  match preflightChecks parsed with
  | Exit code => (Some code, s)
  | Return (_, Some err) => (Some 1, s)
  | Return (params, None) =>
      match startup s (fun r w => let '(o, w) := connect params w in (o, r, w)) with
      | (Exit code, s) => (Some code, s)
      | (Return _, s) =>
          let s := set_reg s (newRegolancer params) in
          let mainCtx := Context.WithTimeout Context.Background (time_Now (world s))
                           (Int64.mul Minute (TimeoutRebalance params)) in
          match startup s (prepare params mainCtx) with
          | (Exit code, s) => (Some code, s)
          | (Return _, s) =>
              match sessionLoop params fuel mainCtx s 1 0 with
              | (None, s) => (None, s)
              | (Some _, s) => (Some 0, s)
              end
          end
      end
  end.

End Main.

(** ** Reading traces *)

Definition isPay (e : Event) : bool :=
  match e with
  | EvPay _ _ _ _ _ => true
  | _ => false
  end.

Definition isInvalidateInvoice (e : Event) : bool :=
  match e with
  | EvInvalidateInvoice _ => true
  | _ => false
  end.

Definition isCandidates (e : Event) : bool :=
  match e with
  | EvGetChannelCandidates _ _ _ _ => true
  | _ => false
  end.

(** How many times [pay] was called. *)
Definition countPays (tr : list Event) : nat := length (filter isPay tr).

(** Any event but a call of [getChannelCandidates]. *)
Definition quiet (e : Event) : Prop :=
  match e with
  | EvGetChannelCandidates _ _ _ _ => False
  | _ => True
  end.

(** The working state that holds nothing but the channels just listed:
    those of the target's peer, then those of the source's peer. *)
Definition freshState (r : regolancer) (toChan fromChan : list Channel) : Prop :=
  channels r = toChan ++ fromChan /\
  fromChannels r = [] /\
  toChannels r = [] /\
  failureCache r = ∅ /\
  channelPairs r = ∅.

(** A stretch of a trace in which every call of [getChannelCandidates]
    comes right after the two successful [ListChannels] calls (source peer,
    then target peer) and is handed a fresh working state made of their
    answers. *)
Inductive freshCandidates : list Event -> Prop :=
| fresh_nil : freshCandidates []
| fresh_quiet (e : Event) (evs : list Event) :
    quiet e -> freshCandidates evs -> freshCandidates (e :: evs)
| fresh_iteration (reqFrom reqTo : ListChannelsRequest) (fromChan toChan : list Channel)
    (r : regolancer) (fromPerc toPerc amount : Z) (evs : list Event) :
    freshState r toChan fromChan ->
    freshCandidates evs ->
    freshCandidates (EvRpc (RpcListChannels reqFrom (Ok fromChan))
                     :: EvRpc (RpcListChannels reqTo (Ok toChan))
                     :: EvGetChannelCandidates r fromPerc toPerc amount
                     :: evs).

(** ** More readings of strings and traces *)

(** A hexadecimal digit, in either case. *)
Definition hexDigit (c : ascii) : bool :=
  existsb (Ascii.eqb c) (list_ascii_of_string "0123456789abcdefABCDEF").

(** A string that [hex.DecodeString] takes: hexadecimal digits, an even
    number of them. *)
Definition hexString (s : string) : bool :=
  Nat.even (String.length s) && forallb hexDigit (list_ascii_of_string s).

(** The first character of a string that is no hexadecimal digit. *)
Fixpoint firstNonHex (s : string) : option ascii :=
  match s with
  | EmptyString => None
  | String c rest => if hexDigit c then firstNonHex rest else Some c
  end.

Definition isQueryRoutes (e : Event) : bool :=
  match e with
  | EvRpc (RpcQueryRoutes _ _) => true
  | _ => false
  end.

Definition isChanInfoRpc (e : Event) : bool :=
  match e with
  | EvRpc (RpcGetChanInfo _ _) => true
  | _ => false
  end.

Definition isNodeInfoRpc (e : Event) : bool :=
  match e with
  | EvRpc (RpcGetNodeInfo _ _) => true
  | _ => false
  end.

Definition isGetRoutes (e : Event) : bool :=
  match e with
  | EvGetRoutes _ _ _ _ => true
  | _ => false
  end.

Definition isAddFailedRoute (e : Event) : bool :=
  match e with
  | EvAddFailedRoute _ _ => true
  | _ => false
  end.

Definition isHopLine (p : Routes.printed) : bool :=
  match p with
  | Routes.PrintHop _ _ _ => true
  | _ => false
  end.

Definition isErrorLine (p : Routes.printed) : bool :=
  match p with
  | Routes.PrintErrors _ => true
  | _ => false
  end.

Definition isPrintRoute (e : Event) : bool :=
  match e with
  | EvPrintRoute _ _ => true
  | _ => false
  end.

(** How many entries of a trace are of a kind. *)
Definition count (kind : Event -> bool) (tr : list Event) : nat :=
  length (filter kind tr).

(** The last entry of a trace is a call of [pay]. *)
Definition endsWithPay (tr : list Event) : bool := isPay (List.last tr EvStartup).

(** The calls that a rapid rebalance under [ctx] makes: channel look-ups,
    listings of active public channels, the candidates and the pair with the
    parameters' bounds, the rebuilding of the route under [ctx], and payments
    without probing under an attempt timeout of [ctx]. *)
Definition rapidEvent (params : Main.configParams) (ctx : Context.t) (e : Event) : Prop :=
  match e with
  | EvRpc (RpcGetChanInfo _ _) => True
  | EvRpc (RpcListChannels req _) => ActiveOnly req = true /\ PublicOnly req = true
  | EvGetChannelCandidates _ fromPerc toPerc _ =>
      fromPerc = Main.FromPerc params /\ toPerc = Main.ToPerc params
  | EvPickChannelPair _ minAmount relFrom relTo =>
      minAmount = Main.MinAmount params /\ relFrom = Main.RelAmountFrom params /\
      relTo = Main.RelAmountTo params
  | EvRebuildRoute c _ _ => c = ctx
  | EvPay c _ minAmount _ probeSteps =>
      minAmount = Main.MinAmount params /\ probeSteps = 0 /\
      exists now,
        c = Context.WithTimeout ctx now (Int64.mul Minute (Main.TimeoutAttempt params))
  | _ => False
  end.

(** The parameters as an accepting [preflightChecks] leaves them: every
    default filled in, [perc] written over [pfrom] and [pto]. *)
Definition preflightDefaults (params : Main.configParams) : Main.configParams :=
  {|
     Main.Config := Main.Config params;
     Main.Connect :=
       if String.eqb (Main.Connect params) "" then "127.0.0.1:10009" else Main.Connect params;
     Main.TLSCert := Main.TLSCert params;
     Main.MacaroonDir := Main.MacaroonDir params;
     Main.MacaroonFilename :=
       if String.eqb (Main.MacaroonFilename params) "" then "admin.macaroon"
       else Main.MacaroonFilename params;
     Main.Network :=
       if String.eqb (Main.Network params) "" then "mainnet" else Main.Network params;
     Main.FromPerc :=
       if 0 <? Main.Perc params then Main.Perc params
       else if Main.FromPerc params =? 0 then 50 else Main.FromPerc params;
     Main.ToPerc :=
       if 0 <? Main.Perc params then Main.Perc params
       else if Main.ToPerc params =? 0 then 50 else Main.ToPerc params;
     Main.Perc := Main.Perc params;
     Main.Amount := Main.Amount params;
     Main.RelAmountTo := Main.RelAmountTo params;
     Main.RelAmountFrom := Main.RelAmountFrom params;
     Main.EconRatio :=
       if PrimFloat.eqb (Main.EconRatio params) 0%float && (Main.FeeLimitPPM params =? 0)
       then 1%float else Main.EconRatio params;
     Main.EconRatioMaxPPM := Main.EconRatioMaxPPM params;
     Main.FeeLimitPPM := Main.FeeLimitPPM params;
     Main.LostProfit := Main.LostProfit params;
     Main.ProbeSteps := Main.ProbeSteps params;
     Main.AllowRapidRebalance := Main.AllowRapidRebalance params;
     Main.MinAmount := Main.MinAmount params;
     Main.ExcludeChannelsIn := Main.ExcludeChannelsIn params;
     Main.ExcludeChannelsOut := Main.ExcludeChannelsOut params;
     Main.ExcludeChannels := Main.ExcludeChannels params;
     Main.ExcludeNodes := Main.ExcludeNodes params;
     Main.Exclude := Main.Exclude params;
     Main.To := Main.To params;
     Main.From := Main.From params;
     Main.FailTolerance :=
       if Main.FailTolerance params =? 0 then 1000 else Main.FailTolerance params;
     Main.AllowUnbalanceFrom := Main.AllowUnbalanceFrom params;
     Main.AllowUnbalanceTo := Main.AllowUnbalanceTo params;
     Main.StatFilename := Main.StatFilename params;
     Main.NodeCacheFilename := Main.NodeCacheFilename params;
     Main.NodeCacheLifetime :=
       if Main.NodeCacheLifetime params =? 0 then 1440
       else Main.NodeCacheLifetime params;
     Main.NodeCacheInfo := Main.NodeCacheInfo params;
     Main.TimeoutRebalance :=
       if Main.TimeoutRebalance params =? 0 then 360
       else Main.TimeoutRebalance params;
     Main.TimeoutAttempt :=
       if Main.TimeoutAttempt params =? 0 then 5 else Main.TimeoutAttempt params;
     Main.TimeoutInfo :=
       if Main.TimeoutInfo params =? 0 then 30 else Main.TimeoutInfo params;
     Main.TimeoutRoute :=
       if Main.TimeoutRoute params =? 0 then 30 else Main.TimeoutRoute params;
     Main.Version := Main.Version params |}.

(** The parameters that [preflightChecks] has no assignment for. *)
Definition sameChoices (params params' : Main.configParams) : Prop :=
  Main.Config params' = Main.Config params /\
  Main.TLSCert params' = Main.TLSCert params /\
  Main.MacaroonDir params' = Main.MacaroonDir params /\
  Main.Perc params' = Main.Perc params /\
  Main.Amount params' = Main.Amount params /\
  Main.RelAmountTo params' = Main.RelAmountTo params /\
  Main.RelAmountFrom params' = Main.RelAmountFrom params /\
  Main.EconRatioMaxPPM params' = Main.EconRatioMaxPPM params /\
  Main.FeeLimitPPM params' = Main.FeeLimitPPM params /\
  Main.LostProfit params' = Main.LostProfit params /\
  Main.ProbeSteps params' = Main.ProbeSteps params /\
  Main.AllowRapidRebalance params' = Main.AllowRapidRebalance params /\
  Main.MinAmount params' = Main.MinAmount params /\
  Main.ExcludeChannelsIn params' = Main.ExcludeChannelsIn params /\
  Main.ExcludeChannelsOut params' = Main.ExcludeChannelsOut params /\
  Main.ExcludeChannels params' = Main.ExcludeChannels params /\
  Main.ExcludeNodes params' = Main.ExcludeNodes params /\
  Main.Exclude params' = Main.Exclude params /\
  Main.To params' = Main.To params /\
  Main.From params' = Main.From params /\
  Main.AllowUnbalanceFrom params' = Main.AllowUnbalanceFrom params /\
  Main.AllowUnbalanceTo params' = Main.AllowUnbalanceTo params /\
  Main.StatFilename params' = Main.StatFilename params /\
  Main.NodeCacheFilename params' = Main.NodeCacheFilename params /\
  Main.NodeCacheInfo params' = Main.NodeCacheInfo params /\
  Main.Version params' = Main.Version params.

(** The six checks, one by one, in words of the parameters. *)
Definition consistent (params : Main.configParams) : Prop :=
  (Main.EconRatioMaxPPM params = 0 \/ Main.FeeLimitPPM params = 0) /\
  ~ (0 < Main.MinAmount params /\ 0 < Main.Amount params /\
     Main.Amount params < Main.MinAmount params) /\
  ~ (0 < Main.Amount params /\ Main.relativeAmount params = true) /\
  ~ (Main.Amount params = 0 /\ PrimFloat.eqb (Main.RelAmountFrom params) 0%float = true /\
     PrimFloat.eqb (Main.RelAmountTo params) 0%float = true) /\
  ~ (Main.relativeAmount params = true /\ Main.AllowRapidRebalance params = true) /\
  ~ ((Main.ExcludeChannels params <> [] \/ Main.ExcludeNodes params <> []) /\
     Main.Exclude params <> []).

(** ** The specification's words *)

Module Spec.

(** "RoutingPolicy.fee(amt_msat) = base_msat + amt_msat × rate_ppm /
    1_000_000", in exact integer arithmetic with truncating division. *)
Definition fee (policy : RoutingPolicy) (amt_msat : Z) : Z :=
  FeeBaseMsat policy + Z.quot (amt_msat * FeeRateMilliMsat policy) 1000000.

(** The policy of an edge that belongs to the endpoint with key [pk]:
    [Node1Policy] is node 1's, [Node2Policy] is node 2's. *)
Definition belongsTo (c : ChannelEdge) (pk : string) (policy : RoutingPolicy) : Prop :=
  (pk = Node1Pub c /\ policy = Node1Policy c) \/
  (pk = Node2Pub c /\ policy = Node2Policy c).


(** "detected by two x characters", in either case: the string has
    exactly two characters that are [x] or [X]. *)
Fixpoint countX (s : string) : Z :=
  match s with
  | EmptyString => 0
  | String c rest =>
      (if Ascii.eqb c "x" || Ascii.eqb c "X" then 1 else 0) + countX rest
  end.

Definition hasTwoX (s : string) : bool := countX s =? 2.

End Spec.

(** ** Worlds to run the program in *)

Module Sample.

(** Scenario 1 of the specification: our node [02aa] has channel 1 with
    peer [03bb] and channel 2 with peer [03cc]; we are node 1 of both. *)
Definition ourKey : string := "02aa".

Definition ourPolicyA : RoutingPolicy :=
  {| TimeLockDelta := 40; MinHtlc := 1000; FeeBaseMsat := 1000;
     FeeRateMilliMsat := 100; MaxHtlcMsat := 990000000 |}.

Definition ourPolicyB : RoutingPolicy :=
  {| TimeLockDelta := 40; MinHtlc := 1000; FeeBaseMsat := 1000;
     FeeRateMilliMsat := 500; MaxHtlcMsat := 990000000 |}.

Definition peerPolicy : RoutingPolicy :=
  {| TimeLockDelta := 144; MinHtlc := 1; FeeBaseMsat := 0;
     FeeRateMilliMsat := 1; MaxHtlcMsat := 990000000 |}.

Definition edgeA : ChannelEdge :=
  {| ChannelId := 1; Node1Pub := ourKey; Node2Pub := "03bb"; EdgeCapacity := 1000000;
     Node1Policy := ourPolicyA; Node2Policy := peerPolicy |}.

Definition edgeB : ChannelEdge :=
  {| ChannelId := 2; Node1Pub := ourKey; Node2Pub := "03cc"; EdgeCapacity := 1000000;
     Node1Policy := ourPolicyB; Node2Policy := peerPolicy |}.

Definition chanA : Channel :=
  {| Active := true; RemotePubkey := "03bb"; ChanId := 1; Capacity := 1000000;
     LocalBalance := 900000; RemoteBalance := 100000 |}.

Definition chanB : Channel :=
  {| Active := true; RemotePubkey := "03cc"; ChanId := 2; Capacity := 1000000;
     LocalBalance := 100000; RemoteBalance := 900000 |}.

Definition hopOut : Hop :=
  {| HopChanId := 1; HopPubKey := "03bb"; AmtToForwardMsat := 100010000; FeeMsat := 0 |}.

Definition hopBack : Hop :=
  {| HopChanId := 2; HopPubKey := ourKey; AmtToForwardMsat := 100000000; FeeMsat := 10000 |}.

Definition route0 : Route :=
  {| Hops := [hopOut; hopBack]; TotalFeesMsat := 10000; TotalAmtMsat := 100010000 |}.

Definition nodeB : NodeInfo :=
  {| Alias := "bob"; LastUpdate := 1700000000; NumChannels := 12; TotalCapacity := 50000000 |}.

(** The world: the clock, what the node answers, and how the helpers of
    the other files behave. *)
Record sim : Type := {
  now : Z;
  nodeDown : bool;
  routeDelay : Z;
  routeFails : bool;
  rebuildFails : bool;
  payAnswers : list (option error)
}.

Definition tick (d : Z) (w : sim) : sim :=
  {| now := now w + d; nodeDown := nodeDown w; routeDelay := routeDelay w;
     routeFails := routeFails w; rebuildFails := rebuildFails w;
     payAnswers := payAnswers w |}.

Definition nextPay (w : sim) : option error * sim :=
  match payAnswers w with
  | [] => (Some (errorString "payment failed"), w)
  | a :: rest =>
      (a, {| now := now w; nodeDown := nodeDown w; routeDelay := routeDelay w;
             routeFails := routeFails w; rebuildFails := rebuildFails w;
             payAnswers := rest |})
  end.

Definition unavailable {A} : result A := Err (errorString "rpc error: unavailable").

#[export] Instance client : LightningClient sim := {|
  time_Now := now;
  GetChanInfo := fun w _ chanId =>
    (if nodeDown w then unavailable
     else if chanId =? 1 then Ok edgeA
     else if chanId =? 2 then Ok edgeB
     else Err (errorString "edge not found"), tick 1 w);
  GetNodeInfo := fun w _ pk =>
    (if nodeDown w then unavailable
     else if String.eqb pk "03cc" then Ok nodeB
     else Err (errorString "unable to find node"), tick 1 w);
  QueryRoutes := fun w _ req => (if nodeDown w then unavailable else Ok [route0], tick 1 w);
  ListChannels := fun w _ req =>
    (if nodeDown w then unavailable
     else Ok (if bool_decide (Peer req = [3; 187]) then [chanA] else [chanB]),
     tick 1 w)
|}.

Definition pairKey (from to : Z) : string :=
  (Strconv.FormatInt from ++ "-" ++ Strconv.FormatInt to)%string.

#[export] Instance helpers : Main.Helpers sim := {|
  Main.pickChannelPair := fun r w amount _ _ _ => (Ok (1, 2, amount), r, w);
  Main.getRoutes := fun r w _ _ _ _ =>
    (if routeFails w then Err (errorString "no route") else Ok ([route0], 51000),
     r, tick (routeDelay w) w);
  Main.addFailedRoute := fun r w from to =>
    (tt, set_failureCache r
           (<[pairKey from to :=
                {| channelPair := (chanA, chanB); expiration := Some (now w + 5 * Minute) |}]>
              (failureCache r)), w);
  Main.printRoute := fun r w _ _ => (tt, r, w);
  Main.pay := fun r w _ _ _ _ _ => let '(a, w') := nextPay w in (a, r, tick Second w');
  Main.rebuildRoute := fun r w _ route _ =>
    (if rebuildFails w then Err (errorString "cannot rebuild") else Ok route, r, w);
  Main.invalidateInvoice := fun r w _ => (tt, r, w);
  Main.getChannelCandidates := fun r w _ _ _ =>
    (None, set_toChannels (set_fromChannels r [chanA]) [chanB], w);
  Main.connect := fun _ w => (Main.Return tt, w);
  Main.prepare := fun _ _ r w => (Main.Return tt, r, w)
|}.

Definition bare : regolancer :=
  {| myPK := ourKey; channels := [chanA; chanB]; fromChannels := [chanA];
     fromChannelId := ∅; toChannels := [chanB]; toChannelId := ∅;
     channelPairs := ∅; nodeCache := ∅; chanCache := ∅; failureCache := ∅;
     excludeIn := ∅; excludeOut := ∅; excludeBoth := ∅; excludeNodes := [];
     statFilename := ""; routeFound := false; invoiceCache := ∅; mcCache := ∅;
     failedPairs := [] |}.

Definition calm : sim :=
  {| now := 0; nodeDown := false; routeDelay := Second; routeFails := false;
     rebuildFails := false; payAnswers := [] |}.

(** The route query fails when the 30 seconds of the route context are
    over. *)
Definition slowRoutes : sim :=
  {| now := 0; nodeDown := false; routeDelay := 30 * Second; routeFails := true;
     rebuildFails := false; payAnswers := [] |}.

(** The route query fails at once. *)
Definition noRoutes : sim :=
  {| now := 0; nodeDown := false; routeDelay := Second; routeFails := true;
     rebuildFails := false; payAnswers := [] |}.

(** The payment fails at the last hop and the prober comes back with
    55_000; the probed payment then succeeds, or fails, or the route cannot
    be rebuilt at that amount. *)
Definition probedThenPaid : sim :=
  {| now := 0; nodeDown := false; routeDelay := Second; routeFails := false;
     rebuildFails := false; payAnswers := [Some (ErrRetry 55000); None] |}.

Definition probedThenFailed : sim :=
  {| now := 0; nodeDown := false; routeDelay := Second; routeFails := false;
     rebuildFails := false;
     payAnswers := [Some (ErrRetry 55000); Some (errorString "payment failed")] |}.

Definition probedNoRebuild : sim :=
  {| now := 0; nodeDown := false; routeDelay := Second; routeFails := false;
     rebuildFails := true; payAnswers := [Some (ErrRetry 55000)] |}.

(** Two rapid payments succeed, the third fails. *)
Definition rapidTwice : sim :=
  {| now := 0; nodeDown := false; routeDelay := Second; routeFails := false;
     rebuildFails := false; payAnswers := [None; None] |}.

(** The node does not answer. *)
Definition down : sim :=
  {| now := 0; nodeDown := true; routeDelay := Second; routeFails := false;
     rebuildFails := false; payAnswers := [] |}.

Definition start (w : sim) : State sim :=
  {| reg := bare; world := w; trace := [] |}.

(** Parameters as the command line gives them: scenario 1 of the
    specification, with the amounts, the fee bounds and the flags to choose. *)
Definition config (amount minAmount maxPPM feeLimitPPM : Z) (relTo : float)
    (rapid version : bool) : Main.configParams :=
  {| Main.Config := ""; Main.Connect := ""; Main.TLSCert := ""; Main.MacaroonDir := "";
     Main.MacaroonFilename := ""; Main.Network := ""; Main.FromPerc := 50;
     Main.ToPerc := 50; Main.Perc := 0; Main.Amount := amount;
     Main.RelAmountTo := relTo; Main.RelAmountFrom := 0%float;
     Main.EconRatio := 1%float; Main.EconRatioMaxPPM := maxPPM;
     Main.FeeLimitPPM := feeLimitPPM;
     Main.LostProfit := false; Main.ProbeSteps := 4; Main.AllowRapidRebalance := rapid;
     Main.MinAmount := minAmount; Main.ExcludeChannelsIn := []; Main.ExcludeChannelsOut := [];
     Main.ExcludeChannels := []; Main.ExcludeNodes := []; Main.Exclude := [];
     Main.To := []; Main.From := []; Main.FailTolerance := 1000;
     Main.AllowUnbalanceFrom := false; Main.AllowUnbalanceTo := false;
     Main.StatFilename := ""; Main.NodeCacheFilename := ""; Main.NodeCacheLifetime := 1440;
     Main.NodeCacheInfo := false; Main.TimeoutRebalance := 360; Main.TimeoutAttempt := 5;
     Main.TimeoutInfo := 30; Main.TimeoutRoute := 30; Main.Version := version |}.

Definition params : Main.configParams := config 100000 10000 0 0 0%float false false.

(** The session context of a run that starts at time 0 (360 minutes), the
    context of its first attempt (5 minutes) and of its route query (30
    seconds). *)
Definition sessionCtx : Context.t :=
  Context.WithTimeout Context.Background 0 (Int64.mul Minute 360).

Definition attemptCtx : Context.t :=
  Context.WithTimeout sessionCtx 0 (Int64.mul Minute 5).

Definition routeCtx : Context.t :=
  Context.WithTimeout attemptCtx 0 (Int64.mul Second 30).

End Sample.


(** ** More inputs *)

Module Cases.

(** A route of two hops through the node [03cc], the only one whose
    information the sample node serves. *)
Definition hopKnown1 : Hop :=
  {| HopChanId := 2; HopPubKey := "03cc"; AmtToForwardMsat := 100010000; FeeMsat := 7 |}.

Definition hopKnown2 : Hop :=
  {| HopChanId := 5; HopPubKey := "03cc"; AmtToForwardMsat := 100000000; FeeMsat := 10000 |}.

Definition routeKnown : Route :=
  {| Hops := [hopKnown1; hopKnown2]; TotalFeesMsat := 10007; TotalAmtMsat := 100010007 |}.

(** A command line that gives only an amount and [perc]: everything else
    is as the flag parser leaves it, empty or zero. *)
Definition flags (amount perc : Z) : Main.configParams :=
  {| Main.Config := ""; Main.Connect := ""; Main.TLSCert := ""; Main.MacaroonDir := "";
     Main.MacaroonFilename := ""; Main.Network := ""; Main.FromPerc := 0;
     Main.ToPerc := 0; Main.Perc := perc; Main.Amount := amount;
     Main.RelAmountTo := 0%float; Main.RelAmountFrom := 0%float;
     Main.EconRatio := 0%float; Main.EconRatioMaxPPM := 0; Main.FeeLimitPPM := 0;
     Main.LostProfit := false; Main.ProbeSteps := 0; Main.AllowRapidRebalance := false;
     Main.MinAmount := 0; Main.ExcludeChannelsIn := []; Main.ExcludeChannelsOut := [];
     Main.ExcludeChannels := []; Main.ExcludeNodes := []; Main.Exclude := [];
     Main.To := []; Main.From := []; Main.FailTolerance := 0;
     Main.AllowUnbalanceFrom := false; Main.AllowUnbalanceTo := false;
     Main.StatFilename := ""; Main.NodeCacheFilename := ""; Main.NodeCacheLifetime := 0;
     Main.NodeCacheInfo := false; Main.TimeoutRebalance := 0; Main.TimeoutAttempt := 0;
     Main.TimeoutInfo := 0; Main.TimeoutRoute := 0; Main.Version := false |}.

(** The helpers of the sample, but no pair of channels can be picked. *)
Definition noPair : Main.Helpers Sample.sim :=
  {| Main.pickChannelPair := fun r w _ _ _ _ => (Err (errorString "no channel pair"), r, w);
     Main.getRoutes := Main.getRoutes (Helpers := Sample.helpers);
     Main.addFailedRoute := Main.addFailedRoute (Helpers := Sample.helpers);
     Main.printRoute := Main.printRoute (Helpers := Sample.helpers);
     Main.pay := Main.pay (Helpers := Sample.helpers);
     Main.rebuildRoute := Main.rebuildRoute (Helpers := Sample.helpers);
     Main.invalidateInvoice := Main.invalidateInvoice (Helpers := Sample.helpers);
     Main.getChannelCandidates := Main.getChannelCandidates (Helpers := Sample.helpers);
     Main.connect := Main.connect (Helpers := Sample.helpers);
     Main.prepare := Main.prepare (Helpers := Sample.helpers) |}.

(** A session of one second that starts at time 0. *)
Definition shortSession : Context.t :=
  Context.WithTimeout Context.Background 0 Second.

(** An edge of ours whose other end has a key that is no hexadecimal
    string, and the sample rebalancer with that edge in its cache. *)
Definition edgeBadKey : ChannelEdge :=
  {| ChannelId := 7; Node1Pub := Sample.ourKey; Node2Pub := "03zz"; EdgeCapacity := 1000000;
     Node1Policy := Sample.ourPolicyA; Node2Policy := Sample.peerPolicy |}.

Definition startBadKey : State Sample.sim :=
  {| reg := set_chanCache Sample.bare {[ 7 := edgeBadKey ]};
     world := Sample.calm; trace := [] |}.

End Cases.

(** * Properties *)

Import Sample.

(** ** Machine arithmetic *)

Lemma wrap_in_range (z : Z) : Int64.in_range z -> Int64.wrap z = z.
Proof.
  unfold Int64.in_range, Int64.wrap, Int64.min_int, Int64.max_int.
  intros Hz. rewrite Z.mod_small; lia.
Qed.

Lemma in_rangeb_spec (z : Z) : Int64.in_rangeb z = true <-> Int64.in_range z.
Proof.
  unfold Int64.in_rangeb, Int64.in_range.
  rewrite andb_true_iff, !Z.leb_le. tauto.
Qed.

Lemma quot_in_range (a b : Z) : 0 < b -> Int64.in_range a -> Int64.in_range (Z.quot a b).
Proof.
  unfold Int64.in_range, Int64.min_int, Int64.max_int. intros Hb Ha.
  destruct (Z.le_gt_cases 0 a) as [Hpos | Hneg].
  - pose proof (Z.quot_pos a b Hpos Hb).
    assert (Z.quot a b <= a) by (apply Z.quot_le_upper_bound; nia).
    lia.
  - assert (Hopp : Z.quot a b = - Z.quot (- a) b) by (rewrite Z.quot_opp_l; lia).
    assert (0 <= Z.quot (- a) b) by (apply Z.quot_pos; lia).
    assert (Z.quot (- a) b <= - a) by (apply Z.quot_le_upper_bound; nia).
    lia.
Qed.

(** ** C7: the policy fee *)

(** C7, the claim as stated, fails.  For an amount of 3_000_000 sat
    (3 × 10^9 msat) and a rate of 4 × 10^9 ppm (a rate of 32 bits) the product
    leaves [int64] and wraps around: [calcFeeMsat] returns a negative fee, not
    base + amt × rate / 1_000_000. *)
Lemma calcFeeMsat_wraps_around :
  let policy := {| TimeLockDelta := 40; MinHtlc := 1000; FeeBaseMsat := 1000;
                   FeeRateMilliMsat := 4000000000; MaxHtlcMsat := 0 |} in
  Int64.in_range 3000000000 /\
  Int64.in_range (FeeRateMilliMsat policy) /\
  Routes.calcFeeMsat 3000000000 policy = -6446744072709 /\
  Spec.fee policy 3000000000 = 12000000001000 /\
  Routes.calcFeeMsat 3000000000 policy <> Spec.fee policy 3000000000.
Proof.
  cbv zeta. repeat split; try (vm_compute; congruence).
Qed.

(** C7, amended: whenever the product amt × rate and the sum base + amt × rate
    / 1_000_000 fit in a signed 64-bit integer, [calcFeeMsat] is exactly
    base + amt × rate / 1_000_000 with the division truncating towards zero. *)
Theorem calcFeeMsat_exact (amtMsat : Z) (policy : RoutingPolicy) :
  Int64.in_range (amtMsat * FeeRateMilliMsat policy) ->
  Int64.in_range (Spec.fee policy amtMsat) ->
  Routes.calcFeeMsat amtMsat policy = Spec.fee policy amtMsat.
Proof.
  intros Hprod Hsum. unfold Routes.calcFeeMsat, Spec.fee in *.
  unfold Int64.add, Int64.quot, Int64.mul.
  rewrite (wrap_in_range _ Hprod).
  rewrite (wrap_in_range (Z.quot _ _)) by (apply quot_in_range; [lia | exact Hprod]).
  apply wrap_in_range, Hsum.
Qed.

(** Scenario 1 of the specification: 1_000 + 100_000_000 × 500 / 1_000_000. *)
Lemma calcFeeMsat_exact_witness :
  Routes.calcFeeMsat 100000000 ourPolicyB = Spec.fee ourPolicyB 100000000 /\
  Spec.fee ourPolicyB 100000000 = 51000.
Proof.
  split; [ | reflexivity ].
  apply (calcFeeMsat_exact 100000000 ourPolicyB);
    unfold Int64.in_range; vm_compute; split; congruence.
Defined.

(** ** The route finder *)

Section RouteFinder.

Context {W : Type} {client : LightningClient W}.

Lemma getChanInfo_reg (s : State W) (ctx : Context.t) (chanId : Z) :
  let '(res, s1) := Routes.getChanInfo s ctx chanId in
  myPK (reg s1) = myPK (reg s) /\ nodeCache (reg s1) = nodeCache (reg s).
Proof.
  unfold Routes.getChanInfo, rpc.
  destruct (chanCache (reg s) !! chanId) as [c | ]; [ now split | ].
  destruct (GetChanInfo (world s) ctx chanId) as [[c | err] w]; now split.
Qed.

Lemma getChanInfo_myPK (s s1 : State W) (ctx : Context.t) (chanId : Z) res :
  Routes.getChanInfo s ctx chanId = (res, s1) -> myPK (reg s1) = myPK (reg s).
Proof.
  intros Hget. pose proof (getChanInfo_reg s ctx chanId) as Hreg.
  rewrite Hget in Hreg. apply Hreg.
Qed.

Lemma getRoutes_query (s s1 : State W) (from to amtMsat : Z) (ratio : float)
    (c : ChannelEdge) (lastPK : list Z) :
  let ctx := Context.WithTimeout Context.Background (time_Now (world s)) (30 * Second) in
  Routes.getChanInfo s ctx to = (Ok c, s1) ->
  Hex.DecodeString (fst (Routes.lastHop c (myPK (reg s)))) = (lastPK, None) ->
  let req := routeQuery (myPK (reg s)) from amtMsat ratio c lastPK in
  let resp := QueryRoutes (world s1) ctx req in
  Routes.getRoutes s from to amtMsat ratio =
    (fst resp,
     {| reg := reg s1; world := snd resp;
        trace := trace s1 ++ [EvRpc (RpcQueryRoutes req (fst resp))] |}).
Proof.
  intros ctx Hget Hdec req resp.
  unfold Routes.getRoutes. fold ctx. rewrite Hget.
  rewrite (getChanInfo_myPK _ _ _ _ _ Hget).
  subst req resp. unfold routeQuery.
  destruct (Routes.lastHop c (myPK (reg s))) as [lastPKstr policy]. simpl in *.
  rewrite Hdec. unfold rpc.
  destruct (QueryRoutes (world s1) ctx _) as [[routes | err] w]; reflexivity.
Qed.

End RouteFinder.

Section FeePolicy.

Context {W : Type} {client : LightningClient W}.

(** C2, amended: on a target edge of ours (we are one of its two distinct
    endpoints) the policy the fee ceiling is computed from is our own node's
    policy on that edge, the one belonging to the endpoint whose key is ours;
    the peer only gives the last hop.  The route query carries the ceiling
    computed from that policy. *)
Theorem fee_policy_is_our_own (s s1 : State W) (from to amtMsat : Z) (ratio : float)
    (c : ChannelEdge) :
  let ctx := Context.WithTimeout Context.Background (time_Now (world s)) (30 * Second) in
  Routes.getChanInfo s ctx to = (Ok c, s1) ->
  Node1Pub c <> Node2Pub c ->
  myPK (reg s) = Node1Pub c \/ myPK (reg s) = Node2Pub c ->
  exists peer policy,
    Routes.lastHop c (myPK (reg s)) = (peer, policy) /\
    Spec.belongsTo c (myPK (reg s)) policy /\
    peer <> myPK (reg s) /\
    (peer = Node1Pub c \/ peer = Node2Pub c) /\
    forall lastPK, Hex.DecodeString peer = (lastPK, None) ->
      exists resp s2,
        Routes.getRoutes s from to amtMsat ratio = (resp, s2) /\
        trace s2 = trace s1 ++
          [EvRpc (RpcQueryRoutes
                    {| PubKey := myPK (reg s); OutgoingChanId := from;
                       LastHopPubkey := lastPK; AmtMsat := amtMsat;
                       UseMissionControl := true;
                       FeeLimitFixedMsat :=
                         Float64.to_int64
                           (PrimFloat.mul
                              (Float64.of_int (Routes.calcFeeMsat amtMsat policy)) ratio) |}
                    resp)].
Proof.
  intros ctx Hget Hdistinct Hours.
  exists (fst (Routes.lastHop c (myPK (reg s)))), (snd (Routes.lastHop c (myPK (reg s)))).
  split; [ now destruct (Routes.lastHop c (myPK (reg s))) | ].
  assert (Hsel : Spec.belongsTo c (myPK (reg s)) (snd (Routes.lastHop c (myPK (reg s)))) /\
                 fst (Routes.lastHop c (myPK (reg s))) <> myPK (reg s) /\
                 (fst (Routes.lastHop c (myPK (reg s))) = Node1Pub c \/
                  fst (Routes.lastHop c (myPK (reg s))) = Node2Pub c)).
  { unfold Routes.lastHop, Spec.belongsTo.
    destruct (String.eqb_spec (Node1Pub c) (myPK (reg s))) as [Heq | Hne]; simpl.
    - repeat split; [ left; split; congruence | congruence | now right ].
    - destruct Hours as [Hone | Htwo]; [ congruence | ].
      repeat split; [ right; split; congruence | congruence | now left ]. }
  destruct Hsel as (Hown & Hpeer & Hend).
  repeat split; try assumption.
  intros lastPK Hdec.
  pose proof (getRoutes_query s s1 from to amtMsat ratio c lastPK Hget Hdec) as Hq.
  cbv zeta in Hq. fold ctx in Hq. unfold routeQuery in Hq.
  eexists _, _. split; [ exact Hq | reflexivity ].
Qed.

End FeePolicy.

(** On the target edge of scenario 1 the ceiling comes from our policy
    (1_000 msat + 500 ppm), and the last hop is the peer [03cc]. *)
Lemma fee_policy_is_our_own_witness :
  exists peer policy,
    Routes.lastHop edgeB ourKey = (peer, policy) /\
    Spec.belongsTo edgeB ourKey policy /\
    peer <> ourKey /\
    (peer = Node1Pub edgeB \/ peer = Node2Pub edgeB) /\
    forall lastPK, Hex.DecodeString peer = (lastPK, None) ->
      exists resp s2,
        Routes.getRoutes (start calm) 1 2 100000000 1%float = (resp, s2) /\
        trace s2 = trace (snd (Routes.getChanInfo (start calm)
                     (Context.WithTimeout Context.Background 0 (30 * Second)) 2)) ++
          [EvRpc (RpcQueryRoutes
                    {| PubKey := ourKey; OutgoingChanId := 1;
                       LastHopPubkey := lastPK; AmtMsat := 100000000;
                       UseMissionControl := true;
                       FeeLimitFixedMsat :=
                         Float64.to_int64
                           (PrimFloat.mul
                              (Float64.of_int (Routes.calcFeeMsat 100000000 policy))
                              1%float) |}
                    resp)].
Proof.
  apply (fee_policy_is_our_own (start calm) _ 1 2 100000000 1%float edgeB).
  - reflexivity.
  - vm_compute; congruence.
  - left; reflexivity.
Defined.

(** C2, the claim as stated, fails.  On edge 2 of scenario 1 we are node 1:
    [lastHop] returns node 1's policy, which is ours; no endpoint other than
    us owns it. *)
Lemma fee_policy_is_not_the_peers :
  snd (Routes.lastHop edgeB ourKey) = ourPolicyB /\
  Spec.belongsTo edgeB ourKey ourPolicyB /\
  ~ (exists pk, pk <> ourKey /\
                Spec.belongsTo edgeB pk (snd (Routes.lastHop edgeB ourKey))).
Proof.
  split; [ reflexivity | ]. split; [ left; split; reflexivity | ].
  intros (pk & Hne & [[Hpk _] | [_ Hpol]]).
  - apply Hne. exact Hpk.
  - vm_compute in Hpol. congruence.
Qed.



Section FeeCeiling.

Context {W : Type} {client : LightningClient W}.



End FeeCeiling.



(** ** C10: the two caches *)

Section Caches.

Context {W : Type} {client : LightningClient W}.

Lemma getChanInfo_hit (s : State W) (ctx : Context.t) (chanId : Z) (c : ChannelEdge) :
  chanCache (reg s) !! chanId = Some c -> Routes.getChanInfo s ctx chanId = (Ok c, s).
Proof. intros Hhit. unfold Routes.getChanInfo. now rewrite Hhit. Qed.

Lemma getNodeInfo_hit (s : State W) (pk : string) (n : NodeInfo) :
  nodeCache (reg s) !! pk = Some n -> Routes.getNodeInfo s pk = (Ok n, s).
Proof. intros Hhit. unfold Routes.getNodeInfo. now rewrite Hhit. Qed.

Lemma getChanInfo_stores (s s1 : State W) (ctx : Context.t) (chanId : Z) (c : ChannelEdge) :
  Routes.getChanInfo s ctx chanId = (Ok c, s1) -> chanCache (reg s1) !! chanId = Some c.
Proof.
  unfold Routes.getChanInfo, rpc.
  destruct (chanCache (reg s) !! chanId) as [c0 | ] eqn:Hlook.
  - intros [= <- <-]. exact Hlook.
  - destruct (GetChanInfo (world s) ctx chanId) as [[c0 | err] w]; intros [= <- <-].
    simpl. apply lookup_insert_eq.
Qed.

Lemma getNodeInfo_stores (s s1 : State W) (pk : string) (n : NodeInfo) :
  Routes.getNodeInfo s pk = (Ok n, s1) -> nodeCache (reg s1) !! pk = Some n.
Proof.
  unfold Routes.getNodeInfo, rpc.
  destruct (nodeCache (reg s) !! pk) as [n0 | ] eqn:Hlook.
  - intros [= <- <-]. exact Hlook.
  - destruct (GetNodeInfo (world s) Context.Background pk) as [[n0 | err] w];
      intros [= <- <-].
    simpl. apply lookup_insert_eq.
Qed.

(** No later lookup, whatever its key and its answer, evicts an entry. *)
Lemma lookup1_keeps_chan (s : State W) (call : lookupCall) (chanId : Z) (c : ChannelEdge) :
  chanCache (reg s) !! chanId = Some c ->
  chanCache (reg (lookup1 s call)) !! chanId = Some c.
Proof.
  intros Hhit. destruct call as [ctx k | pk]; simpl.
  - unfold Routes.getChanInfo, rpc.
    destruct (chanCache (reg s) !! k) as [c0 | ] eqn:Hk; [ exact Hhit | ].
    destruct (GetChanInfo (world s) ctx k) as [[c0 | err] w]; simpl; [ | exact Hhit ].
    rewrite lookup_insert_ne; [ exact Hhit | congruence ].
  - unfold Routes.getNodeInfo, rpc.
    destruct (nodeCache (reg s) !! pk) as [n0 | ]; [ exact Hhit | ].
    destruct (GetNodeInfo (world s) Context.Background pk) as [[n0 | err] w];
      simpl; exact Hhit.
Qed.

Lemma lookup1_keeps_node (s : State W) (call : lookupCall) (pk : string) (n : NodeInfo) :
  nodeCache (reg s) !! pk = Some n ->
  nodeCache (reg (lookup1 s call)) !! pk = Some n.
Proof.
  intros Hhit. destruct call as [ctx k | pk']; simpl.
  - unfold Routes.getChanInfo, rpc.
    destruct (chanCache (reg s) !! k) as [c0 | ]; [ exact Hhit | ].
    destruct (GetChanInfo (world s) ctx k) as [[c0 | err] w]; simpl; exact Hhit.
  - unfold Routes.getNodeInfo, rpc.
    destruct (nodeCache (reg s) !! pk') as [n0 | ] eqn:Hk; [ exact Hhit | ].
    destruct (GetNodeInfo (world s) Context.Background pk') as [[n0 | err] w];
      simpl; [ | exact Hhit ].
    rewrite lookup_insert_ne; [ exact Hhit | congruence ].
Qed.

Lemma lookups_keep_chan (calls : list lookupCall) (s : State W) (chanId : Z) (c : ChannelEdge) :
  chanCache (reg s) !! chanId = Some c ->
  chanCache (reg (lookups calls s)) !! chanId = Some c.
Proof.
  revert s. induction calls as [ | call calls IH]; intros s Hhit; simpl; [ exact Hhit | ].
  apply IH, lookup1_keeps_chan, Hhit.
Qed.

Lemma lookups_keep_node (calls : list lookupCall) (s : State W) (pk : string) (n : NodeInfo) :
  nodeCache (reg s) !! pk = Some n ->
  nodeCache (reg (lookups calls s)) !! pk = Some n.
Proof.
  revert s. induction calls as [ | call calls IH]; intros s Hhit; simpl; [ exact Hhit | ].
  apply IH, lookup1_keeps_node, Hhit.
Qed.

(** C10: a call whose key is not in the cache asks the node, once, and
    returns its answer; a failed answer leaves the rebalancer, and so both
    caches, as they were, and a successful one is stored under the key.  Once
    [getChanInfo] (or [getNodeInfo]) has succeeded for a key, the cache holds
    the value, and after any further lookups, with any keys and answers, a
    call with that key returns the same value and leaves the whole state as
    it is: the world is not asked and the trace gets no new remote call. *)
Theorem caches_keep_and_serve :
  (forall (s : State W) ctx chanId,
      chanCache (reg s) !! chanId = None ->
      let answer := GetChanInfo (world s) ctx chanId in
      Routes.getChanInfo s ctx chanId =
      (fst answer,
       {| reg := match fst answer with
                 | Ok c => set_chanCache (reg s) (<[chanId := c]> (chanCache (reg s)))
                 | Err _ => reg s
                 end;
          world := snd answer;
          trace := trace s ++ [EvRpc (RpcGetChanInfo chanId (fst answer))] |})) /\
  (forall (s : State W) pk,
      nodeCache (reg s) !! pk = None ->
      let answer := GetNodeInfo (world s) Context.Background pk in
      Routes.getNodeInfo s pk =
      (fst answer,
       {| reg := match fst answer with
                 | Ok n => set_nodeCache (reg s) (<[pk := n]> (nodeCache (reg s)))
                 | Err _ => reg s
                 end;
          world := snd answer;
          trace := trace s ++ [EvRpc (RpcGetNodeInfo pk (fst answer))] |})) /\
  (forall (s s1 : State W) ctx chanId err,
      Routes.getChanInfo s ctx chanId = (Err err, s1) ->
      chanCache (reg s) !! chanId = None /\
      fst (GetChanInfo (world s) ctx chanId) = Err err /\
      reg s1 = reg s /\
      trace s1 = trace s ++ [EvRpc (RpcGetChanInfo chanId (Err err))]) /\
  (forall (s s1 : State W) pk err,
      Routes.getNodeInfo s pk = (Err err, s1) ->
      nodeCache (reg s) !! pk = None /\
      fst (GetNodeInfo (world s) Context.Background pk) = Err err /\
      reg s1 = reg s /\
      trace s1 = trace s ++ [EvRpc (RpcGetNodeInfo pk (Err err))]) /\
  (forall (s s1 : State W) ctx chanId c,
      Routes.getChanInfo s ctx chanId = (Ok c, s1) ->
      chanCache (reg s1) !! chanId = Some c /\
      (chanCache (reg s) !! chanId = Some c \/
       fst (GetChanInfo (world s) ctx chanId) = Ok c) /\
      forall calls ctx',
        Routes.getChanInfo (lookups calls s1) ctx' chanId = (Ok c, lookups calls s1)) /\
  (forall (s s1 : State W) pk n,
      Routes.getNodeInfo s pk = (Ok n, s1) ->
      nodeCache (reg s1) !! pk = Some n /\
      (nodeCache (reg s) !! pk = Some n \/
       fst (GetNodeInfo (world s) Context.Background pk) = Ok n) /\
      forall calls,
        Routes.getNodeInfo (lookups calls s1) pk = (Ok n, lookups calls s1)).
Proof.
  assert (Hchan : forall (s : State W) ctx chanId,
             chanCache (reg s) !! chanId = None ->
             Routes.getChanInfo s ctx chanId =
             (fst (GetChanInfo (world s) ctx chanId),
              {| reg := match fst (GetChanInfo (world s) ctx chanId) with
                        | Ok c => set_chanCache (reg s)
                                    (<[chanId := c]> (chanCache (reg s)))
                        | Err _ => reg s
                        end;
                 world := snd (GetChanInfo (world s) ctx chanId);
                 trace := trace s ++
                          [EvRpc (RpcGetChanInfo chanId
                                    (fst (GetChanInfo (world s) ctx chanId)))] |})).
  { intros s ctx chanId Hmiss. unfold Routes.getChanInfo, rpc. rewrite Hmiss.
    destruct (GetChanInfo (world s) ctx chanId) as [[c | err] w]; reflexivity. }
  assert (Hnode : forall (s : State W) pk,
             nodeCache (reg s) !! pk = None ->
             Routes.getNodeInfo s pk =
             (fst (GetNodeInfo (world s) Context.Background pk),
              {| reg := match fst (GetNodeInfo (world s) Context.Background pk) with
                        | Ok n => set_nodeCache (reg s) (<[pk := n]> (nodeCache (reg s)))
                        | Err _ => reg s
                        end;
                 world := snd (GetNodeInfo (world s) Context.Background pk);
                 trace := trace s ++
                          [EvRpc (RpcGetNodeInfo pk
                                    (fst (GetNodeInfo (world s) Context.Background pk)))] |})).
  { intros s pk Hmiss. unfold Routes.getNodeInfo, rpc. rewrite Hmiss.
    destruct (GetNodeInfo (world s) Context.Background pk) as [[n | err] w]; reflexivity. }
  repeat apply conj; [ exact Hchan | exact Hnode | | | | ].
  - intros s s1 ctx chanId err Hget.
    destruct (chanCache (reg s) !! chanId) as [c0 | ] eqn:Hcache.
    { rewrite (getChanInfo_hit s ctx chanId c0 Hcache) in Hget. discriminate. }
    rewrite (Hchan s ctx chanId Hcache) in Hget.
    destruct (GetChanInfo (world s) ctx chanId) as [[c0 | e] w]; simpl in Hget;
      [ discriminate | ].
    injection Hget as -> <-. repeat split.
  - intros s s1 pk err Hget.
    destruct (nodeCache (reg s) !! pk) as [n0 | ] eqn:Hcache.
    { rewrite (getNodeInfo_hit s pk n0 Hcache) in Hget. discriminate. }
    rewrite (Hnode s pk Hcache) in Hget.
    destruct (GetNodeInfo (world s) Context.Background pk) as [[n0 | e] w];
      simpl in Hget; [ discriminate | ].
    injection Hget as -> <-. repeat split.
  - intros s s1 ctx chanId c Hget.
    split; [ exact (getChanInfo_stores _ _ _ _ _ Hget) | ]. split.
    + destruct (chanCache (reg s) !! chanId) as [c0 | ] eqn:Hcache.
      * left. rewrite (getChanInfo_hit s ctx chanId c0 Hcache) in Hget. congruence.
      * right. rewrite (Hchan s ctx chanId Hcache) in Hget. congruence.
    + intros calls ctx'.
      apply getChanInfo_hit, lookups_keep_chan, (getChanInfo_stores _ _ _ _ _ Hget).
  - intros s s1 pk n Hget.
    split; [ exact (getNodeInfo_stores _ _ _ _ Hget) | ]. split.
    + destruct (nodeCache (reg s) !! pk) as [n0 | ] eqn:Hcache.
      * left. rewrite (getNodeInfo_hit s pk n0 Hcache) in Hget. congruence.
      * right. rewrite (Hnode s pk Hcache) in Hget. congruence.
    + intros calls.
      apply getNodeInfo_hit, lookups_keep_node, (getNodeInfo_stores _ _ _ _ Hget).
Qed.

End Caches.

(** The node is down: the failed call asked it and leaves the rebalancer
    as it was.  The node answers: the first call for channel 2 asks it and
    stores the edge, and after two lookups of other keys channel 2 is served
    from the cache.  The same for the nodes: the key [03cc] is asked for once
    and then served; the key [03dd], which the node does not know, is asked
    for and nothing is stored. *)
Lemma caches_keep_and_serve_witness :
  (reg (snd (Routes.getChanInfo (start down) Context.Background 2)) = bare /\
   trace (snd (Routes.getChanInfo (start down) Context.Background 2))
   = [EvRpc (RpcGetChanInfo 2 unavailable)]) /\
  (let s1 := snd (Routes.getChanInfo (start calm) Context.Background 2) in
   let s2 := lookups [LookupNode "03cc"; LookupChan Context.Background 1] s1 in
   trace s1 = [EvRpc (RpcGetChanInfo 2 (Ok edgeB))] /\
   chanCache (reg s1) !! 2 = Some edgeB /\
   Routes.getChanInfo s2 sessionCtx 2 = (Ok edgeB, s2)) /\
  (let s1 := snd (Routes.getNodeInfo (start calm) "03cc") in
   let s2 := lookups [LookupChan Context.Background 1; LookupNode "03dd"] s1 in
   trace s1 = [EvRpc (RpcGetNodeInfo "03cc" (Ok nodeB))] /\
   nodeCache (reg s1) !! "03cc" = Some nodeB /\
   Routes.getNodeInfo s2 "03cc" = (Ok nodeB, s2)) /\
  (reg (snd (Routes.getNodeInfo (start calm) "03dd")) = bare /\
   trace (snd (Routes.getNodeInfo (start calm) "03dd"))
   = [EvRpc (RpcGetNodeInfo "03dd" (Err (errorString "unable to find node")))]).
Proof.
  destruct (caches_keep_and_serve (client := Sample.client))
    as (Hchan & Hnode & Hchanfail & Hnodefail & Hchanserve & Hnodeserve).
  refine (conj _ (conj _ (conj _ _))).
  - destruct (Hchanfail (start down) _ Context.Background 2
                (errorString "rpc error: unavailable") eq_refl)
      as (_ & _ & Hreg & Htrace).
    split; [ exact Hreg | exact Htrace ].
  - cbv zeta.
    pose proof (Hchan (start calm) Context.Background 2 eq_refl) as Hasked.
    cbv zeta in Hasked.
    destruct (Hchanserve (start calm) _ Context.Background 2 edgeB eq_refl)
      as (Hstored & _ & Hserved).
    refine (conj _ (conj Hstored (Hserved _ _))).
    rewrite Hasked. reflexivity.
  - cbv zeta.
    pose proof (Hnode (start calm) "03cc" eq_refl) as Hasked.
    cbv zeta in Hasked.
    destruct (Hnodeserve (start calm) _ "03cc" nodeB eq_refl)
      as (Hstored & _ & Hserved).
    refine (conj _ (conj Hstored (Hserved _))).
    rewrite Hasked. reflexivity.
  - destruct (Hnodefail (start calm) _ "03dd" (errorString "unable to find node") eq_refl)
      as (_ & _ & Hreg & Htrace).
    split; [ exact Hreg | exact Htrace ].
Defined.

(** ** Channel ids from strings: the numerals *)

Lemma digit_lower (c : ascii) (d : Z) :
  Strconv.digit c = Some d ->
  Strings.lowerAscii c = c /\ Ascii.eqb c "x" = false /\ Ascii.eqb c "+" = false /\
  Ascii.eqb c "-" = false /\ 0 <= d < 10.
Proof.
  destruct c as [[] [] [] [] [] [] [] []]; vm_compute; intros [= <-];
    repeat split; congruence.
Qed.

Lemma digits_no_x (body : string) (acc n : Z) :
  Strconv.digits body acc = Some n -> Strings.Count (Strings.ToLower body) "x" = 0.
Proof.
  revert acc. induction body as [ | c body IH]; intros acc; simpl; [ reflexivity | ].
  destruct (Strconv.digit c) as [d | ] eqn:Hd; [ | discriminate ].
  intros Hrest. destruct (digit_lower c d Hd) as (-> & -> & _).
  rewrite (IH _ Hrest). reflexivity.
Qed.

Lemma parseMagnitude_ok (neg : bool) (body : string) (v : Z) :
  Strconv.parseMagnitude neg body = Ok v ->
  Strings.Count (Strings.ToLower body) "x" = 0 /\ Int64.in_range v.
Proof.
  unfold Strconv.parseMagnitude.
  destruct (Strconv.digits body 0) as [n | ] eqn:Hdigits.
  - destruct body as [ | c body]; [ discriminate | ].
    destruct (Int64.in_rangeb (if neg then - n else n)) eqn:Hrange; [ | discriminate ].
    intros [= <-]. split; [ eapply digits_no_x, Hdigits | now apply in_rangeb_spec ].
  - destruct body; discriminate.
Qed.

(** What [ParseInt] accepts has no [x] in it and lies within [int64]. *)
Lemma ParseInt_ok (s : string) (v : Z) :
  Strconv.ParseInt s = Ok v ->
  Strings.Count (Strings.ToLower s) "x" = 0 /\ Int64.in_range v.
Proof.
  destruct s as [ | c rest]; [ discriminate | ].
  destruct (Ascii.eqb_spec c "+") as [-> | Hplus];
    [ | destruct (Ascii.eqb_spec c "-") as [-> | Hminus] ].
  - simpl. intros Hp. apply parseMagnitude_ok in Hp. exact Hp.
  - simpl. intros Hp. apply parseMagnitude_ok in Hp. exact Hp.
  - assert (Hsame : Strconv.ParseInt (String c rest) =
                    Strconv.parseMagnitude false (String c rest)).
    { destruct c as [[] [] [] [] [] [] [] []]; try reflexivity; congruence. }
    rewrite Hsame. apply parseMagnitude_ok.
Qed.

Lemma ParseInt_unsigned (c : ascii) (rest : string) (d : Z) :
  Strconv.digit c = Some d ->
  Strconv.ParseInt (String c rest) = Strconv.parseMagnitude false (String c rest).
Proof.
  intros Hd.
  destruct c as [[] [] [] [] [] [] [] []]; try reflexivity; vm_compute in Hd; discriminate.
Qed.

Lemma digit_of (d : Z) :
  0 <= d < 10 -> Strconv.digit (ascii_of_N (Z.to_N (48 + d))) = Some d.
Proof.
  intros Hd.
  assert (Hcases : d = 0 \/ d = 1 \/ d = 2 \/ d = 3 \/ d = 4 \/ d = 5 \/ d = 6 \/
                   d = 7 \/ d = 8 \/ d = 9) by lia.
  repeat (destruct Hcases as [-> | Hcases]; [ reflexivity | ]). subst d. reflexivity.
Qed.

Lemma append_cons (c : ascii) (s1 s2 : string) :
  (String c s1 ++ s2 = String c (s1 ++ s2))%string.
Proof. reflexivity. Qed.

Lemma append_assoc (s1 s2 s3 : string) :
  ((s1 ++ s2) ++ s3 = s1 ++ (s2 ++ s3))%string.
Proof.
  induction s1 as [ | c s1 IH]; [ reflexivity | ].
  rewrite !append_cons, IH. reflexivity.
Qed.

Lemma digits_app (s1 s2 : string) (acc : Z) :
  Strconv.digits (s1 ++ s2)%string acc =
  match Strconv.digits s1 acc with
  | Some acc' => Strconv.digits s2 acc'
  | None => None
  end.
Proof.
  revert acc. induction s1 as [ | c s1 IH]; intros acc; [ reflexivity | ].
  rewrite append_cons. simpl.
  destruct (Strconv.digit c); [ apply IH | reflexivity ].
Qed.

Lemma formatNat_app (fuel : nat) (n : Z) (acc : string) :
  Strconv.formatNat fuel n acc = (Strconv.formatNat fuel n EmptyString ++ acc)%string.
Proof.
  revert n acc. induction fuel as [ | fuel IH]; intros n acc; simpl; [ reflexivity | ].
  destruct (n <? 10); [ reflexivity | ].
  rewrite (IH (n / 10) (String _ acc)), (IH (n / 10) (String _ EmptyString)).
  rewrite append_assoc. reflexivity.
Qed.

Lemma formatNat_step (fuel : nat) (n : Z) (acc : string) :
  Strconv.formatNat (S fuel) n acc =
  if n <? 10 then String (ascii_of_N (Z.to_N (48 + n mod 10))) acc
  else Strconv.formatNat fuel (n / 10) (String (ascii_of_N (Z.to_N (48 + n mod 10))) acc).
Proof. reflexivity. Qed.

Lemma digits_single (c : ascii) (d acc : Z) :
  Strconv.digit c = Some d ->
  Strconv.digits (String c EmptyString) acc = Some (acc * 10 + d).
Proof. intros Hd. cbn [Strconv.digits]. now rewrite Hd. Qed.

(** The numeral that [formatNat] writes starts with a digit and reads back
    as the number, after whatever was read before it. *)
Lemma digits_formatNat (fuel : nat) (n : Z) :
  0 <= n < 2 ^ Z.of_nat (S fuel) ->
  exists c rest d k,
    Strconv.formatNat (S fuel) n EmptyString = String c rest /\
    Strconv.digit c = Some d /\
    forall acc, Strconv.digits (String c rest) acc = Some (acc * k + n).
Proof.
  revert n. induction fuel as [ | fuel IH]; intros n Hn; rewrite formatNat_step;
    pose proof (Z.mod_pos_bound n 10 ltac:(lia)) as Hmod;
    pose proof (digit_of (n mod 10) Hmod) as Hlast;
    destruct (n <? 10) eqn:Hsmall.
  - apply Z.ltb_lt in Hsmall. rewrite (Z.mod_small n 10) in * by lia.
    eexists _, _, n, 10. split; [ reflexivity | ]. split; [ exact Hlast | ].
    intros acc. apply digits_single, Hlast.
  - apply Z.ltb_ge in Hsmall. change (2 ^ Z.of_nat 1) with 2 in Hn. lia.
  - apply Z.ltb_lt in Hsmall. rewrite (Z.mod_small n 10) in * by lia.
    eexists _, _, n, 10. split; [ reflexivity | ]. split; [ exact Hlast | ].
    intros acc. apply digits_single, Hlast.
  - apply Z.ltb_ge in Hsmall.
    assert (Hdiv : 0 <= n / 10 < 2 ^ Z.of_nat (S fuel)).
    { split; [ apply Z.div_pos; lia | ].
      apply Z.div_lt_upper_bound; [ lia | ].
      replace (Z.of_nat (S (S fuel))) with (Z.of_nat (S fuel) + 1) in Hn by lia.
      rewrite Z.pow_add_r in Hn by lia. lia. }
    destruct (IH (n / 10) Hdiv) as (c & rest & d & k & Hfmt & Hdigit & Hread).
    rewrite formatNat_app, Hfmt, append_cons.
    eexists c, _, d, (k * 10). split; [ reflexivity | ]. split; [ exact Hdigit | ].
    intros acc.
    rewrite <- append_cons, digits_app, Hread.
    rewrite (digits_single _ (n mod 10) _ Hlast).
    f_equal. pose proof (Z.div_mod n 10 ltac:(lia)). lia.
Qed.

Lemma log2_fuel (n : Z) : 0 <= n -> 0 <= n < 2 ^ Z.of_nat (S (Z.to_nat (Z.log2 n))).
Proof.
  intros Hn. split; [ exact Hn | ].
  rewrite Nat2Z.inj_succ, Z2Nat.id by apply Z.log2_nonneg.
  destruct (Z.eq_dec n 0) as [-> | Hpos]; [ reflexivity | ].
  apply Z.log2_spec. lia.
Qed.

Lemma parseMagnitude_reads (neg : bool) (c : ascii) (rest : string) (n : Z) :
  Strconv.digits (String c rest) 0 = Some n ->
  Int64.in_range (if neg then - n else n) ->
  Strconv.parseMagnitude neg (String c rest) = Ok (if neg then - n else n).
Proof.
  intros Hread Hrange. unfold Strconv.parseMagnitude. rewrite Hread.
  apply in_rangeb_spec in Hrange. now rewrite Hrange.
Qed.

(** Round trip: the decimal numeral of an [int64] parses back to it. *)
Lemma ParseInt_FormatInt (v : Z) :
  Int64.in_range v -> Strconv.ParseInt (Strconv.FormatInt v) = Ok v.
Proof.
  intros Hv. unfold Strconv.FormatInt.
  destruct (v <? 0) eqn:Hsign.
  - apply Z.ltb_lt in Hsign.
    destruct (digits_formatNat _ (- v) (log2_fuel (- v) ltac:(lia)))
      as (c & rest & d & k & Hfmt & Hdigit & Hread).
    rewrite Hfmt.
    change (Strconv.ParseInt (String "-" (String c rest)))
      with (Strconv.parseMagnitude true (String c rest)).
    rewrite (parseMagnitude_reads true c rest (- v)).
    + f_equal. lia.
    + pose proof (Hread 0) as Hzero.
      replace (0 * k + - v) with (- v) in Hzero by lia. exact Hzero.
    + now replace (- - v) with v by lia.
  - apply Z.ltb_ge in Hsign.
    destruct (digits_formatNat _ v (log2_fuel v Hsign))
      as (c & rest & d & k & Hfmt & Hdigit & Hread).
    rewrite Hfmt, (ParseInt_unsigned c rest d Hdigit).
    apply (parseMagnitude_reads false c rest v); [ | exact Hv ].
    pose proof (Hread 0) as Hzero.
    replace (0 * k + v) with v in Hzero by lia. exact Hzero.
Qed.

Lemma Count_ToLower_x (s : string) :
  Strings.Count (Strings.ToLower s) "x" = Spec.countX s.
Proof.
  induction s as [ | c s IH]; simpl; [ reflexivity | ].
  rewrite IH. f_equal.
  destruct c as [[] [] [] [] [] [] [] []]; reflexivity.
Qed.

Section ChannelIds.

Variable parseScid : string -> option Z.

Lemma convertChanStringToInt_from_all (cids : list string) (ids acc : list Z) :
  Forall2 (fun cid id => Main.convertChanString parseScid cid = Main.Return id) cids ids ->
  Main.convertChanStringToInt_from parseScid acc cids = Main.Return (acc ++ ids).
Proof.
  intros Hall. revert acc.
  induction Hall as [ | cid id cids ids Hcid _ IH]; intros acc; simpl.
  - now rewrite app_nil_r.
  - rewrite Hcid, IH, <- app_assoc. reflexivity.
Qed.

Lemma convertChanString_exit (cid : string) (code : Z) :
  Main.convertChanString parseScid cid = Main.Exit code -> code = 1.
Proof.
  unfold Main.convertChanString.
  destruct (Strconv.ParseInt cid); [ discriminate | ].
  destruct (Main.isScid cid); [ destruct (parseScid cid) | ]; congruence.
Qed.

Lemma convertChanStringToInt_from_exit (cids : list string) (acc : list Z) :
  Exists (fun cid => Main.convertChanString parseScid cid = Main.Exit 1) cids ->
  Main.convertChanStringToInt_from parseScid acc cids = Main.Exit 1.
Proof.
  intros Hex. revert acc.
  induction Hex as [cid cids Hcid | cid cids _ IH]; intros acc; simpl.
  - now rewrite Hcid.
  - destruct (Main.convertChanString parseScid cid) as [code | id] eqn:Hcid.
    + now rewrite (convertChanString_exit cid code Hcid).
    + apply IH.
Qed.

End ChannelIds.

(** A decimal id, a negative one (it wraps into [uint64]), and a short
    channel id that the parser of the other file maps to its number. *)
Example convertChanStringToInt_sample :
  Main.convertChanStringToInt (fun _ => Some 770495967390531585)
    ["123456789"; "-1"; "700762X1327x1"]
  = Main.Return [123456789; 18446744073709551615; 770495967390531585] /\
  Main.convertChanStringToInt (fun _ => Some 0) ["12"; "0x10"; "13"] = Main.Exit 1 /\
  Main.convertChanStringToInt (fun _ => Some 0) ["9223372036854775808"] = Main.Exit 1.
Proof. repeat split; reflexivity. Qed.

(** ** The preflight *)

Section Statements.

Import Main.

Lemma seq_when_assign (cond : configParams -> bool) (f : configParams -> configParams)
    (rest : stmt) (params : configParams) :
  seq (when cond (assign f)) rest params = rest (if cond params then f params else params).
Proof. unfold seq, when, assign. now destruct (cond params). Qed.

Lemma seq_when_assign2 (cond : configParams -> bool) (f g : configParams -> configParams)
    (rest : stmt) (params : configParams) :
  seq (when cond (seq (assign f) (assign g))) rest params =
  rest (if cond params then g (f params) else params).
Proof. unfold seq, when, assign. now destruct (cond params). Qed.

Lemma seq_when_ret (cond : configParams -> bool) (err : option error)
    (rest : stmt) (params : configParams) :
  seq (when cond (ret err)) rest params =
  if cond params then Done (Return (params, err)) else rest params.
Proof. unfold seq, when, ret. now destruct (cond params). Qed.

Lemma seq_when_when_ret (c1 c2 : configParams -> bool) (err : option error)
    (rest : stmt) (params : configParams) :
  seq (when c1 (when c2 (ret err))) rest params =
  if c1 params && c2 params then Done (Return (params, err)) else rest params.
Proof. unfold seq, when, ret. now destruct (c1 params), (c2 params). Qed.

Lemma seq_when_exit (cond : configParams -> bool) (code : Z)
    (rest : stmt) (params : configParams) :
  seq (when cond (os_Exit code)) rest params =
  if cond params then Done (Exit code) else rest params.
Proof. unfold seq, when, os_Exit. now destruct (cond params). Qed.

Lemma if_set_Connect (b : bool) v (params : configParams) :
  (if b then set_Connect v params else params) =
  set_Connect (if b then v else Connect params) params.
Proof. destruct b, params; reflexivity. Qed.

Lemma if_set_MacaroonFilename (b : bool) v (params : configParams) :
  (if b then set_MacaroonFilename v params else params) =
  set_MacaroonFilename (if b then v else MacaroonFilename params) params.
Proof. destruct b, params; reflexivity. Qed.

Lemma if_set_Network (b : bool) v (params : configParams) :
  (if b then set_Network v params else params) =
  set_Network (if b then v else Network params) params.
Proof. destruct b, params; reflexivity. Qed.

Lemma if_set_FromPerc (b : bool) v (params : configParams) :
  (if b then set_FromPerc v params else params) =
  set_FromPerc (if b then v else FromPerc params) params.
Proof. destruct b, params; reflexivity. Qed.

Lemma if_set_ToPerc (b : bool) v (params : configParams) :
  (if b then set_ToPerc v params else params) =
  set_ToPerc (if b then v else ToPerc params) params.
Proof. destruct b, params; reflexivity. Qed.

Lemma if_set_EconRatio (b : bool) v (params : configParams) :
  (if b then set_EconRatio v params else params) =
  set_EconRatio (if b then v else EconRatio params) params.
Proof. destruct b, params; reflexivity. Qed.

Lemma if_set_FailTolerance (b : bool) v (params : configParams) :
  (if b then set_FailTolerance v params else params) =
  set_FailTolerance (if b then v else FailTolerance params) params.
Proof. destruct b, params; reflexivity. Qed.

Lemma if_set_NodeCacheLifetime (b : bool) v (params : configParams) :
  (if b then set_NodeCacheLifetime v params else params) =
  set_NodeCacheLifetime (if b then v else NodeCacheLifetime params) params.
Proof. destruct b, params; reflexivity. Qed.

Lemma if_set_TimeoutAttempt (b : bool) v (params : configParams) :
  (if b then set_TimeoutAttempt v params else params) =
  set_TimeoutAttempt (if b then v else TimeoutAttempt params) params.
Proof. destruct b, params; reflexivity. Qed.

Lemma if_set_TimeoutRebalance (b : bool) v (params : configParams) :
  (if b then set_TimeoutRebalance v params else params) =
  set_TimeoutRebalance (if b then v else TimeoutRebalance params) params.
Proof. destruct b, params; reflexivity. Qed.

Lemma if_set_TimeoutInfo (b : bool) v (params : configParams) :
  (if b then set_TimeoutInfo v params else params) =
  set_TimeoutInfo (if b then v else TimeoutInfo params) params.
Proof. destruct b, params; reflexivity. Qed.

Lemma if_set_TimeoutRoute (b : bool) v (params : configParams) :
  (if b then set_TimeoutRoute v params else params) =
  set_TimeoutRoute (if b then v else TimeoutRoute params) params.
Proof. destruct b, params; reflexivity. Qed.

Lemma if_set_Perc (b : bool) (params : configParams) :
  (if b then set_ToPerc (Perc (set_FromPerc (Perc params) params))
                        (set_FromPerc (Perc params) params)
   else params) =
  set_ToPerc (if b then Perc params else ToPerc params)
             (set_FromPerc (if b then Perc params else FromPerc params) params).
Proof. destruct b, params; reflexivity. Qed.

End Statements.

Section Preflight.

Import Main.

(** Without the version flag [preflightChecks] returns; its error is that of
    the first failing check on the parameters as parsed, and the ratio it
    leaves is the parsed one, or 1 when neither the ratio nor the fee limit was
    given. *)
Lemma preflightChecks_returns (params : configParams) :
  Version params = false ->
  exists params',
    preflightChecks params = Return (params', preflightError params) /\
    EconRatio params' =
      (if PrimFloat.eqb (EconRatio params) 0%float && (FeeLimitPPM params =? 0)
       then 1%float else EconRatio params) /\
    FeeLimitPPM params' = FeeLimitPPM params /\
    EconRatioMaxPPM params' = EconRatioMaxPPM params.
Proof.
  intros Hversion. destruct params. simpl in Hversion. subst.
  unfold preflightChecks, preflightChecks_body, preflightError, relativeAmount.
  rewrite seq_when_exit. cbn [Main.Version].
  rewrite seq_when_assign, if_set_Connect.
  rewrite seq_when_assign, if_set_MacaroonFilename.
  rewrite seq_when_assign, if_set_Network.
  rewrite seq_when_assign, if_set_FromPerc.
  rewrite seq_when_assign, if_set_ToPerc.
  rewrite seq_when_assign, if_set_EconRatio.
  rewrite seq_when_ret. cbn.
  match goal with |- context [if ?c then Done _ else _] => destruct c end;
    [ eexists; repeat split; reflexivity | ].
  rewrite seq_when_assign2, if_set_Perc.
  rewrite seq_when_ret. cbn.
  match goal with |- context [if ?c then Done _ else _] => destruct c end;
    [ eexists; repeat split; reflexivity | ].
  rewrite seq_when_ret. cbn.
  match goal with |- context [if ?c then Done _ else _] => destruct c end;
    [ eexists; repeat split; reflexivity | ].
  rewrite seq_when_ret. cbn.
  match goal with |- context [if ?c then Done _ else _] => destruct c end;
    [ eexists; repeat split; reflexivity | ].
  rewrite seq_when_assign, if_set_FailTolerance.
  rewrite seq_when_ret. cbn.
  match goal with |- context [if ?c then Done _ else _] => destruct c end;
    [ eexists; repeat split; reflexivity | ].
  rewrite seq_when_assign, if_set_NodeCacheLifetime.
  rewrite seq_when_when_ret. cbn.
  match goal with |- context [if ?c then Done _ else _] => destruct c end;
    [ eexists; repeat split; reflexivity | ].
  rewrite seq_when_assign, if_set_TimeoutAttempt.
  rewrite seq_when_assign, if_set_TimeoutRebalance.
  rewrite seq_when_assign, if_set_TimeoutInfo.
  rewrite seq_when_assign, if_set_TimeoutRoute.
  cbn. eexists; repeat split; reflexivity.
Qed.

Lemma preflightChecks_version (params : configParams) :
  Version params = true -> preflightChecks params = Exit 1.
Proof.
  intros Hversion. unfold preflightChecks, preflightChecks_body.
  rewrite seq_when_exit, Hversion. reflexivity.
Qed.

Ltac first_error :=
  unfold preflightError, Errorf; simpl;
  repeat match goal with
         | |- context [if ?c then _ else _] => destruct c
         end;
  eexists; reflexivity.



(** C9, the claim as stated, fails.  With a minimum of 200_000 above an
    amount of 100_000, and both fee bounds set, the error that
    [preflightChecks] returns is that of the earlier check. *)
Lemma min_amount_error_is_preempted :
  let cfg := config 100000 200000 50 100 0%float false false in
  0 < MinAmount cfg /\ 0 < Amount cfg /\ Amount cfg < MinAmount cfg /\
  (exists params',
     preflightChecks cfg =
     Return (params', Errorf "use either econ-ratio-max-ppm or fee-limit-ppm but not both")) /\
  ~ (exists params',
       preflightChecks cfg =
       Return (params', Errorf "minimum amount should be less than amount")).
Proof.
  cbv zeta. repeat split; try (simpl; lia).
  - eexists. vm_compute. reflexivity.
  - intros [params' Hret]. vm_compute in Hret. discriminate.
Qed.

(** C9, amended: when min_amount and amount are positive and min_amount is
    above amount, the program ends with status 1 at startup, before anything
    is asked of the node (no call in the trace, the world untouched); and the
    error of the preflight is "minimum amount should be less than amount"
    when the version flag is off and econ_ratio_max_ppm and fee_limit_ppm are
    not both set. *)
Theorem min_amount_above_amount_is_fatal (params : configParams) :
  0 < MinAmount params -> 0 < Amount params -> Amount params < MinAmount params ->
  (Version params = false ->
   EconRatioMaxPPM params = 0 \/ FeeLimitPPM params = 0 ->
   exists params',
     preflightChecks params =
     Return (params', Errorf "minimum amount should be less than amount")) /\
  (forall (W : Type) (client : LightningClient W) (helpers : Helpers W)
          (fuel : nat) (w : W),
     main fuel params w =
     (Some 1, {| reg := newRegolancer params; world := w; trace := [] |})).
Proof.
  intros Hmin Hamount Habove.
  apply Z.ltb_lt in Hmin, Hamount, Habove.
  split.
  - intros Hversion Hbounds.
    destruct (preflightChecks_returns params Hversion) as (params' & Hret & _).
    exists params'. rewrite Hret. f_equal. f_equal.
    unfold preflightError. rewrite Hmin, Hamount, Habove.
    destruct Hbounds as [-> | ->]; simpl; [ reflexivity | ].
    now rewrite andb_false_r.
  - intros W client helpers fuel w. unfold main.
    destruct (Version params) eqn:Hversion.
    + now rewrite (preflightChecks_version params Hversion).
    + destruct (preflightChecks_returns params Hversion) as (params' & Hret & _).
      rewrite Hret.
      assert (Herr : exists msg, preflightError params = Some (errorString msg)).
      { unfold preflightError. rewrite Hmin, Hamount, Habove. first_error. }
      destruct Herr as [msg ->]. reflexivity.
Qed.

(** A minimum of 200_000 above an amount of 100_000, in the calm world. *)
Lemma min_amount_above_amount_is_fatal_witness :
  (exists params',
     preflightChecks (config 100000 200000 0 0 0%float false false) =
     Return (params', Errorf "minimum amount should be less than amount")) /\
  main 5 (config 100000 200000 0 0 0%float false false) calm =
  (Some 1, {| reg := newRegolancer (config 100000 200000 0 0 0%float false false);
              world := calm; trace := [] |}).
Proof.
  pose proof (min_amount_above_amount_is_fatal
                (config 100000 200000 0 0 0%float false false)
                ltac:(simpl; lia) ltac:(simpl; lia) ltac:(simpl; lia)) as [Herr Hmain].
  split.
  - apply Herr; [ reflexivity | left; reflexivity ].
  - apply Hmain.
Defined.

End Preflight.

(** ** The rebalance attempt *)

(** One step of a run: the pairs and the record of the state are taken
    apart, the contexts and the trace are left as they stand. *)
Ltac run :=
  cbn -[Context.deadlineExceeded Context.WithTimeout Int64.mul app
        Main.tryRebalance_routes Main.tryRapidRebalance Main.tryRapidRebalance_loop
        Main.sessionLoop].

Section Attempt.

Import Main.

Context {W : Type} {client : LightningClient W} {helpers : Helpers W}.

Variable params : configParams.

(** C3, amended: when the route query of an attempt returns an error and
    the deadline of the route context has not passed, the pair is handed to
    [addFailedRoute] and the attempt returns the error with [repeat = true];
    when the deadline has passed, nothing is recorded, the attempt returns
    the error with [repeat = false], and the session loop ends with this
    attempt: it makes no further one. *)
Theorem route_query_error (fuel : nat) (ctx : Context.t) (s : State W) (attempt : Z)
    (from to amt : Z) (r1 r2 : regolancer) (w1 w2 : W) (err : error) :
  let attemptCtx := Context.WithTimeout ctx (time_Now (world s))
                      (Int64.mul Minute (TimeoutAttempt params)) in
  let routeCtx := Context.WithTimeout attemptCtx (time_Now w1)
                    (Int64.mul Second (TimeoutRoute params)) in
  let tr := trace s ++
            [EvPickChannelPair (Amount params) (MinAmount params)
                               (RelAmountFrom params) (RelAmountTo params);
             EvGetRoutes routeCtx from to (Int64.mul amt 1000)] in
  pickChannelPair (reg s) (world s) (Amount params) (MinAmount params)
                  (RelAmountFrom params) (RelAmountTo params)
    = (Ok (from, to, amt), r1, w1) ->
  getRoutes r1 w1 routeCtx from to (Int64.mul amt 1000) = (Err err, r2, w2) ->
  (Context.deadlineExceeded routeCtx (time_Now w2) = false ->
   exists r3 w3,
     addFailedRoute r2 w2 from to = (tt, r3, w3) /\
     tryRebalance params fuel ctx s attempt =
     (Some ((Some err, true), attempt),
      {| reg := r3; world := w3; trace := tr ++ [EvAddFailedRoute from to] |})) /\
  (Context.deadlineExceeded routeCtx (time_Now w2) = true ->
   tryRebalance params fuel ctx s attempt =
   (Some ((Some err, false), attempt), {| reg := r2; world := w2; trace := tr |}) /\
   forall attempts, exists ending,
     sessionLoop params (S fuel) ctx s attempt attempts =
     (Some (ending, S attempts), {| reg := r2; world := w2; trace := tr |})).
Proof.
  intros attemptCtx routeCtx tr Hpick Hroutes.
  assert (Hrun : tryRebalance params fuel ctx s attempt =
                 if Context.deadlineExceeded routeCtx (time_Now w2)
                 then (Some ((Some err, false), attempt),
                       {| reg := r2; world := w2; trace := tr |})
                 else let '(_, r3, w3) := addFailedRoute r2 w2 from to in
                      (Some ((Some err, true), attempt),
                       {| reg := r3; world := w3;
                          trace := tr ++ [EvAddFailedRoute from to] |})).
  { unfold tryRebalance, helper. rewrite Hpick. run.
    fold attemptCtx. fold routeCtx. rewrite Hroutes. run.
    subst tr. rewrite <- ?app_assoc.
    destruct (Context.deadlineExceeded routeCtx (time_Now w2)); [ reflexivity | ].
    destruct (addFailedRoute r2 w2 from to) as [[[] r3] w3]. run.
    rewrite <- ?app_assoc. reflexivity. }
  split.
  - intros Halive. rewrite Halive in Hrun.
    destruct (addFailedRoute r2 w2 from to) as [[[] r3] w3].
    exists r3, w3. split; [ reflexivity | exact Hrun ].
  - intros Hexpired. rewrite Hexpired in Hrun. split; [ exact Hrun | ].
    intros attempts. cbn [sessionLoop]. rewrite Hrun. run.
    destruct (Context.deadlineExceeded ctx (time_Now w2)); eexists; reflexivity.
Qed.

(** C4, amended: when [pay] returns [ErrRetry] with the probed amount, the
    route is rebuilt at that amount under the attempt context.  If the
    rebuild fails, [pay] is not called again for this route and no invoice is
    invalidated: the loop goes on to the next route.  If it succeeds, [pay]
    is called once more, under the session context, with min_amount 0 and
    probe_steps 0; when that payment succeeds the attempt returns success
    (after the rapid rebalance, where it is enabled), and when it fails the
    invoice of the probed amount is invalidated and the loop goes on. *)
Theorem probed_retry (fuel : nat) (ctx attemptCtx : Context.t) (from to : Z)
    (route : Route) (rest : list Route) (amt attempt amount : Z) (s : State W)
    (r0 r1 : regolancer) (w0 w1 : W) :
  let tr1 := trace s ++
             [EvPrintRoute attemptCtx route;
              EvPay attemptCtx amt (MinAmount params) route (ProbeSteps params);
              EvRebuildRoute attemptCtx route amount] in
  printRoute (reg s) (world s) attemptCtx route = (tt, r0, w0) ->
  pay r0 w0 attemptCtx amt (MinAmount params) route (ProbeSteps params)
    = (Some (ErrRetry amount), r1, w1) ->
  (forall e r2 w2,
     rebuildRoute r1 w1 attemptCtx route amount = (Err e, r2, w2) ->
     tryRebalance_routes params fuel ctx attemptCtx from to (route :: rest) amt attempt s =
     tryRebalance_routes params fuel ctx attemptCtx from to rest amount (attempt + 1)
       {| reg := r2; world := w2; trace := tr1 |}) /\
  (forall probedRoute r2 w2,
     rebuildRoute r1 w1 attemptCtx route amount = (Ok probedRoute, r2, w2) ->
     let tr2 := tr1 ++ [EvPay ctx amount 0 probedRoute 0] in
     (forall r3 w3,
        pay r2 w2 ctx amount 0 probedRoute 0 = (None, r3, w3) ->
        tryRebalance_routes params fuel ctx attemptCtx from to (route :: rest) amt attempt s =
        if AllowRapidRebalance params && (0 <? MinAmount params) then
          match tryRapidRebalance params fuel ctx
                  {| reg := r3; world := w3; trace := tr2 |} from to probedRoute amount with
          | (None, s') => (None, s')
          | (Some _, s') => (Some ((None, false), attempt), s')
          end
        else (Some ((None, false), attempt), {| reg := r3; world := w3; trace := tr2 |})) /\
     (forall e r3 w3 r4 w4,
        pay r2 w2 ctx amount 0 probedRoute 0 = (Some e, r3, w3) ->
        invalidateInvoice r3 w3 amount = (tt, r4, w4) ->
        tryRebalance_routes params fuel ctx attemptCtx from to (route :: rest) amt attempt s =
        tryRebalance_routes params fuel ctx attemptCtx from to rest amount (attempt + 1)
          {| reg := r4; world := w4; trace := tr2 ++ [EvInvalidateInvoice amount] |})).
Proof.
  intros tr1 Hprint Hpay.
  assert (Htr1 : ((trace s ++ [EvPrintRoute attemptCtx route]) ++
                  [EvPay attemptCtx amt (MinAmount params) route (ProbeSteps params)]) ++
                 [EvRebuildRoute attemptCtx route amount] = tr1).
  { subst tr1. now rewrite <- !app_assoc. }
  split.
  - intros e r2 w2 Hrebuild.
    cbn [tryRebalance_routes]. unfold helper. rewrite Hprint. run.
    rewrite Hpay. run. rewrite Hrebuild. run. now rewrite Htr1.
  - intros probedRoute r2 w2 Hrebuild tr2. split.
    + intros r3 w3 Hpaid.
      cbn [tryRebalance_routes]. unfold helper. rewrite Hprint. run.
      rewrite Hpay. run. rewrite Hrebuild. run. rewrite Hpaid. run.
      rewrite Htr1. fold tr2. reflexivity.
    + intros e r3 w3 r4 w4 Hfailed Hinvalid.
      cbn [tryRebalance_routes]. unfold helper. rewrite Hprint. run.
      rewrite Hpay. run. rewrite Hrebuild. run. rewrite Hfailed. run.
      rewrite Hinvalid. run. rewrite Htr1. fold tr2. reflexivity.
Qed.

End Attempt.

(** The route query fails within its 30 seconds: the pair is recorded and
    the attempt asks for another; it fails when the 30 seconds are over: the
    attempt asks for no other. *)
Lemma route_query_error_witness :
  fst (Main.tryRebalance Sample.params 3 sessionCtx (start noRoutes) 1)
    = Some ((Some (errorString "no route"), true), 1) /\
  fst (Main.tryRebalance Sample.params 3 sessionCtx (start slowRoutes) 1)
    = Some ((Some (errorString "no route"), false), 1).
Proof.
  split.
  - destruct (route_query_error (client := Sample.client) (helpers := Sample.helpers) Sample.params 3 sessionCtx (start noRoutes) 1
                1 2 100000 bare bare noRoutes (tick Second noRoutes)
                (errorString "no route") eq_refl eq_refl) as [Halive _].
    destruct (Halive eq_refl) as (r3 & w3 & _ & Hrun).
    rewrite Hrun. reflexivity.
  - destruct (route_query_error (client := Sample.client) (helpers := Sample.helpers) Sample.params 3 sessionCtx (start slowRoutes) 1
                1 2 100000 bare bare slowRoutes (tick (30 * Second) slowRoutes)
                (errorString "no route") eq_refl eq_refl) as [_ Hexpired].
    destruct (Hexpired eq_refl) as [Hrun _].
    rewrite Hrun. reflexivity.
Defined.

(** C3, the claim as stated, fails.  The route query of the first attempt
    fails when the 30 seconds of the route context are over, far from the
    deadline of the session (360 minutes): the session loop does not go on
    to a further attempt, it ends after this one. *)
Lemma route_timeout_ends_session :
  let final := Main.sessionLoop Sample.params 5 sessionCtx (start slowRoutes) 1 0 in
  trace (snd final) =
    [EvPickChannelPair 100000 10000 0%float 0%float;
     EvGetRoutes routeCtx 1 2 100000000] /\
  Context.deadlineExceeded routeCtx (now (world (snd final))) = true /\
  Context.deadlineExceeded sessionCtx (now (world (snd final))) = false /\
  fst final = Some (Main.SessionFinished, 1%nat).
Proof. cbv zeta. repeat split; vm_compute; reflexivity. Qed.

(** The prober comes back with 55_000 and the probed payment succeeds: two
    calls of [pay], and the attempt returns success. *)
Lemma probed_retry_witness :
  let run := Main.tryRebalance_routes Sample.params 3 sessionCtx attemptCtx 1 2
               [route0] 100000 1 (start probedThenPaid) in
  fst run = Some ((None, false), 1) /\ countPays (trace (snd run)) = 2%nat.
Proof.
  cbv zeta.
  destruct (probed_retry (client := Sample.client) (helpers := Sample.helpers) Sample.params 3 sessionCtx attemptCtx 1 2 route0 []
              100000 1 55000 (start probedThenPaid) _ _ _ _ eq_refl eq_refl)
    as [_ Hrebuilt].
  destruct (Hrebuilt route0 _ _ eq_refl) as [Hpaid _].
  rewrite (Hpaid _ _ eq_refl). split; vm_compute; reflexivity.
Defined.

(** C4, the claim as stated, fails.  [pay] returns [ErrRetry] with 55_000
    and the route cannot be rebuilt at that amount: [pay] is not called a
    second time (and no invoice is invalidated); the loop moves on. *)
Lemma probed_retry_without_rebuild :
  let run := Main.tryRebalance_routes Sample.params 3 sessionCtx attemptCtx 1 2
               [route0] 100000 1 (start probedNoRebuild) in
  fst (fst (Main.pay bare probedNoRebuild attemptCtx 100000 10000 route0 4))
    = Some (ErrRetry 55000) /\
  trace (snd run) =
    [EvPrintRoute attemptCtx route0;
     EvPay attemptCtx 100000 10000 route0 4;
     EvRebuildRoute attemptCtx route0 55000] /\
  countPays (trace (snd run)) = 1%nat /\
  filter isInvalidateInvoice (trace (snd run)) = [] /\
  fst run = Some ((None, true), 2).
Proof. cbv zeta. repeat split; vm_compute; reflexivity. Qed.

(** ** C5: the rapid-rebalance driver *)

Lemma fresh_app (evs1 evs2 : list Event) :
  freshCandidates evs1 -> freshCandidates evs2 -> freshCandidates (evs1 ++ evs2).
Proof.
  intros Hfresh1 Hfresh2.
  induction Hfresh1 as [ | e evs Hquiet _ IH | ? ? ? ? ? ? ? ? evs Hstate _ IH]; simpl.
  - exact Hfresh2.
  - apply fresh_quiet; assumption.
  - apply fresh_iteration; assumption.
Qed.

Lemma fresh_quiets (evs : list Event) : Forall quiet evs -> freshCandidates evs.
Proof.
  induction 1 as [ | e evs Hquiet _ IH]; [ apply fresh_nil | now apply fresh_quiet ].
Qed.

Section RapidRebalance.

Import Main.

Context {W : Type} {client : LightningClient W} {helpers : Helpers W}.

Variable params : configParams.

Lemma resetWorkingState_fresh (r : regolancer) (from to : Z)
    (toChan fromChan : list Channel) :
  freshState (resetWorkingState r from to toChan fromChan) toChan fromChan.
Proof. unfold freshState, resetWorkingState. repeat split; reflexivity. Qed.

Lemma getChanInfo_trace (s : State W) (ctx : Context.t) (chanId : Z) :
  exists evs,
    trace (snd (Routes.getChanInfo s ctx chanId)) = trace s ++ evs /\ Forall quiet evs.
Proof.
  unfold Routes.getChanInfo, rpc.
  destruct (chanCache (reg s) !! chanId) as [c | ].
  - exists []. simpl. now rewrite app_nil_r.
  - destruct (GetChanInfo (world s) ctx chanId) as [[c | err] w]; simpl;
      eexists; (split; [ reflexivity | repeat constructor ]).
Qed.

Ltac iterate :=
  cbn -[resetWorkingState app tryRapidRebalance_loop Context.deadlineExceeded
        Context.WithTimeout Int64.mul Routes.getChanInfo].

Ltac all_fresh :=
  repeat first
    [ assumption
    | apply fresh_nil
    | apply fresh_quiets; assumption
    | apply fresh_app; [ apply fresh_quiets; assumption | ]
    | apply fresh_iteration; [ apply resetWorkingState_fresh | ]
    | apply fresh_quiet; [ exact I | ] ].

Ltac stop :=
  eexists; split; [ rewrite <- ?app_assoc; reflexivity | cbn [app]; all_fresh ].

(** C5: in every iteration of the rapid-rebalance driver that reaches the
    candidate re-derivation, [getChannelCandidates] comes right after the two
    channel listings of that iteration and is handed a working state in which
    [fromChannels], [toChannels], the failure cache and the channel pairs are
    empty and [channels] holds the channels just listed and nothing else.
    This holds of every stretch of a run, whether or not the driver has
    returned yet. *)
Theorem rapid_candidates_are_fresh (fuel : nat) (ctx : Context.t) (s : State W)
    (from to : Z) (route : Route) (amt : Z) :
  exists evs,
    trace (snd (tryRapidRebalance params fuel ctx s from to route amt)) = trace s ++ evs /\
    freshCandidates evs.
Proof.
  unfold tryRapidRebalance. generalize 0 as rapidAttempt.
  revert s from to route amt.
  induction fuel as [ | fuel IH]; intros s from to route amt rapidAttempt.
  { exists []. simpl. split; [ now rewrite app_nil_r | apply fresh_nil ]. }
  cbn [tryRapidRebalance_loop].
  destruct (getChanInfo_trace s ctx to) as (evs1 & Htrace1 & Hquiet1).
  destruct (Routes.getChanInfo s ctx to) as [rTo s1]. simpl in Htrace1.
  destruct rTo as [cTo | err]; [ | simpl; rewrite Htrace1; stop ].
  destruct (getChanInfo_trace s1 ctx from) as (evs2 & Htrace2 & Hquiet2).
  destruct (Routes.getChanInfo s1 ctx from) as [rFrom s2]. simpl in Htrace2.
  rewrite Htrace1 in Htrace2.
  destruct rFrom as [cFrom | err]; [ | simpl; rewrite Htrace2; stop ].
  unfold rpc.
  destruct (ListChannels (world s2) ctx _) as [rFromChan w3]. iterate.
  destruct rFromChan as [fromChan | err]; [ | iterate; rewrite Htrace2; stop ].
  destruct (ListChannels w3 ctx _) as [rToChan w4]. iterate.
  destruct rToChan as [toChan | err]; [ | iterate; rewrite Htrace2; stop ].
  unfold helper. iterate.
  destruct (getChannelCandidates _ w4 _ _ _) as [[eCand r5] w5]. iterate.
  destruct eCand as [err | ]; [ iterate; rewrite Htrace2; stop | ].
  destruct (pickChannelPair r5 w5 _ _ _ _) as [[rPick r6] w6]. iterate.
  destruct rPick as [[[from' to'] amt'] | err]; [ | iterate; rewrite Htrace2; stop ].
  destruct (rebuildRoute r6 w6 _ _ _) as [[rRoute r7] w7]. iterate.
  destruct rRoute as [route' | err]; [ | iterate; rewrite Htrace2; stop ].
  destruct (pay r7 w7 _ _ _ _ _) as [[ePay r8] w8]. iterate.
  destruct (Context.deadlineExceeded _ (time_Now w8));
    [ iterate; rewrite Htrace2; stop | ].
  destruct ePay as [err | ]; [ iterate; rewrite Htrace2; stop | ].
  match goal with
  | |- context [tryRapidRebalance_loop params fuel ctx ?s' ?f ?t ?r ?a ?n] =>
      destruct (IH s' f t r a n) as (evs' & Htrace' & Hfresh'); rewrite Htrace'
  end.
  iterate. rewrite Htrace2. stop.
Qed.

End RapidRebalance.

(** Two rapid payments succeed and the third fails: the driver returns 2,
    and each of its three iterations derived the candidates from a fresh
    working state. *)
Lemma rapid_candidates_are_fresh_witness :
  let run := Main.tryRapidRebalance Sample.params 5 sessionCtx (start rapidTwice)
               1 2 route0 100000 in
  fst run = Some (2, None) /\
  length (filter isCandidates (trace (snd run))) = 3%nat /\
  exists evs, trace (snd run) = [] ++ evs /\ freshCandidates evs.
Proof.
  cbv zeta. split; [ vm_compute; reflexivity | ]. split; [ vm_compute; reflexivity | ].
  apply (rapid_candidates_are_fresh (client := Sample.client) (helpers := Sample.helpers)
           Sample.params 5 sessionCtx (start rapidTwice) 1 2 route0 100000).
Defined.

(** * Further properties of the code *)

(** ** routes.go: the policy fee *)

(** For a rate that is not negative and amounts from 0 up to one whose
    product and fee fit in [int64], the fee is at least the base fee and does
    not decrease when the amount grows. *)
Theorem calcFeeMsat_monotone (amt1 amt2 : Z) (policy : RoutingPolicy) :
  0 <= FeeRateMilliMsat policy ->
  0 <= amt1 <= amt2 ->
  Int64.in_range (FeeBaseMsat policy) ->
  Int64.in_range (amt2 * FeeRateMilliMsat policy) ->
  Int64.in_range (FeeBaseMsat policy + Z.quot (amt2 * FeeRateMilliMsat policy) 1000000) ->
  FeeBaseMsat policy <= Routes.calcFeeMsat amt1 policy <= Routes.calcFeeMsat amt2 policy.
Proof.
  intros Hrate Hamt Hbase Hprod Hsum.
  assert (Hprod1 : 0 <= amt1 * FeeRateMilliMsat policy <= amt2 * FeeRateMilliMsat policy) by nia.
  assert (Hq1 : 0 <= Z.quot (amt1 * FeeRateMilliMsat policy) 1000000)
    by (apply Z.quot_pos; lia).
  assert (Hq12 : Z.quot (amt1 * FeeRateMilliMsat policy) 1000000
                 <= Z.quot (amt2 * FeeRateMilliMsat policy) 1000000)
    by (apply Z.quot_le_mono; lia).
  assert (Hfee : forall amt,
             Int64.in_range (amt * FeeRateMilliMsat policy) ->
             Int64.in_range (FeeBaseMsat policy
                             + Z.quot (amt * FeeRateMilliMsat policy) 1000000) ->
             Routes.calcFeeMsat amt policy =
             FeeBaseMsat policy + Z.quot (amt * FeeRateMilliMsat policy) 1000000).
  { intros amt Hp Hs. unfold Routes.calcFeeMsat, Int64.add, Int64.quot, Int64.mul.
    rewrite (wrap_in_range _ Hp).
    rewrite (wrap_in_range (Z.quot _ _)) by (apply quot_in_range; [ lia | exact Hp ]).
    apply wrap_in_range, Hs. }
  unfold Int64.in_range, Int64.min_int, Int64.max_int in *.
  rewrite (Hfee amt1), (Hfee amt2); unfold Int64.in_range, Int64.min_int, Int64.max_int; lia.
Qed.

Lemma calcFeeMsat_monotone_witness :
  FeeBaseMsat ourPolicyB <= Routes.calcFeeMsat 50000000 ourPolicyB
                         <= Routes.calcFeeMsat 100000000 ourPolicyB.
Proof.
  apply (calcFeeMsat_monotone 50000000 100000000 ourPolicyB);
    unfold Int64.in_range; vm_compute; try split; congruence.
Defined.

(** ** routes.go: the route query *)

Lemma string_pairs_ind (P : string -> Prop) :
  P EmptyString ->
  (forall c, P (String c EmptyString)) ->
  (forall p q rest, P rest -> P (String p (String q rest))) ->
  forall s, P s.
Proof.
  intros Hempty Hone Hpair s.
  assert (Hboth : P s /\ forall c, P (String c s)).
  { induction s as [ | c s [IH1 IH2]]; split; auto. }
  apply Hboth.
Qed.

Lemma hexDigit_fromHexChar (c : ascii) :
  hexDigit c = match Hex.fromHexChar c with Some _ => true | None => false end.
Proof. destruct c as [[] [] [] [] [] [] [] []]; reflexivity. Qed.

Lemma fromHexChar_range (c : ascii) (v : Z) : Hex.fromHexChar c = Some v -> 0 <= v < 16.
Proof.
  destruct c as [[] [] [] [] [] [] [] []]; vm_compute; intros [= <-]; split; congruence.
Qed.

Lemma hexString_pair (p q : ascii) (rest : string) :
  hexString (String p (String q rest)) = hexDigit p && hexDigit q && hexString rest.
Proof.
  unfold hexString.
  change (String.length (String p (String q rest))) with (S (S (String.length rest))).
  change (list_ascii_of_string (String p (String q rest)))
    with (p :: q :: list_ascii_of_string rest).
  cbn [Nat.even forallb].
  destruct (hexDigit p), (hexDigit q), (Nat.even (String.length rest)); reflexivity.
Qed.

(** [hex.DecodeString] returns no error exactly on the hexadecimal strings
    of even length; it then returns one byte for every two characters. *)
Lemma DecodeString_hexString (s : string) :
  (snd (Hex.DecodeString s) = None <-> hexString s = true) /\
  (snd (Hex.DecodeString s) = None ->
   (2 * length (fst (Hex.DecodeString s)) = String.length s)%nat) /\
  Forall (fun b => 0 <= b < 256) (fst (Hex.DecodeString s)).
Proof.
  induction s as [ | c | p q rest (IHiff & IHlen & IHbytes)] using string_pairs_ind.
  - repeat split; constructor.
  - cbn [Hex.DecodeString].
    assert (Hodd : hexString (String c EmptyString) = false) by reflexivity.
    rewrite Hodd. destruct (Hex.fromHexChar c); simpl; repeat split; try discriminate;
      constructor.
  - cbn [Hex.DecodeString]. rewrite hexString_pair, !hexDigit_fromHexChar.
    destruct (Hex.fromHexChar p) as [a | ] eqn:Hp;
      [ destruct (Hex.fromHexChar q) as [b | ] eqn:Hq | ];
      try (simpl; repeat split; try discriminate; constructor).
    destruct (Hex.DecodeString rest) as [bs err]. simpl in *.
    repeat split.
    + apply IHiff.
    + apply IHiff.
    + intros Hnone. rewrite <- (IHlen Hnone). lia.
    + constructor; [ | exact IHbytes ].
      pose proof (fromHexChar_range p a Hp). pose proof (fromHexChar_range q b Hq). lia.
Qed.

(** The error of [hex.DecodeString]: the first byte that is no digit, or
    the odd length. *)
Lemma DecodeString_error (s : string) :
  snd (Hex.DecodeString s) =
  match firstNonHex s with
  | Some c => Some (Hex.InvalidByteError c)
  | None => if Nat.even (String.length s) then None else Some Hex.ErrLength
  end.
Proof.
  induction s as [ | c | p q rest IH] using string_pairs_ind.
  - reflexivity.
  - cbn [Hex.DecodeString firstNonHex]. rewrite hexDigit_fromHexChar.
    destruct (Hex.fromHexChar c); reflexivity.
  - cbn [Hex.DecodeString firstNonHex]. rewrite !hexDigit_fromHexChar.
    destruct (Hex.fromHexChar p) as [a | ]; [ | reflexivity ].
    destruct (Hex.fromHexChar q) as [b | ]; [ | reflexivity ].
    destruct (Hex.DecodeString rest) as [bs err]. exact IH.
Qed.

Section RouteQuery.

Context {W : Type} {client : LightningClient W}.

(** Once the target edge is at hand, [getRoutes] asks for routes exactly
    when the key of the last hop is a hexadecimal string of even length.
    Then it sends one [QueryRoutes], to our own key, out through [from], for
    the amount given, with mission control on and a last hop of one byte for
    every two characters of the key; it returns the node's answer as it is
    and leaves the rebalancer alone.  Otherwise it asks nothing and returns
    the error of the decoder: the invalid byte, for the first character of
    the key that is no hexadecimal digit, or, when all are digits, the odd
    length. *)
Theorem getRoutes_queries_iff_hex (s s1 : State W) (from to amtMsat : Z) (ratio : float)
    (c : ChannelEdge) :
  let ctx := Context.WithTimeout Context.Background (time_Now (world s)) (30 * Second) in
  let key := fst (Routes.lastHop c (myPK (reg s))) in
  Routes.getChanInfo s ctx to = (Ok c, s1) ->
  (hexString key = true ->
   exists req s2,
     Routes.getRoutes s from to amtMsat ratio = (fst (QueryRoutes (world s1) ctx req), s2) /\
     trace s2 = trace s1 ++
                [EvRpc (RpcQueryRoutes req (fst (QueryRoutes (world s1) ctx req)))] /\
     reg s2 = reg s1 /\
     (2 * length (LastHopPubkey req) = String.length key)%nat /\
     Forall (fun b => 0 <= b < 256) (LastHopPubkey req) /\
     PubKey req = myPK (reg s) /\ OutgoingChanId req = from /\
     AmtMsat req = amtMsat /\ UseMissionControl req = true) /\
  (hexString key = false ->
   snd (Hex.DecodeString key)
   = Some (match firstNonHex key with
           | Some c => Hex.InvalidByteError c
           | None => Hex.ErrLength
           end) /\
   Routes.getRoutes s from to amtMsat ratio
   = (Err (errorString (match firstNonHex key with
                        | Some c => Hex.InvalidByteError c
                        | None => Hex.ErrLength
                        end)), s1)).
Proof.
  intros ctx key Hget.
  destruct (DecodeString_hexString key) as (Hiff & Hlen & Hbytes).
  destruct (Hex.DecodeString key) as [lastPK err] eqn:Hdec. simpl in *.
  split.
  - intros Hhex. apply Hiff in Hhex. subst err.
    pose proof (getRoutes_query s s1 from to amtMsat ratio c lastPK Hget Hdec) as Hq.
    cbv zeta in Hq. fold ctx in Hq.
    eexists _, _. split; [ exact Hq | ].
    repeat split; try reflexivity; [ exact (Hlen eq_refl) | exact Hbytes ].
  - intros Hnot. destruct err as [msg | ].
    + pose proof (DecodeString_error key) as Herror.
      rewrite Hdec in Herror. cbn [snd] in Herror.
      assert (Hmsg : msg = match firstNonHex key with
                           | Some c => Hex.InvalidByteError c
                           | None => Hex.ErrLength
                           end).
      { destruct (firstNonHex key) as [bad | ]; [ congruence | ].
        destruct (Nat.even (String.length key)); congruence. }
      split; [ now rewrite <- Hmsg | ].
      rewrite <- Hmsg. unfold Routes.getRoutes. fold ctx. rewrite Hget.
      rewrite (getChanInfo_myPK _ _ _ _ _ Hget).
      fold key. destruct (Routes.lastHop c (myPK (reg s))) as [k policy].
      simpl in key. subst key. now rewrite Hdec.
    + rewrite (proj1 Hiff eq_refl) in Hnot. discriminate.
Qed.

(** A call of [getRoutes] that returned routes has stored the target edge:
    a further call for the same target, from any source and for any amount,
    asks for no channel again and leaves the rebalancer as it is. *)
Theorem getRoutes_fetches_edge_once (s s1 : State W) (from to amtMsat : Z)
    (ratio : float) (routes : list Route) :
  Routes.getRoutes s from to amtMsat ratio = (Ok routes, s1) ->
  forall from' amtMsat' ratio',
    let s2 := snd (Routes.getRoutes s1 from' to amtMsat' ratio') in
    filter isChanInfoRpc (trace s2) = filter isChanInfoRpc (trace s1) /\
    reg s2 = reg s1.
Proof.
  intros Hfirst from' amtMsat' ratio'.
  assert (Hcached : exists c, chanCache (reg s1) !! to = Some c).
  { revert Hfirst. unfold Routes.getRoutes.
    destruct (Routes.getChanInfo s _ to) as [[c | err] s0] eqn:Hget; [ | discriminate ].
    apply getChanInfo_stores in Hget.
    destruct (Routes.lastHop c (myPK (reg s0))) as [k policy].
    destruct (Hex.DecodeString k) as [lastPK [msg | ]]; [ discriminate | ].
    unfold rpc. destruct (QueryRoutes (world s0) _ _) as [[rs | err] w];
      intros [= _ <-]; exists c; exact Hget. }
  destruct Hcached as [c Hcached].
  cbv zeta. unfold Routes.getRoutes.
  rewrite (getChanInfo_hit s1 _ to c Hcached).
  destruct (Routes.lastHop c (myPK (reg s1))) as [k policy].
  destruct (Hex.DecodeString k) as [lastPK [msg | ]]; [ now split | ].
  unfold rpc. destruct (QueryRoutes (world s1) _ _) as [[rs | err] w]; simpl;
    rewrite filter_app; simpl; now rewrite app_nil_r.
Qed.

End RouteQuery.

(** Scenario 1: the key [03cc] of the peer gives a last hop of two bytes.
    A key [03zz]: nothing is asked and the error names the byte [z]. *)
Lemma getRoutes_queries_iff_hex_witness :
  (exists req s2,
     Routes.getRoutes (start calm) 1 2 100000000 1%float
       = (fst (QueryRoutes (tick 1 calm)
                 (Context.WithTimeout Context.Background 0 (30 * Second)) req), s2) /\
     (2 * length (LastHopPubkey req) = 4)%nat /\
     OutgoingChanId req = 1 /\ AmtMsat req = 100000000) /\
  Routes.getRoutes Cases.startBadKey 1 7 100000000 1%float
  = (Err (errorString "encoding/hex: invalid byte: U+007A 'z'"), Cases.startBadKey).
Proof.
  split.
  - destruct (getRoutes_queries_iff_hex (client := Sample.client) (start calm)
                _ 1 2 100000000 1%float edgeB eq_refl) as [Hhex _].
    destruct (Hhex eq_refl) as (req & s2 & Hrun & _ & _ & Hlen & _ & _ & Hfrom & Hamt & _).
    exists req, s2. repeat split; assumption.
  - destruct (getRoutes_queries_iff_hex (client := Sample.client) Cases.startBadKey
                _ 1 7 100000000 1%float Cases.edgeBadKey eq_refl) as [_ Hbad].
    exact (proj2 (Hbad eq_refl)).
Defined.

Lemma getRoutes_fetches_edge_once_witness :
  let s1 := snd (Routes.getRoutes (start calm) 1 2 100000000 1%float) in
  let s2 := snd (Routes.getRoutes s1 1 2 50000000 1%float) in
  length (filter isChanInfoRpc (trace s2)) = 1%nat /\ reg s2 = reg s1.
Proof.
  cbv zeta.
  assert (Hfirst : Routes.getRoutes (start calm) 1 2 100000000 1%float =
                   (Ok [route0], snd (Routes.getRoutes (start calm) 1 2 100000000 1%float)))
    by (vm_compute; reflexivity).
  pose proof (getRoutes_fetches_edge_once (client := Sample.client) (start calm) _
                1 2 100000000 1%float [route0] Hfirst 1 50000000 1%float) as Hsecond.
  cbv zeta in Hsecond. destruct Hsecond as [Hsame Hreg].
  split; [ rewrite Hsame; vm_compute; reflexivity | exact Hreg ].
Defined.

(** ** routes.go: printing a route *)

Lemma set_nodeCache_twice (r : regolancer) (a b : gmap string NodeInfo) :
  set_nodeCache (set_nodeCache r a) b = set_nodeCache r b.
Proof. reflexivity. Qed.

Lemma set_nodeCache_same (r : regolancer) : set_nodeCache r (nodeCache r) = r.
Proof. now destruct r. Qed.

Section PrintRoute.

Context {W : Type} {client : LightningClient W}.

Lemma getNodeInfo_effect (s s1 : State W) (pk : string) (res : result NodeInfo) :
  Routes.getNodeInfo s pk = (res, s1) ->
  reg s1 = set_nodeCache (reg s) (nodeCache (reg s1)) /\
  nodeCache (reg s) ⊆ nodeCache (reg s1) /\
  (exists evs, trace s1 = trace s ++ evs /\ forallb isNodeInfoRpc evs = true /\
               (length evs <= 1)%nat) /\
  (forall n, res = Ok n -> nodeCache (reg s1) !! pk = Some n).
Proof.
  unfold Routes.getNodeInfo, rpc.
  destruct (nodeCache (reg s) !! pk) as [n0 | ] eqn:Hlook.
  - intros [= <- <-]. refine (conj _ (conj _ (conj _ _))).
    + now rewrite set_nodeCache_same.
    + reflexivity.
    + exists []. rewrite app_nil_r. refine (conj eq_refl (conj eq_refl _)). simpl. lia.
    + now intros n [= <-].
  - destruct (GetNodeInfo (world s) Context.Background pk) as [[n0 | err] w];
      intros [= <- <-]; simpl; refine (conj _ (conj _ (conj _ _))).
    + reflexivity.
    + now apply insert_subseteq.
    + eexists. refine (conj eq_refl (conj eq_refl _)). simpl. lia.
    + intros n [= <-]. apply lookup_insert_eq.
    + now rewrite set_nodeCache_same.
    + reflexivity.
    + eexists. refine (conj eq_refl (conj eq_refl _)). simpl. lia.
    + discriminate.
Qed.

Lemma printHops_effect (hops : list Hop) (s s1 : State W) (i : nat)
    (lines : list Routes.printed) (errs : list error) :
  Routes.printHops s i hops = (lines, errs, s1) ->
  reg s1 = set_nodeCache (reg s) (nodeCache (reg s1)) /\
  nodeCache (reg s) ⊆ nodeCache (reg s1) /\
  (exists evs, trace s1 = trace s ++ evs /\ forallb isNodeInfoRpc evs = true /\
               (length evs <= length hops)%nat) /\
  forallb isHopLine lines = true /\
  (length lines + length errs = length hops)%nat.
Proof.
  revert s s1 i lines errs.
  induction hops as [ | hop rest IH]; intros s s1 i lines errs; cbn [Routes.printHops].
  - intros [= <- <- <-]. refine (conj _ (conj _ (conj _ (conj eq_refl eq_refl)))).
    + now rewrite set_nodeCache_same.
    + reflexivity.
    + exists []. rewrite app_nil_r. refine (conj eq_refl (conj eq_refl _)). simpl. lia.
  - destruct (Routes.getNodeInfo s (HopPubKey hop)) as [res s0] eqn:Hnode.
    destruct (getNodeInfo_effect _ _ _ _ Hnode)
      as (Hreg0 & Hsub0 & (evs0 & Htrace0 & Hrpc0 & Hlen0) & _).
    destruct (Routes.printHops s0 (S i) rest) as [[lines' errs'] s2] eqn:Hrest.
    destruct (IH _ _ _ _ _ Hrest)
      as (Hreg & Hsub & (evs & Htrace & Hrpc & Hlen) & Hlines & Hcount).
    assert (Hstate : reg s2 = set_nodeCache (reg s) (nodeCache (reg s2)) /\
                     nodeCache (reg s) ⊆ nodeCache (reg s2) /\
                     exists evs', trace s2 = trace s ++ evs' /\
                                  forallb isNodeInfoRpc evs' = true /\
                                  (length evs' <= S (length rest))%nat).
    { refine (conj _ (conj _ _)).
      - rewrite Hreg, Hreg0. apply set_nodeCache_twice.
      - etransitivity; eassumption.
      - exists (evs0 ++ evs). rewrite Htrace, Htrace0, app_assoc.
        refine (conj eq_refl _).
        rewrite forallb_app, Hrpc0, Hrpc, length_app. split; [ reflexivity | lia ]. }
    destruct Hstate as (Hreg2 & Hsub2 & Hevs2).
    destruct res as [nodeInfo | err]; intros [= <- <- <-];
      refine (conj Hreg2 (conj Hsub2 (conj Hevs2 (conj _ _)))); simpl;
      first [ assumption | lia ].
Qed.

(** [printRoute] writes nothing for a route without hops.  Otherwise it
    writes the fee of the route less that of the first hop, then the lines of
    the hops whose node could be looked up, then the errors if there are any:
    every hop gives either a line or an error. *)
Theorem printRoute_lines (s : State W) (route : Route) :
  let out := fst (Routes.printRoute s route) in
  match Hops route with
  | [] => out = [] /\ snd (Routes.printRoute s route) = s
  | first :: _ =>
      exists lines errs,
        out = Routes.PrintTotalFee (Int64.sub (TotalFeesMsat route) (FeeMsat first))
              :: lines ++ match errs with
                          | [] => []
                          | _ :: _ => [Routes.PrintErrors errs]
                          end /\
        forallb isHopLine lines = true /\
        (length lines + length errs = length (Hops route))%nat
  end.
Proof.
  cbv zeta. unfold Routes.printRoute.
  destruct (Hops route) as [ | first rest] eqn:Hhops; [ now split | ].
  destruct (Routes.printHops s 0 (first :: rest)) as [[lines errs] s1] eqn:Hrun.
  destruct (printHops_effect _ _ _ _ _ _ Hrun) as (_ & _ & _ & Hlines & Hcount).
  exists lines, errs. exact (conj eq_refl (conj Hlines Hcount)).
Qed.

(** [printRoute] changes nothing of the rebalancer but the node cache, which
    only grows; and all it asks of the node is the information of nodes, at
    most once per hop. *)
Theorem printRoute_effects (s : State W) (route : Route) :
  let s1 := snd (Routes.printRoute s route) in
  reg s1 = set_nodeCache (reg s) (nodeCache (reg s1)) /\
  nodeCache (reg s) ⊆ nodeCache (reg s1) /\
  exists evs, trace s1 = trace s ++ evs /\ forallb isNodeInfoRpc evs = true /\
              (length evs <= length (Hops route))%nat.
Proof.
  cbv zeta. unfold Routes.printRoute.
  destruct (Hops route) as [ | first rest] eqn:Hhops.
  - simpl. split; [ now rewrite set_nodeCache_same | ]. split; [ reflexivity | ].
    exists []. rewrite app_nil_r. refine (conj eq_refl (conj eq_refl _)). simpl. lia.
  - destruct (Routes.printHops s 0 (first :: rest)) as [[lines errs] s1] eqn:Hrun.
    destruct (printHops_effect _ _ _ _ _ _ Hrun) as (Hreg & Hsub & Hevs & _).
    simpl. exact (conj Hreg (conj Hsub Hevs)).
Qed.

Lemma printHops_cached (hops : list Hop) (s s1 : State W) (i : nat)
    (lines : list Routes.printed) :
  Routes.printHops s i hops = (lines, [], s1) ->
  forall s2, nodeCache (reg s1) ⊆ nodeCache (reg s2) ->
    Routes.printHops s2 i hops = (lines, [], s2).
Proof.
  revert s s1 i lines.
  induction hops as [ | hop rest IH]; intros s s1 i lines; cbn [Routes.printHops].
  - now intros [= <- <-].
  - destruct (Routes.getNodeInfo s (HopPubKey hop)) as [res s0] eqn:Hnode.
    destruct (getNodeInfo_effect _ _ _ _ Hnode) as (_ & _ & _ & Hstored).
    destruct (Routes.printHops s0 (S i) rest) as [[lines' errs'] s'] eqn:Hrest.
    destruct (printHops_effect _ _ _ _ _ _ Hrest) as (_ & Hsub & _).
    destruct res as [nodeInfo | err]; [ | discriminate ].
    intros [= <- -> <-] s2 Hsub2.
    assert (Hhit : nodeCache (reg s2) !! HopPubKey hop = Some nodeInfo).
    { eapply lookup_weaken; [ | exact Hsub2 ].
      eapply lookup_weaken; [ now apply Hstored | exact Hsub ]. }
    rewrite (getNodeInfo_hit s2 _ _ Hhit).
    now rewrite (IH _ _ _ _ Hrest s2 Hsub2).
Qed.

(** When [printRoute] reported no error, every node of the route is in the
    cache: printing the same route again, then or at any later state whose
    node cache still holds those entries, writes the same lines, asks the
    node nothing and changes nothing. *)
Theorem printRoute_again (s : State W) (route : Route) :
  filter isErrorLine (fst (Routes.printRoute s route)) = [] ->
  forall s2, nodeCache (reg (snd (Routes.printRoute s route))) ⊆ nodeCache (reg s2) ->
    Routes.printRoute s2 route = (fst (Routes.printRoute s route), s2).
Proof.
  unfold Routes.printRoute.
  destruct (Hops route) as [ | first rest] eqn:Hhops; [ reflexivity | ].
  destruct (Routes.printHops s 0 (first :: rest)) as [[lines errs] s1] eqn:Hrun.
  destruct (printHops_effect _ _ _ _ _ _ Hrun) as (_ & _ & _ & Hlines & _).
  cbn [fst snd]. intros Hquiet s2 Hsub.
  assert (Hnone : errs = []).
  { destruct errs as [ | err errs]; [ reflexivity | ].
    exfalso.
    apply (filter_nil_not_elem_of _ _ (Routes.PrintErrors (err :: errs)) Hquiet); [ exact I | ].
    right. apply elem_of_app. right. left. }
  subst errs.
  now rewrite (printHops_cached _ _ _ _ _ Hrun s2 Hsub).
Qed.

End PrintRoute.

(** The route through [03cc] prints without error; printed again, it gives
    the same three lines and the state stays. *)
Lemma printRoute_again_witness :
  let s1 := snd (Routes.printRoute (start calm) Cases.routeKnown) in
  Routes.printRoute s1 Cases.routeKnown =
  ([Routes.PrintTotalFee 10000; Routes.PrintHop 2 None "bob";
    Routes.PrintHop 5 (Some 10000) "bob"], s1).
Proof.
  cbv zeta.
  rewrite (printRoute_again (client := Sample.client) (start calm) Cases.routeKnown
             eq_refl _ (reflexivity _)).
  reflexivity.
Defined.

(** ** main.go: channel ids from strings *)

Section MoreChannelIds.

Variable parseScid : string -> option Z.

Lemma convertChanString_range (cid : string) (id : Z) :
  Main.convertChanString parseScid cid = Main.Return id -> 0 <= id < 2 ^ 64.
Proof.
  unfold Main.convertChanString, Int64.to_uint64.
  destruct (Strconv.ParseInt cid) as [v | err].
  - intros [= <-]. apply Z.mod_pos_bound. lia.
  - destruct (Main.isScid cid); [ | discriminate ].
    destruct (parseScid cid) as [v | ]; [ | discriminate ].
    intros [= <-]. apply Z.mod_pos_bound. lia.
Qed.

Lemma convertChanStringToInt_from_acc (cids : list string) (acc : list Z) :
  Main.convertChanStringToInt_from parseScid acc cids =
  match Main.convertChanStringToInt_from parseScid [] cids with
  | Main.Exit code => Main.Exit code
  | Main.Return ids => Main.Return (acc ++ ids)
  end.
Proof.
  revert acc. induction cids as [ | cid cids IH]; intros acc; simpl.
  - now rewrite app_nil_r.
  - destruct (Main.convertChanString parseScid cid) as [code | id]; [ reflexivity | ].
    rewrite (IH (acc ++ [id])), (IH [id]).
    destruct (Main.convertChanStringToInt_from parseScid [] cids); [ reflexivity | ].
    now rewrite <- app_assoc.
Qed.

(** A list of strings is either converted whole, in order, to as many ids,
    each within [uint64], or the process ends with status 1; no id is ever
    dropped or added. *)
Theorem convertChanStringToInt_ids (cids : list string) :
  match Main.convertChanStringToInt parseScid cids with
  | Main.Exit code => code = 1 /\ cids <> []
  | Main.Return ids =>
      length ids = length cids /\
      Forall2 (fun cid id => Main.convertChanString parseScid cid = Main.Return id) cids ids /\
      Forall (fun id => 0 <= id < 2 ^ 64) ids
  end.
Proof.
  unfold Main.convertChanStringToInt.
  induction cids as [ | cid cids IH]; simpl; [ repeat constructor | ].
  destruct (Main.convertChanString parseScid cid) as [code | id] eqn:Hcid.
  - split; [ eapply convertChanString_exit, Hcid | discriminate ].
  - rewrite convertChanStringToInt_from_acc.
    destruct (Main.convertChanStringToInt_from parseScid [] cids) as [code | ids].
    + split; [ apply IH | discriminate ].
    + destruct IH as (Hlen & Hall & Hrange). simpl.
      split; [ now rewrite Hlen | ].
      split; constructor; try assumption.
      eapply convertChanString_range, Hcid.
Qed.

(** Converting two lists one after the other is converting their
    concatenation: the ids of the first, then those of the second, and the
    process ends where the first failing string is. *)
Theorem convertChanStringToInt_app (cids1 cids2 : list string) :
  Main.convertChanStringToInt parseScid (cids1 ++ cids2) =
  match Main.convertChanStringToInt parseScid cids1 with
  | Main.Exit code => Main.Exit code
  | Main.Return ids1 =>
      match Main.convertChanStringToInt parseScid cids2 with
      | Main.Exit code => Main.Exit code
      | Main.Return ids2 => Main.Return (ids1 ++ ids2)
      end
  end.
Proof.
  unfold Main.convertChanStringToInt.
  induction cids1 as [ | cid cids1 IH]; simpl.
  - now destruct (Main.convertChanStringToInt_from parseScid [] cids2).
  - destruct (Main.convertChanString parseScid cid) as [code | id]; [ reflexivity | ].
    rewrite (convertChanStringToInt_from_acc (cids1 ++ cids2)), IH.
    rewrite (convertChanStringToInt_from_acc cids1 [id]).
    destruct (Main.convertChanStringToInt_from parseScid [] cids1) as [code | ids1];
      [ reflexivity | ].
    destruct (Main.convertChanStringToInt_from parseScid [] cids2) as [code | ids2];
      [ reflexivity | ].
    now rewrite app_assoc.
Qed.

Lemma FormatInt_reads (v : Z) :
  0 <= v ->
  exists c rest d,
    Strconv.FormatInt v = String c rest /\ Strconv.digit c = Some d /\
    Strconv.digits (String c rest) 0 = Some v.
Proof.
  intros Hv. unfold Strconv.FormatInt.
  assert (Hsign : (v <? 0) = false) by (apply Z.ltb_ge; exact Hv).
  rewrite Hsign.
  destruct (digits_formatNat _ v (log2_fuel v Hv)) as (c & rest & d & k & Hfmt & Hd & Hread).
  exists c, rest, d. split; [ exact Hfmt | ]. split; [ exact Hd | ].
  pose proof (Hread 0) as Hzero.
  replace (0 * k + v) with v in Hzero by lia. exact Hzero.
Qed.

(** Decimal ids, by their range.  An id below 2^63 converts to itself.  An
    id from 2^63 up, though a [uint64], does not parse as a signed integer
    of 64 bits and has no [x]: its numeral ends the process.  A negative
    number from -2^63 up is accepted and wraps into [uint64]. *)
Theorem convertChanString_decimal (v : Z) :
  (0 <= v < 2 ^ 63 ->
   Main.convertChanString parseScid (Strconv.FormatInt v) = Main.Return v) /\
  (2 ^ 63 <= v ->
   Main.convertChanString parseScid (Strconv.FormatInt v) = Main.Exit 1) /\
  (- 2 ^ 63 <= v < 0 ->
   Main.convertChanString parseScid (Strconv.FormatInt v) = Main.Return (v + 2 ^ 64)).
Proof.
  refine (conj _ (conj _ _)).
  - intros Hv. unfold Main.convertChanString.
    rewrite ParseInt_FormatInt
      by (unfold Int64.in_range, Int64.min_int, Int64.max_int; lia).
    unfold Int64.to_uint64. now rewrite Z.mod_small by lia.
  - intros Hv.
    destruct (FormatInt_reads v ltac:(lia)) as (c & rest & d & Hfmt & Hd & Hread).
    unfold Main.convertChanString.
    assert (Hparse : Strconv.ParseInt (Strconv.FormatInt v)
                     = Err (errorString "value out of range")).
    { rewrite Hfmt, (ParseInt_unsigned c rest d Hd).
      unfold Strconv.parseMagnitude. rewrite Hread.
      assert (Hout : Int64.in_rangeb v = false).
      { unfold Int64.in_rangeb, Int64.max_int.
        apply andb_false_iff. right. apply Z.leb_gt. lia. }
      now rewrite Hout. }
    rewrite Hparse.
    assert (Hscid : Main.isScid (Strconv.FormatInt v) = false).
    { unfold Main.isScid. rewrite Hfmt, (digits_no_x _ _ _ Hread). reflexivity. }
    now rewrite Hscid.
  - intros Hv. unfold Main.convertChanString.
    rewrite ParseInt_FormatInt
      by (unfold Int64.in_range, Int64.min_int, Int64.max_int; lia).
    unfold Int64.to_uint64. f_equal.
    rewrite <- (Z.mod_add v 1 (2 ^ 64)) by lia.
    apply Z.mod_small. lia.
Qed.

End MoreChannelIds.

(** The largest id below 2^63 converts to itself, the next one is fatal,
    and -1 becomes the largest [uint64]. *)
Lemma convertChanString_decimal_witness :
  Main.convertChanString (fun _ => None) "9223372036854775807"
    = Main.Return 9223372036854775807 /\
  Main.convertChanString (fun _ => None) "9223372036854775808" = Main.Exit 1 /\
  Main.convertChanString (fun _ => None) "-1" = Main.Return 18446744073709551615.
Proof.
  refine (conj _ (conj _ _)).
  - exact (proj1 (convertChanString_decimal (fun _ => None) 9223372036854775807)
                 ltac:(lia)).
  - exact (proj1 (proj2 (convertChanString_decimal (fun _ => None) 9223372036854775808))
                 ltac:(lia)).
  - exact (proj2 (proj2 (convertChanString_decimal (fun _ => None) (-1)))
                 ltac:(lia)).
Defined.

(** ** C8: the channel ids *)

(** C8, the claim as stated, fails.  The largest 64-bit channel id is a
    decimal 64-bit integer, and its numeral ends the process: it is beyond
    the signed range and has no [x].  And [-1], no channel id, is accepted. *)
Lemma decimal_uint64_id_is_fatal :
  0 <= 18446744073709551615 < 2 ^ 64 /\
  Strconv.FormatInt 18446744073709551615 = "18446744073709551615" /\
  (forall parseScid,
     Main.convertChanStringToInt parseScid ["18446744073709551615"] = Main.Exit 1) /\
  (forall parseScid,
     Main.convertChanStringToInt parseScid ["-1"] = Main.Return [18446744073709551615]).
Proof.
  split; [ lia | ]. split; [ vm_compute; reflexivity | ].
  split; intros parseScid; reflexivity.
Qed.

Lemma countX_app (s1 s2 : string) :
  Spec.countX (s1 ++ s2) = Spec.countX s1 + Spec.countX s2.
Proof.
  induction s1 as [ | c s1 IH]; [ reflexivity | ].
  rewrite append_cons. cbn [Spec.countX]. rewrite IH. lia.
Qed.

Lemma digits_countX (body : string) (n : Z) :
  Strconv.digits body 0 = Some n -> Spec.countX body = 0.
Proof.
  intros Hread. rewrite <- Count_ToLower_x. exact (digits_no_x body 0 n Hread).
Qed.

Lemma ParseInt_countX (cid : string) (v : Z) :
  Strconv.ParseInt cid = Ok v -> Spec.countX cid = 0.
Proof.
  intros Hparse. rewrite <- Count_ToLower_x. exact (proj1 (ParseInt_ok cid v Hparse)).
Qed.

Section ChannelIdForms.

Variable parseScid : string -> option Z.

Lemma convertChanString_undecimal (cid : string) :
  (forall v, Strconv.ParseInt cid <> Ok v) ->
  Main.convertChanString parseScid cid =
  if Spec.hasTwoX cid
  then match parseScid cid with
       | Some chanId => Main.Return (Int64.to_uint64 chanId)
       | None => Main.Exit 1
       end
  else Main.Exit 1.
Proof.
  intros Hnot. unfold Main.convertChanString.
  destruct (Strconv.ParseInt cid) as [v | err] eqn:Hparse; [ now destruct (Hnot v) | ].
  assert (Hscid : Main.isScid cid = Spec.hasTwoX cid).
  { unfold Main.isScid, Spec.hasTwoX. now rewrite Count_ToLower_x. }
  rewrite Hscid. reflexivity.
Qed.

Lemma convertChanString_beyond (v : Z) :
  2 ^ 63 <= v -> Main.convertChanString parseScid (Strconv.FormatInt v) = Main.Exit 1.
Proof.
  intros Hv.
  destruct (FormatInt_reads v ltac:(lia)) as (c & rest & d & Hfmt & Hd & Hread).
  assert (Hparse : forall u, Strconv.ParseInt (Strconv.FormatInt v) <> Ok u).
  { intros u. rewrite Hfmt, (ParseInt_unsigned c rest d Hd).
    unfold Strconv.parseMagnitude. rewrite Hread.
    assert (Hout : Int64.in_rangeb v = false).
    { unfold Int64.in_rangeb, Int64.max_int.
      apply andb_false_iff. right. apply Z.leb_gt. lia. }
    rewrite Hout. discriminate. }
  rewrite (convertChanString_undecimal _ Hparse).
  unfold Spec.hasTwoX. rewrite Hfmt, (digits_countX _ _ Hread). reflexivity.
Qed.

(** C8, amended: for every channel-id string of a configured list, a
    decimal numeral of a signed 64-bit integer, from -2^63 up to below 2^63,
    is accepted and yields that integer as a [uint64], a negative one wrapped
    by 2^64; a decimal id from 2^63 up, though a 64-bit channel id, is a fatal
    startup error.  A string that is no such numeral is handed to the
    short-channel-id parser exactly when it has two [x] or [X] in it, as every
    string of the form BBBxTTTxOOO has, and the id that the parser returns is
    taken; with any other number of them it is a fatal startup error.  The
    list is converted element by element, in order, and the process ends as
    soon as one element ends it. *)
Theorem channel_ids_as_converted :
  (forall v, - 2 ^ 63 <= v < 2 ^ 63 ->
     Main.convertChanString parseScid (Strconv.FormatInt v) = Main.Return (v mod 2 ^ 64)) /\
  (forall v, 2 ^ 63 <= v ->
     Main.convertChanString parseScid (Strconv.FormatInt v) = Main.Exit 1) /\
  (forall cid v, Strconv.ParseInt cid = Ok v ->
     - 2 ^ 63 <= v < 2 ^ 63 /\ Spec.countX cid = 0 /\
     Main.convertChanString parseScid cid = Main.Return (v mod 2 ^ 64)) /\
  (forall cid, (forall v, Strconv.ParseInt cid <> Ok v) ->
     Main.convertChanString parseScid cid =
     if Spec.hasTwoX cid
     then match parseScid cid with
          | Some chanId => Main.Return (chanId mod 2 ^ 64)
          | None => Main.Exit 1
          end
     else Main.Exit 1) /\
  (forall block tx out nb nt no x1 x2,
     Strconv.digits block 0 = Some nb -> Strconv.digits tx 0 = Some nt ->
     Strconv.digits out 0 = Some no ->
     x1 = "x"%char \/ x1 = "X"%char -> x2 = "x"%char \/ x2 = "X"%char ->
     let cid := (block ++ String x1 (tx ++ String x2 out))%string in
     (forall v, Strconv.ParseInt cid <> Ok v) /\
     Spec.hasTwoX cid = true /\
     Main.convertChanString parseScid cid =
     match parseScid cid with
     | Some chanId => Main.Return (chanId mod 2 ^ 64)
     | None => Main.Exit 1
     end) /\
  (forall cids ids,
     Forall2 (fun cid id => Main.convertChanString parseScid cid = Main.Return id) cids ids ->
     Main.convertChanStringToInt parseScid cids = Main.Return ids) /\
  (forall cids,
     Exists (fun cid => Main.convertChanString parseScid cid = Main.Exit 1) cids ->
     Main.convertChanStringToInt parseScid cids = Main.Exit 1).
Proof.
  assert (Hform : forall block tx out nb nt no x1 x2,
            Strconv.digits block 0 = Some nb -> Strconv.digits tx 0 = Some nt ->
            Strconv.digits out 0 = Some no ->
            x1 = "x"%char \/ x1 = "X"%char -> x2 = "x"%char \/ x2 = "X"%char ->
            Spec.countX (block ++ String x1 (tx ++ String x2 out)) = 2).
  { intros block tx out nb nt no x1 x2 Hblock Htx Hout Hx1 Hx2.
    rewrite countX_app. cbn [Spec.countX]. rewrite countX_app. cbn [Spec.countX].
    rewrite (digits_countX _ _ Hblock), (digits_countX _ _ Htx), (digits_countX _ _ Hout).
    destruct Hx1 as [-> | ->], Hx2 as [-> | ->]; reflexivity. }
  repeat apply conj.
  - intros v Hv. unfold Main.convertChanString.
    rewrite ParseInt_FormatInt
      by (unfold Int64.in_range, Int64.min_int, Int64.max_int; lia).
    reflexivity.
  - exact convertChanString_beyond.
  - intros cid v Hparse. destruct (ParseInt_ok cid v Hparse) as [_ Hv].
    split; [ unfold Int64.in_range, Int64.min_int, Int64.max_int in Hv; lia | ].
    split; [ exact (ParseInt_countX cid v Hparse) | ].
    unfold Main.convertChanString. now rewrite Hparse.
  - exact convertChanString_undecimal.
  - intros block tx out nb nt no x1 x2 Hblock Htx Hout Hx1 Hx2 cid.
    pose proof (Hform block tx out nb nt no x1 x2 Hblock Htx Hout Hx1 Hx2) as Htwo.
    fold cid in Htwo.
    assert (Hnot : forall v, Strconv.ParseInt cid <> Ok v).
    { intros v Hparse. rewrite (ParseInt_countX cid v Hparse) in Htwo. discriminate. }
    assert (Hhas : Spec.hasTwoX cid = true) by (unfold Spec.hasTwoX; now rewrite Htwo).
    split; [ exact Hnot | ]. split; [ exact Hhas | ].
    rewrite (convertChanString_undecimal cid Hnot), Hhas. reflexivity.
  - intros cids ids Hall. apply (convertChanStringToInt_from_all parseScid cids ids []), Hall.
  - intros cids Hex. apply convertChanStringToInt_from_exit, Hex.
Qed.

End ChannelIdForms.

(** A short channel id with an [x] of either case goes to the parser, here
    one that knows this id; the numeral of 2^63 ends the process. *)
Lemma channel_ids_as_converted_witness :
  Main.convertChanString (fun _ => Some 770495967390531585) "700762x1327X1"
  = Main.Return 770495967390531585 /\
  Main.convertChanString (fun _ => None) "9223372036854775808" = Main.Exit 1.
Proof.
  destruct (channel_ids_as_converted (fun _ => Some 770495967390531585))
    as (_ & _ & _ & _ & Hform & _).
  destruct (channel_ids_as_converted (fun _ => None)) as (_ & Hbeyond & _).
  split.
  - exact (proj2 (proj2 (Hform "700762" "1327" "1" 700762 1327 1 "x"%char "X"%char
                           eq_refl eq_refl eq_refl (or_introl eq_refl)
                           (or_intror eq_refl)))).
  - exact (Hbeyond 9223372036854775808 ltac:(lia)).
Defined.

(** ** The preflight, in full *)

Section MorePreflight.

Import Main.

Lemma preflightChecks_run (params : configParams) :
  Version params = false ->
  exists params',
    preflightChecks params = Return (params', preflightError params) /\
    sameChoices params params' /\
    (preflightError params = None -> params' = preflightDefaults params).
Proof.
  intros Hversion. destruct params. simpl in Hversion. subst.
  unfold preflightChecks, preflightChecks_body, preflightError, relativeAmount,
    sameChoices, preflightDefaults.
  rewrite seq_when_exit. cbn [Main.Version].
  rewrite seq_when_assign, if_set_Connect.
  rewrite seq_when_assign, if_set_MacaroonFilename.
  rewrite seq_when_assign, if_set_Network.
  rewrite seq_when_assign, if_set_FromPerc.
  rewrite seq_when_assign, if_set_ToPerc.
  rewrite seq_when_assign, if_set_EconRatio.
  rewrite seq_when_ret. cbn.
  match goal with |- context [if ?c then Done _ else _] => destruct c end;
    [ eexists; split; [ reflexivity | split; [ repeat split | discriminate ] ] | ].
  rewrite seq_when_assign2, if_set_Perc.
  rewrite seq_when_ret. cbn.
  match goal with |- context [if ?c then Done _ else _] => destruct c end;
    [ eexists; split; [ reflexivity | split; [ repeat split | discriminate ] ] | ].
  rewrite seq_when_ret. cbn.
  match goal with |- context [if ?c then Done _ else _] => destruct c end;
    [ eexists; split; [ reflexivity | split; [ repeat split | discriminate ] ] | ].
  rewrite seq_when_ret. cbn.
  match goal with |- context [if ?c then Done _ else _] => destruct c end;
    [ eexists; split; [ reflexivity | split; [ repeat split | discriminate ] ] | ].
  rewrite seq_when_assign, if_set_FailTolerance.
  rewrite seq_when_ret. cbn.
  match goal with |- context [if ?c then Done _ else _] => destruct c end;
    [ eexists; split; [ reflexivity | split; [ repeat split | discriminate ] ] | ].
  rewrite seq_when_assign, if_set_NodeCacheLifetime.
  rewrite seq_when_when_ret. cbn.
  match goal with |- context [if ?c then Done _ else _] => destruct c end;
    [ eexists; split; [ reflexivity | split; [ repeat split | discriminate ] ] | ].
  rewrite seq_when_assign, if_set_TimeoutAttempt.
  rewrite seq_when_assign, if_set_TimeoutRebalance.
  rewrite seq_when_assign, if_set_TimeoutInfo.
  rewrite seq_when_assign, if_set_TimeoutRoute.
  cbn. eexists; split; [ reflexivity | split; [ repeat split | reflexivity ] ].
Qed.

Lemma preflightChecks_accepted (params params' : configParams) :
  preflightChecks params = Return (params', None) ->
  Version params = false /\ preflightError params = None /\
  params' = preflightDefaults params.
Proof.
  intros Hret. destruct (Version params) eqn:Hversion.
  { rewrite (preflightChecks_version params Hversion) in Hret. discriminate. }
  destruct (preflightChecks_run params Hversion) as (params'' & Hrun & _ & Hdefaults).
  rewrite Hrun in Hret. injection Hret as -> Herr.
  auto.
Qed.

Lemma preflightChecks_accepting (params : configParams) :
  Version params = false -> preflightError params = None ->
  preflightChecks params = Return (preflightDefaults params, None).
Proof.
  intros Hversion Herr.
  destruct (preflightChecks_run params Hversion) as (params' & Hrun & _ & Hdefaults).
  rewrite Hrun, Herr, (Hdefaults Herr). reflexivity.
Qed.

Ltac some_error :=
  unfold preflightError, Errorf; simpl;
  repeat match goal with
         | |- context [if ?c then _ else _] => destruct c
         end;
  eexists; reflexivity.

Lemma nonempty_length {A} (l : list A) : (0 <? Z.of_nat (length l)) = true <-> l <> [].
Proof.
  destruct l as [| a l]; simpl; split; intros H; try discriminate; try congruence.
  reflexivity.
Qed.

Lemma preflightError_consistent (params : configParams) :
  preflightError params = None <-> consistent params.
Proof.
  unfold consistent. split.
  - intros Hnone.
    assert (Hsome : forall msg, preflightError params <> Some (errorString msg))
      by (intros msg Hsome; congruence).
    refine (conj _ (conj _ (conj _ (conj _ (conj _ _))))).
    + destruct (Z.eq_dec (EconRatioMaxPPM params) 0) as [Hmax | Hmax]; [ now left | ].
      destruct (Z.eq_dec (FeeLimitPPM params) 0) as [Hlimit | Hlimit]; [ now right | ].
      exfalso. apply Z.eqb_neq in Hmax, Hlimit.
      unfold preflightError in Hnone. rewrite Hmax, Hlimit in Hnone. discriminate.
    + intros (Hmin & Hamount & Habove). apply Z.ltb_lt in Hmin, Hamount, Habove.
      assert (Herr : exists msg, preflightError params = Some (errorString msg)).
      { unfold preflightError. rewrite Hmin, Hamount, Habove. some_error. }
      destruct Herr as [msg Herr]. exact (Hsome msg Herr).
    + intros (Hamount & Hrel). apply Z.ltb_lt in Hamount.
      assert (Herr : exists msg, preflightError params = Some (errorString msg)).
      { unfold preflightError. rewrite Hamount, Hrel. some_error. }
      destruct Herr as [msg Herr]. exact (Hsome msg Herr).
    + intros (Hzero & Hfrom & Hto).
      assert (Herr : exists msg, preflightError params = Some (errorString msg)).
      { unfold preflightError. rewrite Hzero, Hfrom, Hto. some_error. }
      destruct Herr as [msg Herr]. exact (Hsome msg Herr).
    + intros (Hrel & Hrapid).
      assert (Herr : exists msg, preflightError params = Some (errorString msg)).
      { unfold preflightError. rewrite Hrel, Hrapid. some_error. }
      destruct Herr as [msg Herr]. exact (Hsome msg Herr).
    + intros (Hold & Hnew). apply nonempty_length in Hnew.
      assert (Holdb : (0 <? Z.of_nat (length (ExcludeChannels params)))
                      || (0 <? Z.of_nat (length (ExcludeNodes params))) = true).
      { apply orb_true_iff. destruct Hold as [Hold | Hold];
          apply nonempty_length in Hold; auto. }
      assert (Herr : exists msg, preflightError params = Some (errorString msg)).
      { unfold preflightError. rewrite Holdb, Hnew. some_error. }
      destruct Herr as [msg Herr]. exact (Hsome msg Herr).
  - intros (Hbounds & Hmin & Hboth & Hnoamount & Hrapid & Hexclude).
    unfold preflightError.
    destruct (negb (EconRatioMaxPPM params =? 0) && negb (FeeLimitPPM params =? 0))
      eqn:Hc1.
    { exfalso. apply andb_prop in Hc1 as [Hmax Hlimit].
      apply negb_true_iff in Hmax, Hlimit. apply Z.eqb_neq in Hmax, Hlimit.
      destruct Hbounds; contradiction. }
    destruct ((0 <? MinAmount params) && (0 <? Amount params)
              && (Amount params <? MinAmount params)) eqn:Hc2.
    { exfalso. apply andb_prop in Hc2 as [Hc2 Habove]. apply andb_prop in Hc2 as [Hm Ha].
      apply Z.ltb_lt in Hm, Ha, Habove. apply Hmin. auto. }
    destruct ((0 <? Amount params) && relativeAmount params) eqn:Hc3.
    { exfalso. apply andb_prop in Hc3 as [Ha Hrel]. apply Z.ltb_lt in Ha.
      apply Hboth. auto. }
    destruct ((Amount params =? 0) && PrimFloat.eqb (RelAmountFrom params) 0%float
              && PrimFloat.eqb (RelAmountTo params) 0%float) eqn:Hc4.
    { exfalso. apply andb_prop in Hc4 as [Hc4 Hto]. apply andb_prop in Hc4 as [Ha Hfrom].
      apply Z.eqb_eq in Ha. apply Hnoamount. auto. }
    destruct (relativeAmount params && AllowRapidRebalance params) eqn:Hc5.
    { exfalso. apply andb_prop in Hc5 as [Hrel Hr]. apply Hrapid. auto. }
    destruct (((0 <? Z.of_nat (length (ExcludeChannels params)))
               || (0 <? Z.of_nat (length (ExcludeNodes params))))
              && (0 <? Z.of_nat (length (Exclude params)))) eqn:Hc6.
    { exfalso. apply andb_prop in Hc6 as [Hold Hnew]. apply nonempty_length in Hnew.
      apply Hexclude. split; [ | exact Hnew ].
      apply orb_true_iff in Hold as [Hold | Hold]; apply nonempty_length in Hold; auto. }
    reflexivity.
Qed.

(** The preflight accepts the parameters exactly when the version flag is
    off and none of its six checks fires: the two fee bounds are not both
    set; it is not so that min_amount and amount are positive with
    min_amount above amount; a positive amount does not come with a relative
    amount; an amount, fixed or relative, is given; a relative amount does not
    come with rapid rebalance; and the old exclusion lists do not come with
    the new one.  There is no other reason for which it refuses. *)
Theorem preflightChecks_accepts_iff (params : configParams) :
  (exists params', preflightChecks params = Return (params', None)) <->
  Version params = false /\ consistent params.
Proof.
  split.
  - intros [params' Hret].
    destruct (preflightChecks_accepted params params' Hret) as (Hversion & Herr & _).
    split; [ exact Hversion | ]. apply preflightError_consistent. exact Herr.
  - intros [Hversion Hok]. exists (preflightDefaults params).
    apply preflightChecks_accepting; [ exact Hversion | ].
    apply preflightError_consistent. exact Hok.
Qed.

(** An amount below zero passes the preflight: with the version flag off,
    one fee bound at most, no rapid rebalance with a relative amount and no
    clash of the exclusion lists, a negative amount is accepted, whatever
    min_amount is. *)
Theorem preflightChecks_negative_amount (params : configParams) :
  Version params = false ->
  Amount params < 0 ->
  EconRatioMaxPPM params = 0 \/ FeeLimitPPM params = 0 ->
  relativeAmount params = false \/ AllowRapidRebalance params = false ->
  (ExcludeChannels params = [] /\ ExcludeNodes params = []) \/ Exclude params = [] ->
  exists params',
    preflightChecks params = Return (params', None) /\
    Amount params' = Amount params.
Proof.
  intros Hversion Hneg Hbounds Hrapid Hexclude.
  exists (preflightDefaults params). split; [ | reflexivity ].
  apply preflightChecks_accepting; [ exact Hversion | ].
  apply preflightError_consistent.
  refine (conj Hbounds (conj _ (conj _ (conj _ (conj _ _))))).
  - intros (_ & Hpos & _). lia.
  - intros (Hpos & _). lia.
  - intros (Hzero & _). lia.
  - intros (Hrel & Hr). destruct Hrapid; congruence.
  - intros (Hold & Hnew). destruct Hexclude as [[Hc Hn] | He]; [ | contradiction ].
    destruct Hold; contradiction.
Qed.

(** Whenever the preflight returns, with an error or without, the
    parameters it has no default for are as they were given: the amounts,
    the fee bounds, perc, the probe steps, the flags, the lists and the file
    names. *)
Theorem preflightChecks_keeps_choices (params params' : configParams)
    (err : option error) :
  preflightChecks params = Return (params', err) ->
  sameChoices params params'.
Proof.
  intros Hret. destruct (Version params) eqn:Hversion.
  { rewrite (preflightChecks_version params Hversion) in Hret. discriminate. }
  destruct (preflightChecks_run params Hversion) as (params'' & Hrun & Hsame & _).
  rewrite Hrun in Hret. injection Hret as -> _. exact Hsame.
Qed.

(** After an accepting preflight no parameter with a default is left
    unset: the address, the macaroon and the network are not empty; pfrom,
    pto, the fail tolerance, the cache lifetime and the four timeouts are not
    zero; and the ratio is zero only if a fee limit is set.  A positive perc
    is written over pfrom and pto. *)
Theorem preflightChecks_fills_defaults (params params' : configParams) :
  preflightChecks params = Return (params', None) ->
  Connect params' <> "" /\ MacaroonFilename params' <> "" /\ Network params' <> "" /\
  FromPerc params' <> 0 /\ ToPerc params' <> 0 /\
  FailTolerance params' <> 0 /\ NodeCacheLifetime params' <> 0 /\
  TimeoutAttempt params' <> 0 /\ TimeoutRebalance params' <> 0 /\
  TimeoutInfo params' <> 0 /\ TimeoutRoute params' <> 0 /\
  (PrimFloat.eqb (EconRatio params') 0%float = true -> FeeLimitPPM params' <> 0) /\
  (0 < Perc params -> FromPerc params' = Perc params /\ ToPerc params' = Perc params).
Proof.
  intros Hret.
  destruct (preflightChecks_accepted params params' Hret) as (_ & _ & ->).
  unfold preflightDefaults. cbn [Connect MacaroonFilename Network FromPerc ToPerc
    FailTolerance NodeCacheLifetime TimeoutAttempt TimeoutRebalance TimeoutInfo
    TimeoutRoute EconRatio FeeLimitPPM].
  repeat match goal with
         | |- _ /\ _ => split
         end.
  - destruct (String.eqb_spec (Connect params) ""); [ discriminate | assumption ].
  - destruct (String.eqb_spec (MacaroonFilename params) ""); [ discriminate | assumption ].
  - destruct (String.eqb_spec (Network params) ""); [ discriminate | assumption ].
  - destruct (Z.ltb_spec 0 (Perc params)); [ lia | ].
    destruct (Z.eqb_spec (FromPerc params) 0); lia.
  - destruct (Z.ltb_spec 0 (Perc params)); [ lia | ].
    destruct (Z.eqb_spec (ToPerc params) 0); lia.
  - destruct (Z.eqb_spec (FailTolerance params) 0); lia.
  - destruct (Z.eqb_spec (NodeCacheLifetime params) 0); lia.
  - destruct (Z.eqb_spec (TimeoutAttempt params) 0); lia.
  - destruct (Z.eqb_spec (TimeoutRebalance params) 0); lia.
  - destruct (Z.eqb_spec (TimeoutInfo params) 0); lia.
  - destruct (Z.eqb_spec (TimeoutRoute params) 0); lia.
  - destruct (PrimFloat.eqb (EconRatio params) 0%float) eqn:Hratio;
      destruct (Z.eqb_spec (FeeLimitPPM params) 0); simpl;
      try assumption; try discriminate; try (intros _; assumption).
    congruence.
  - intros Hperc. apply Z.ltb_lt in Hperc. rewrite Hperc. split; reflexivity.
Qed.

Lemma preflightError_defaults (params : configParams) :
  preflightError (preflightDefaults params) = preflightError params.
Proof. destruct params; reflexivity. Qed.

Lemma default_string (given default : string) :
  String.eqb default "" = false ->
  (if String.eqb (if String.eqb given "" then default else given) ""
   then default else if String.eqb given "" then default else given) =
  (if String.eqb given "" then default else given).
Proof.
  intros Hdefault. destruct (String.eqb given "") eqn:Hgiven.
  - now rewrite Hdefault.
  - now rewrite Hgiven.
Qed.

Lemma default_Z (given default : Z) :
  default <> 0 ->
  (if (if given =? 0 then default else given) =? 0
   then default else if given =? 0 then default else given) =
  (if given =? 0 then default else given).
Proof.
  intros Hdefault. destruct (Z.eqb_spec given 0) as [Hgiven | Hgiven].
  - destruct (Z.eqb_spec default 0); [ contradiction | reflexivity ].
  - destruct (Z.eqb_spec given 0); [ contradiction | reflexivity ].
Qed.

Lemma default_perc (perc given : Z) :
  (if 0 <? perc then perc
   else if (if 0 <? perc then perc else if given =? 0 then 50 else given) =? 0
        then 50 else (if 0 <? perc then perc else if given =? 0 then 50 else given)) =
  (if 0 <? perc then perc else if given =? 0 then 50 else given).
Proof.
  destruct (0 <? perc); [ reflexivity | ]. apply default_Z. lia.
Qed.

Lemma default_ratio (ratio : float) (limit : Z) :
  (if PrimFloat.eqb (if PrimFloat.eqb ratio 0%float && (limit =? 0) then 1%float else ratio)
                    0%float && (limit =? 0)
   then 1%float
   else if PrimFloat.eqb ratio 0%float && (limit =? 0) then 1%float else ratio) =
  (if PrimFloat.eqb ratio 0%float && (limit =? 0) then 1%float else ratio).
Proof.
  destruct (PrimFloat.eqb ratio 0%float && (limit =? 0)) eqn:Hunset.
  - reflexivity.
  - now rewrite Hunset.
Qed.

Lemma preflightDefaults_twice (params : configParams) :
  preflightDefaults (preflightDefaults params) = preflightDefaults params.
Proof.
  destruct params. unfold preflightDefaults. cbn.
  rewrite !default_string by reflexivity.
  rewrite !default_Z by lia.
  rewrite !default_perc, default_ratio.
  reflexivity.
Qed.

(** The preflight is idempotent: parameters that it accepted, as it left
    them, are accepted again and left as they are. *)
Theorem preflightChecks_idempotent (params params' : configParams) :
  preflightChecks params = Return (params', None) ->
  preflightChecks params' = Return (params', None).
Proof.
  intros Hret.
  destruct (preflightChecks_accepted params params' Hret) as (Hversion & Herr & ->).
  rewrite <- (preflightDefaults_twice params) at 2.
  apply preflightChecks_accepting.
  - exact Hversion.
  - rewrite preflightError_defaults. exact Herr.
Qed.

End MorePreflight.

(** An amount of -5, nothing else given. *)
Lemma preflightChecks_negative_amount_witness :
  exists params',
    Main.preflightChecks (Cases.flags (-5) 0) = Main.Return (params', None) /\
    Main.Amount params' = -5.
Proof.
  apply (preflightChecks_negative_amount (Cases.flags (-5) 0)).
  - reflexivity.
  - simpl. lia.
  - left. reflexivity.
  - left. reflexivity.
  - right. reflexivity.
Defined.

(** The rejected parameters of a minimum above the amount keep both. *)
Lemma preflightChecks_keeps_choices_witness :
  sameChoices (config 100000 200000 0 0 0%float false false)
    (Main.set_Network "mainnet"
       (Main.set_MacaroonFilename "admin.macaroon"
          (Main.set_Connect "127.0.0.1:10009"
             (config 100000 200000 0 0 0%float false false)))).
Proof.
  apply (preflightChecks_keeps_choices _ _
           (Main.Errorf "minimum amount should be less than amount")).
  vm_compute. reflexivity.
Defined.

(** An amount and a perc of 30, nothing else given. *)
Lemma preflightChecks_fills_defaults_witness :
  Main.FromPerc (preflightDefaults (Cases.flags 100000 30)) = 30 /\
  Main.TimeoutRoute (preflightDefaults (Cases.flags 100000 30)) <> 0.
Proof.
  assert (Hret : Main.preflightChecks (Cases.flags 100000 30)
                 = Main.Return (preflightDefaults (Cases.flags 100000 30), None))
    by (vm_compute; reflexivity).
  pose proof (preflightChecks_fills_defaults _ _ Hret) as Hfilled.
  split.
  - apply Hfilled. simpl. lia.
  - apply Hfilled.
Defined.

Lemma preflightChecks_idempotent_witness :
  Main.preflightChecks (preflightDefaults (Cases.flags 100000 30))
  = Main.Return (preflightDefaults (Cases.flags 100000 30), None).
Proof.
  apply (preflightChecks_idempotent (Cases.flags 100000 30)).
  vm_compute. reflexivity.
Defined.

(** ** The rapid rebalance, call by call *)

Lemma countPays_app (evs1 evs2 : list Event) :
  countPays (evs1 ++ evs2) = (countPays evs1 + countPays evs2)%nat.
Proof. unfold countPays. now rewrite filter_app, length_app. Qed.

Lemma countPays_cons (e : Event) (evs : list Event) :
  countPays (e :: evs) = ((if isPay e then 1 else 0) + countPays evs)%nat.
Proof. unfold countPays. destruct e; reflexivity. Qed.

Lemma set_chanCache_same (r : regolancer) : set_chanCache r (chanCache r) = r.
Proof. destruct r; reflexivity. Qed.

Lemma chanCache_only (r0 r1 r2 : regolancer) :
  r1 = set_chanCache r0 (chanCache r1) ->
  r2 = set_chanCache r1 (chanCache r2) ->
  r2 = set_chanCache r0 (chanCache r2).
Proof. intros H1 H2. rewrite H2, H1. reflexivity. Qed.

Section RapidCalls.

Import Main.

Context {W : Type} {client : LightningClient W} {helpers : Helpers W}.

Variable params : configParams.

Lemma getChanInfo_step (s : State W) (ctx ctx' : Context.t) (chanId : Z) :
  exists evs,
    trace (snd (Routes.getChanInfo s ctx chanId)) = trace s ++ evs /\
    Forall (rapidEvent params ctx') evs /\
    countPays evs = 0%nat /\
    reg (snd (Routes.getChanInfo s ctx chanId))
    = set_chanCache (reg s) (chanCache (reg (snd (Routes.getChanInfo s ctx chanId)))).
Proof.
  unfold Routes.getChanInfo, rpc.
  destruct (chanCache (reg s) !! chanId) as [c | ].
  - exists []. simpl. rewrite app_nil_r, set_chanCache_same. repeat split. constructor.
  - destruct (GetChanInfo (world s) ctx chanId) as [[c | err] w]; simpl;
      eexists; (split; [ reflexivity | ]);
      (split; [ repeat constructor | ]); (split; [ reflexivity | ]).
    + reflexivity.
    + now rewrite set_chanCache_same.
Qed.

Ltac unroll :=
  cbn -[resetWorkingState app tryRapidRebalance_loop Context.deadlineExceeded
        Context.WithTimeout Int64.mul Routes.getChanInfo countPays set_chanCache].

Ltac unroll_in H :=
  cbn -[resetWorkingState app tryRapidRebalance_loop Context.deadlineExceeded
        Context.WithTimeout Int64.mul Routes.getChanInfo countPays set_chanCache] in H.

Ltac events :=
  repeat first
    [ assumption
    | apply Forall_nil
    | apply Forall_app; split
    | apply Forall_cons; split
    | exact I
    | reflexivity
    | split
    | eexists; reflexivity ].

Ltac counts :=
  rewrite ?countPays_app, ?countPays_cons; cbn [isPay];
  change (countPays []) with 0%nat;
  repeat match goal with
         | H : countPays _ = 0%nat |- _ => rewrite H; clear H
         end;
  repeat split; try discriminate; try lia.

Ltac candidates :=
  do 4 eexists;
  repeat first [ left; reflexivity | apply in_or_app; right | right ].

(** What a stretch of the rapid loop does, from the count [rapidAttempt]
    on: the calls it adds, the payments among them against the count it
    returns, and the working state when no candidates were derived. *)
Lemma rapid_loop_summary (fuel : nat) (ctx : Context.t) (s : State W)
    (from to : Z) (route : Route) (amt rapidAttempt : Z) :
  exists evs,
    trace (snd (tryRapidRebalance_loop params fuel ctx s from to route amt rapidAttempt))
    = trace s ++ evs /\
    Forall (rapidEvent params ctx) evs /\
    match fst (tryRapidRebalance_loop params fuel ctx s from to route amt rapidAttempt) with
    | Some (n, err) =>
        rapidAttempt <= n /\
        n - rapidAttempt <= Z.of_nat (countPays evs) <= n - rapidAttempt + 1 /\
        (err = None -> Z.of_nat (countPays evs) = n - rapidAttempt + 1)
    | None => Z.of_nat (countPays evs) = Z.of_nat fuel
    end /\
    ((exists r fromPerc toPerc amount,
        In (EvGetChannelCandidates r fromPerc toPerc amount) evs) \/
     reg (snd (tryRapidRebalance_loop params fuel ctx s from to route amt rapidAttempt))
     = set_chanCache (reg s)
         (chanCache
            (reg (snd (tryRapidRebalance_loop params fuel ctx s from to route amt
                         rapidAttempt))))).
Proof.
  revert s from to route amt rapidAttempt.
  induction fuel as [ | fuel IH]; intros s from to route amt rapidAttempt.
  { exists []. simpl. rewrite app_nil_r, set_chanCache_same.
    repeat split; [ constructor | now right ]. }
  cbn [tryRapidRebalance_loop].
  destruct (getChanInfo_step s ctx ctx to) as (evs1 & Htrace1 & Hev1 & Hpay1 & Hreg1).
  destruct (Routes.getChanInfo s ctx to) as [rTo s1]. simpl in Htrace1, Hreg1.
  destruct rTo as [cTo | err].
  2: { simpl. exists evs1. split; [ exact Htrace1 | ].
       split; [ exact Hev1 | ]. split; [ counts | right; exact Hreg1 ]. }
  destruct (getChanInfo_step s1 ctx ctx from) as (evs2 & Htrace2 & Hev2 & Hpay2 & Hreg2).
  destruct (Routes.getChanInfo s1 ctx from) as [rFrom s2]. simpl in Htrace2, Hreg2.
  rewrite Htrace1 in Htrace2.
  pose proof (chanCache_only _ _ _ Hreg1 Hreg2) as Hreg.
  destruct rFrom as [cFrom | err].
  2: { simpl. eexists. split; [ rewrite Htrace2, <- app_assoc; reflexivity | ].
       split; [ events | ]. split; [ counts | right; exact Hreg ]. }
  unfold rpc.
  destruct (ListChannels (world s2) ctx _) as [rFromChan w3]. unroll.
  destruct rFromChan as [fromChan | err].
  2: { unroll. eexists. split; [ rewrite Htrace2, <- ?app_assoc; reflexivity | ].
       split; [ events | ]. split; [ counts | right; exact Hreg ]. }
  destruct (ListChannels w3 ctx _) as [rToChan w4]. unroll.
  destruct rToChan as [toChan | err].
  2: { unroll. eexists. split; [ rewrite Htrace2, <- ?app_assoc; reflexivity | ].
       split; [ events | ]. split; [ counts | right; exact Hreg ]. }
  unfold helper. unroll.
  destruct (getChannelCandidates _ w4 _ _ _) as [[eCand r5] w5]. unroll.
  destruct eCand as [err | ].
  { unroll. eexists. split; [ rewrite Htrace2, <- ?app_assoc; reflexivity | ].
    split; [ events | ]. split; [ counts | left; candidates ]. }
  destruct (pickChannelPair r5 w5 _ _ _ _) as [[rPick r6] w6]. unroll.
  destruct rPick as [[[from' to'] amt'] | err].
  2: { unroll. eexists. split; [ rewrite Htrace2, <- ?app_assoc; reflexivity | ].
       split; [ events | ]. split; [ counts | left; candidates ]. }
  destruct (rebuildRoute r6 w6 _ _ _) as [[rRoute r7] w7]. unroll.
  destruct rRoute as [route' | err].
  2: { unroll. eexists. split; [ rewrite Htrace2, <- ?app_assoc; reflexivity | ].
       split; [ events | ]. split; [ counts | left; candidates ]. }
  destruct (pay r7 w7 _ _ _ _ _) as [[ePay r8] w8]. unroll.
  destruct (Context.deadlineExceeded _ (time_Now w8)).
  { unroll. eexists. split; [ rewrite Htrace2, <- ?app_assoc; reflexivity | ].
    split; [ events | ]. split; [ counts | left; candidates ]. }
  destruct ePay as [err | ].
  { unroll. eexists. split; [ rewrite Htrace2, <- ?app_assoc; reflexivity | ].
    split; [ events | ]. split; [ counts | left; candidates ]. }
  match goal with
  | |- context [tryRapidRebalance_loop params fuel ctx ?s' ?f ?t ?r ?a ?n] =>
      destruct (IH s' f t r a n) as (evs' & Htrace' & Hev' & Hcount' & _);
      destruct (tryRapidRebalance_loop params fuel ctx s' f t r a n) as [res' s'']
  end.
  unroll. unroll_in Htrace'. unroll_in Hcount'.
  eexists. split; [ rewrite Htrace', Htrace2, <- ?app_assoc; reflexivity | ].
  split; [ events | ].
  split; [ | left; candidates ].
  destruct res' as [[n err] | ].
  - destruct Hcount' as (Hle & Hbounds & Hfailed). counts.
    intros ->. specialize (Hfailed eq_refl). lia.
  - counts.
Qed.

End RapidCalls.

Lemma app_nonempty_r {A} (l1 l2 : list A) : l2 <> [] -> l1 ++ l2 <> [].
Proof. intros Hne Heq. apply app_eq_nil in Heq. now destruct Heq. Qed.

Lemma endsWithPay_app (evs1 evs2 : list Event) :
  evs2 <> [] -> endsWithPay (evs1 ++ evs2) = endsWithPay evs2.
Proof.
  intros Hne. unfold endsWithPay. f_equal.
  induction evs1 as [ | e evs1 IH]; [ reflexivity | ].
  cbn [app]. destruct (evs1 ++ evs2) eqn:Happ; [ | exact IH ].
  now apply app_nonempty_r in Happ.
Qed.

Lemma noPays_endsWithPay (evs : list Event) :
  countPays evs = 0%nat -> endsWithPay evs = false.
Proof.
  unfold endsWithPay.
  induction evs as [ | e evs IH]; [ reflexivity | ].
  rewrite countPays_cons. intros Hzero.
  destruct (isPay e) eqn:He; [ discriminate | ].
  destruct evs as [ | e' evs]; [ exact He | ].
  apply IH. exact Hzero.
Qed.

Section RapidCount.

Import Main.

Context {W : Type} {client : LightningClient W} {helpers : Helpers W}.

Variable params : configParams.

Lemma getChanInfo_pays_nothing (s : State W) (ctx : Context.t) (chanId : Z) :
  exists evs,
    trace (snd (Routes.getChanInfo s ctx chanId)) = trace s ++ evs /\
    countPays evs = 0%nat /\
    (forall err, fst (Routes.getChanInfo s ctx chanId) = Err err -> evs <> []).
Proof.
  unfold Routes.getChanInfo, rpc.
  destruct (chanCache (reg s) !! chanId) as [c | ].
  - exists []. simpl. rewrite app_nil_r. repeat split. discriminate.
  - destruct (GetChanInfo (world s) ctx chanId) as [[c | err] w]; simpl;
      eexists; (split; [ reflexivity | ]); (split; [ reflexivity | ]); discriminate.
Qed.

Ltac unroll :=
  cbn -[resetWorkingState app tryRapidRebalance_loop Context.deadlineExceeded
        Context.WithTimeout Int64.mul Routes.getChanInfo countPays endsWithPay].

Ltac unroll_in H :=
  cbn -[resetWorkingState app tryRapidRebalance_loop Context.deadlineExceeded
        Context.WithTimeout Int64.mul Routes.getChanInfo countPays endsWithPay] in H.

Ltac nonempty :=
  first
    [ assumption
    | match goal with
      | H : forall err, _ = Err err -> ?l <> [] |- ?l <> [] => exact (H _ eq_refl)
      end
    | let Heq := fresh in intros Heq; cbn [app] in Heq; discriminate Heq
    | apply app_nonempty_r; nonempty ].

Ltac pays :=
  rewrite ?countPays_app, ?countPays_cons; cbn [isPay];
  change (countPays []) with 0%nat;
  repeat match goal with
         | H : countPays _ = 0%nat |- _ => rewrite H
         end;
  reflexivity.

Ltac settle :=
  match goal with
  | |- ?E <> [] /\ _ =>
      split; [ nonempty | ];
      first
        [ let Hzero := fresh "Hzero" in
          assert (Hzero : countPays E = 0%nat) by pays;
          rewrite (noPays_endsWithPay E Hzero), Hzero;
          split; [ lia | ]; split; [ lia | discriminate ]
        | let Hone := fresh "Hone" in
          let Hend := fresh "Hend" in
          assert (Hone : countPays E = 1%nat) by pays;
          assert (Hend : endsWithPay E = true)
            by (rewrite ?endsWithPay_app by nonempty; reflexivity);
          rewrite Hone, Hend;
          split; [ lia | ]; split; [ lia | intros _; reflexivity ] ]
  end.

(** The count of the rapid loop, from [rapidAttempt] on, against the
    trace: it steps once for every call of [pay] after which the loop went
    on, and the loop goes on with a listing of channels. *)
Lemma rapid_loop_count (fuel : nat) (ctx : Context.t) (s : State W)
    (from to : Z) (route : Route) (amt rapidAttempt : Z) :
  exists evs,
    trace (snd (tryRapidRebalance_loop params fuel ctx s from to route amt rapidAttempt))
    = trace s ++ evs /\
    match fst (tryRapidRebalance_loop params fuel ctx s from to route amt rapidAttempt) with
    | Some (n, err) =>
        evs <> [] /\
        rapidAttempt <= n /\
        n - rapidAttempt
        = Z.of_nat (countPays evs) - (if endsWithPay evs then 1 else 0) /\
        (err = None -> endsWithPay evs = true)
    | None => True
    end.
Proof.
  revert s from to route amt rapidAttempt.
  induction fuel as [ | fuel IH]; intros s from to route amt rapidAttempt.
  { exists []. simpl. now rewrite app_nil_r. }
  cbn [tryRapidRebalance_loop].
  destruct (getChanInfo_pays_nothing s ctx to) as (evs1 & Htrace1 & Hpay1 & Hne1).
  destruct (Routes.getChanInfo s ctx to) as [rTo s1]. cbn [fst snd] in Htrace1, Hne1.
  destruct rTo as [cTo | err].
  2: { simpl. exists evs1. split; [ exact Htrace1 | ]. settle. }
  clear Hne1.
  destruct (getChanInfo_pays_nothing s1 ctx from) as (evs2 & Htrace2 & Hpay2 & Hne2).
  destruct (Routes.getChanInfo s1 ctx from) as [rFrom s2]. cbn [fst snd] in Htrace2, Hne2.
  rewrite Htrace1 in Htrace2.
  destruct rFrom as [cFrom | err].
  2: { simpl. eexists. split; [ rewrite Htrace2, <- app_assoc; reflexivity | ]. settle. }
  clear Hne2.
  unfold rpc.
  destruct (ListChannels (world s2) ctx _) as [rFromChan w3]. unroll.
  destruct rFromChan as [fromChan | err].
  2: { unroll. eexists. split; [ rewrite Htrace2, <- ?app_assoc; reflexivity | ]. settle. }
  destruct (ListChannels w3 ctx _) as [rToChan w4]. unroll.
  destruct rToChan as [toChan | err].
  2: { unroll. eexists. split; [ rewrite Htrace2, <- ?app_assoc; reflexivity | ]. settle. }
  unfold helper. unroll.
  destruct (getChannelCandidates _ w4 _ _ _) as [[eCand r5] w5]. unroll.
  destruct eCand as [err | ].
  { unroll. eexists. split; [ rewrite Htrace2, <- ?app_assoc; reflexivity | ]. settle. }
  destruct (pickChannelPair r5 w5 _ _ _ _) as [[rPick r6] w6]. unroll.
  destruct rPick as [[[from' to'] amt'] | err].
  2: { unroll. eexists. split; [ rewrite Htrace2, <- ?app_assoc; reflexivity | ]. settle. }
  destruct (rebuildRoute r6 w6 _ _ _) as [[rRoute r7] w7]. unroll.
  destruct rRoute as [route' | err].
  2: { unroll. eexists. split; [ rewrite Htrace2, <- ?app_assoc; reflexivity | ]. settle. }
  destruct (pay r7 w7 _ _ _ _ _) as [[ePay r8] w8]. unroll.
  destruct (Context.deadlineExceeded _ (time_Now w8)).
  { unroll. eexists. split; [ rewrite Htrace2, <- ?app_assoc; reflexivity | ]. settle. }
  destruct ePay as [err | ].
  { unroll. eexists. split; [ rewrite Htrace2, <- ?app_assoc; reflexivity | ]. settle. }
  match goal with
  | |- context [tryRapidRebalance_loop params fuel ctx ?s' ?f ?t ?r ?a ?n] =>
      destruct (IH s' f t r a n) as (evs' & Htrace' & Hres');
      destruct (tryRapidRebalance_loop params fuel ctx s' f t r a n) as [res' s'']
  end.
  unroll. unroll_in Htrace'. unroll_in Hres'.
  eexists. split; [ rewrite Htrace', Htrace2, <- ?app_assoc; reflexivity | ].
  destruct res' as [[n err] | ]; [ | exact I ].
  destruct Hres' as (Hne' & Hle & Hcount & Hfailed).
  match goal with
  | |- ?E <> [] /\ _ =>
      split; [ nonempty | ];
      assert (Hend : endsWithPay E = endsWithPay evs')
        by (rewrite ?endsWithPay_app by nonempty; reflexivity);
      assert (Hpaid : countPays E = S (countPays evs')) by pays;
      rewrite Hend, Hpaid
  end.
  split; [ lia | ]. split; [ lia | exact Hfailed ].
Qed.

End RapidCount.

Section RapidFacts.

Import Main.

Context {W : Type} {client : LightningClient W} {helpers : Helpers W}.

Variable params : configParams.

(** A rapid rebalance makes no other calls than these: it looks up
    channels and lists the active public channels of the two peers, derives
    the candidates with the parameters' percentages, picks a pair with the
    parameters' minimum, rebuilds its route under the context it was given,
    and pays with min_amount as configured, without probing (probe steps 0),
    under an attempt timeout of that context.  It never asks for routes,
    records no failed pair and invalidates no invoice. *)
Theorem rapid_makes_only_its_calls (fuel : nat) (ctx : Context.t) (s : State W)
    (from to : Z) (route : Route) (amt : Z) :
  exists evs,
    trace (snd (tryRapidRebalance params fuel ctx s from to route amt)) = trace s ++ evs /\
    Forall (rapidEvent params ctx) evs.
Proof.
  destruct (rapid_loop_summary params fuel ctx s from to route amt 0)
    as (evs & Htrace & Hevents & _).
  exists evs. split; [ exact Htrace | exact Hevents ].
Qed.

(** When a rapid rebalance returns, the count it returns is the number of
    its calls of [pay] after which the loop went on to another turn: all its
    calls of [pay], less the last one when the run ended on it (the payment
    failed, or the attempt deadline had passed when it returned, whatever
    its answer).  A rebalance that returns without an error ended on a call
    of [pay]. *)
Theorem rapid_count_is_pays_gone_on (fuel : nat) (ctx : Context.t) (s s' : State W)
    (from to : Z) (route : Route) (amt n : Z) (err : option error) :
  tryRapidRebalance params fuel ctx s from to route amt = (Some (n, err), s') ->
  exists evs,
    trace s' = trace s ++ evs /\
    evs <> [] /\
    0 <= n /\
    n = Z.of_nat (countPays evs) - (if endsWithPay evs then 1 else 0) /\
    (err = None -> endsWithPay evs = true).
Proof.
  unfold tryRapidRebalance. intros Hrun.
  destruct (rapid_loop_count params fuel ctx s from to route amt 0)
    as (evs & Htrace & Hres).
  rewrite Hrun in Htrace, Hres. cbn [fst snd] in Htrace, Hres.
  destruct Hres as (Hne & Hle & Hcount & Hfailed).
  exists evs. split; [ exact Htrace | ]. split; [ exact Hne | ].
  split; [ exact Hle | ]. split; [ lia | exact Hfailed ].
Qed.

(** A rapid rebalance that ends before it derives the candidates, on a
    failed channel look-up or listing, leaves the working state as it was:
    the channel lists, the source and target sets, the failure cache and the
    pairs.  Nothing but the channel cache can differ. *)
Theorem rapid_failure_keeps_working_state (fuel : nat) (ctx : Context.t) (s : State W)
    (from to : Z) (route : Route) (amt : Z) (evs : list Event) :
  let run := tryRapidRebalance params fuel ctx s from to route amt in
  trace (snd run) = trace s ++ evs ->
  Forall quiet evs ->
  reg (snd run) = set_chanCache (reg s) (chanCache (reg (snd run))).
Proof.
  cbv zeta. unfold tryRapidRebalance. intros Htrace Hquiet.
  destruct (rapid_loop_summary params fuel ctx s from to route amt 0)
    as (evs' & Htrace' & _ & _ & [Hcandidates | Hreg]); [ | exact Hreg ].
  rewrite Htrace' in Htrace. apply app_inv_head in Htrace. subst evs'.
  destruct Hcandidates as (r & fromPerc & toPerc & amount & Hin).
  rewrite List.Forall_forall in Hquiet. destruct (Hquiet _ Hin).
Qed.

End RapidFacts.

(** Two rapid payments succeed and the third fails: three calls of [pay],
    the last of them at the end of the trace, and a count of 2. *)
Lemma rapid_count_is_pays_gone_on_witness :
  exists evs,
    trace (snd (Main.tryRapidRebalance Sample.params 5 sessionCtx (start rapidTwice)
                  1 2 route0 100000)) = [] ++ evs /\
    countPays evs = 3%nat /\ endsWithPay evs = true /\
    2 = Z.of_nat (countPays evs) - (if endsWithPay evs then 1 else 0).
Proof.
  assert (Hrun : Main.tryRapidRebalance Sample.params 5 sessionCtx (start rapidTwice)
                   1 2 route0 100000
                 = (Some (2, None),
                    snd (Main.tryRapidRebalance Sample.params 5 sessionCtx
                           (start rapidTwice) 1 2 route0 100000)))
    by (vm_compute; reflexivity).
  destruct (rapid_count_is_pays_gone_on
              (client := Sample.client) (helpers := Sample.helpers)
              Sample.params 5 sessionCtx (start rapidTwice) _ 1 2 route0 100000 2 None Hrun)
    as (evs & Htrace & _ & _ & Hcount & Hended).
  exists evs. split; [ exact Htrace | ].
  specialize (Hended eq_refl). rewrite Hended in Hcount.
  refine (conj _ (conj Hended _)); [ lia | ].
  rewrite Hended. exact Hcount.
Defined.

(** The node is down: the first look-up fails and the rebalancer is as it
    was. *)
Lemma rapid_failure_keeps_working_state_witness :
  reg (snd (Main.tryRapidRebalance Sample.params 5 sessionCtx (start down)
              1 2 route0 100000)) = bare.
Proof.
  assert (Htrace : trace (snd (Main.tryRapidRebalance Sample.params 5 sessionCtx
                                 (start down) 1 2 route0 100000))
                   = trace (start down) ++ [EvRpc (RpcGetChanInfo 2 unavailable)])
    by (vm_compute; reflexivity).
  pose proof (rapid_failure_keeps_working_state
                (client := Sample.client) (helpers := Sample.helpers)
                Sample.params 5 sessionCtx (start down) 1 2 route0 100000 _
                Htrace ltac:(repeat constructor)) as Hreg.
  rewrite Hreg. vm_compute. reflexivity.
Defined.

(** ** The attempt, call by call *)

Lemma count_nil (kind : Event -> bool) : count kind [] = 0%nat.
Proof. reflexivity. Qed.

Lemma count_app (kind : Event -> bool) (evs1 evs2 : list Event) :
  count kind (evs1 ++ evs2) = (count kind evs1 + count kind evs2)%nat.
Proof. unfold count. now rewrite filter_app, length_app. Qed.

Lemma count_cons (kind : Event -> bool) (e : Event) (evs : list Event) :
  count kind (e :: evs) = ((if kind e then 1 else 0) + count kind evs)%nat.
Proof. unfold count. rewrite filter_cons. destruct (kind e); reflexivity. Qed.

Lemma rapid_counts (params : Main.configParams) (ctx : Context.t) (evs : list Event) :
  Forall (rapidEvent params ctx) evs ->
  count isGetRoutes evs = 0%nat /\ count isAddFailedRoute evs = 0%nat /\
  count isPrintRoute evs = 0%nat.
Proof.
  induction 1 as [ | e evs He _ (IHroutes & IHfailed & IHprinted)];
    [ now rewrite !count_nil | ].
  rewrite !count_cons, IHroutes, IHfailed, IHprinted.
  destruct e as [[ | | | ] | | | | | | | | | ]; simpl in He; try contradiction;
    repeat split; reflexivity.
Qed.

Section AttemptCalls.

Import Main.

Context {W : Type} {client : LightningClient W} {helpers : Helpers W}.

Variable params : configParams.

Ltac step :=
  cbn -[app tryRebalance_routes tryRapidRebalance_loop Context.deadlineExceeded
        Context.WithTimeout Int64.mul count countPays length].

Ltac step_in H :=
  cbn -[app tryRebalance_routes tryRapidRebalance_loop Context.deadlineExceeded
        Context.WithTimeout Int64.mul count countPays length] in H.

Ltac tally :=
  change countPays with (count isPay) in *;
  rewrite ?count_app, ?count_cons, ?count_nil;
  cbn [isPay isGetRoutes isAddFailedRoute isPrintRoute length];
  repeat match goal with
         | H : _ /\ _ |- _ => destruct H
         end;
  repeat split; try reflexivity; try assumption; try discriminate; try lia.

Ltac extend Htrace :=
  eexists; split; [ rewrite ?Htrace, <- ?app_assoc; reflexivity | ].

Ltac rapid fuel ctx :=
  unfold tryRapidRebalance;
  match goal with
  | |- context [tryRapidRebalance_loop params fuel ctx ?s' ?f ?t ?r ?a 0] =>
      let evs := fresh "evs" in
      let Htrace := fresh "Htrace" in
      let Hev := fresh "Hev" in
      destruct (rapid_loop_summary params fuel ctx s' f t r a 0)
        as (evs & Htrace & Hev & _ & _);
      destruct (rapid_counts _ _ _ Hev) as (? & ? & ?);
      destruct (tryRapidRebalance_loop params fuel ctx s' f t r a 0) as [[] ?];
      step; step_in Htrace; extend Htrace; tally
  end.

(** What the loop over the routes does: it asks for no routes and records
    no failed pair, it returns no error, and it prints one route for every
    step of the attempt counter, and one more when a payment succeeded. *)
Lemma routes_loop_summary (fuel : nat) (ctx attemptCtx : Context.t) (from to : Z)
    (routes : list Route) (amt attempt : Z) (s : State W) :
  exists evs,
    trace (snd (tryRebalance_routes params fuel ctx attemptCtx from to routes amt attempt s))
    = trace s ++ evs /\
    count isGetRoutes evs = 0%nat /\
    count isAddFailedRoute evs = 0%nat /\
    match fst (tryRebalance_routes params fuel ctx attemptCtx from to routes amt attempt s)
    with
    | Some ((err, retry), n) =>
        err = None /\
        Z.of_nat (count isPrintRoute evs) = n - attempt + (if retry then 0 else 1) /\
        (if retry then n = attempt + Z.of_nat (length routes)
         else (1 <= countPays evs)%nat)
    | None => (1 <= countPays evs)%nat
    end.
Proof.
  revert amt attempt s.
  induction routes as [ | route rest IH]; intros amt attempt s.
  { exists []. simpl. rewrite app_nil_r. tally. }
  cbn [tryRebalance_routes]. unfold helper.
  destruct (printRoute (reg s) (world s) attemptCtx route) as [[[] r0] w0]. step.
  destruct (pay r0 w0 attemptCtx amt _ route _) as [[ePay r1] w1]. step.
  assert (Hnext : forall amt' s1 evs1,
            trace s1 = trace s ++ evs1 ->
            count isGetRoutes evs1 = 0%nat -> count isAddFailedRoute evs1 = 0%nat ->
            count isPrintRoute evs1 = 1%nat ->
            exists evs,
              trace (snd (tryRebalance_routes params fuel ctx attemptCtx from to rest
                            amt' (attempt + 1) s1)) = trace s ++ evs /\
              count isGetRoutes evs = 0%nat /\
              count isAddFailedRoute evs = 0%nat /\
              match fst (tryRebalance_routes params fuel ctx attemptCtx from to rest
                           amt' (attempt + 1) s1) with
              | Some ((err, retry), n) =>
                  err = None /\
                  Z.of_nat (count isPrintRoute evs)
                  = n - attempt + (if retry then 0 else 1) /\
                  (if retry then n = attempt + Z.of_nat (length (route :: rest))
                   else (1 <= countPays evs)%nat)
              | None => (1 <= countPays evs)%nat
              end).
  { intros amt' s1 evs1 Htrace1 Hroutes1 Hfailed1 Hprinted1.
    destruct (IH amt' (attempt + 1) s1) as (evs' & Htrace' & Hroutes' & Hfailed' & Hres').
    destruct (tryRebalance_routes params fuel ctx attemptCtx from to rest amt'
                (attempt + 1) s1) as [res' s'].
    simpl in Htrace', Hres'. simpl fst. simpl snd.
    exists (evs1 ++ evs'). split; [ rewrite Htrace', Htrace1, app_assoc; reflexivity | ].
    destruct res' as [[[err' retry'] n'] | ]; [ destruct retry' | ]; tally. }
  destruct ePay as [[msg | amount | | ] | ].
  - eapply Hnext;
      [ cbn [trace]; rewrite <- ?app_assoc; reflexivity | reflexivity .. ].
  - destruct (rebuildRoute r1 w1 attemptCtx route amount) as [[rProbed r2] w2]. step.
    destruct rProbed as [probedRoute | err].
    + destruct (pay r2 w2 ctx amount 0 probedRoute 0) as [[ePaid r3] w3]. step.
      destruct ePaid as [err | ].
      * destruct (invalidateInvoice r3 w3 amount) as [[[] r4] w4]. step.
        eapply Hnext;
          [ cbn [trace]; rewrite <- ?app_assoc; reflexivity | reflexivity .. ].
      * destruct (AllowRapidRebalance params && (0 <? MinAmount params)).
        -- rapid fuel ctx.
        -- step. extend I. tally.
    + eapply Hnext;
        [ cbn [trace]; rewrite <- ?app_assoc; reflexivity | reflexivity .. ].
  - eapply Hnext;
      [ cbn [trace]; rewrite <- ?app_assoc; reflexivity | reflexivity .. ].
  - eapply Hnext;
      [ cbn [trace]; rewrite <- ?app_assoc; reflexivity | reflexivity .. ].
  - destruct (AllowRapidRebalance params).
    + rapid fuel ctx.
    + step. extend I. tally.
Qed.

(** What an attempt does after it picked its pair: one route query at
    most; with an error, nothing printed or paid, the counter as it was, and a
    failed pair recorded exactly when another attempt is asked for; without
    an error, one route query, no failed pair, and the routes printed against
    the counter. *)
Lemma tryRebalance_summary (fuel : nat) (ctx : Context.t) (s : State W) (attempt : Z) :
  exists evs,
    trace (snd (tryRebalance params fuel ctx s attempt))
    = trace s ++ EvPickChannelPair (Amount params) (MinAmount params)
                   (RelAmountFrom params) (RelAmountTo params) :: evs /\
    (count isGetRoutes evs <= 1)%nat /\
    match fst (tryRebalance params fuel ctx s attempt) with
    | Some ((Some err, retry), n) =>
        n = attempt /\ countPays evs = 0%nat /\ count isPrintRoute evs = 0%nat /\
        count isAddFailedRoute evs = (if retry then 1 else 0)%nat /\
        (count isAddFailedRoute evs <= count isGetRoutes evs)%nat
    | Some ((None, retry), n) =>
        count isGetRoutes evs = 1%nat /\ count isAddFailedRoute evs = 0%nat /\
        Z.of_nat (count isPrintRoute evs) = n - attempt + (if retry then 0 else 1) /\
        (retry = false -> (1 <= countPays evs)%nat)
    | None => count isAddFailedRoute evs = 0%nat /\ (1 <= countPays evs)%nat
    end.
Proof.
  unfold tryRebalance, helper.
  destruct (pickChannelPair (reg s) (world s) _ _ _ _) as [[rPick r1] w1]. step.
  destruct rPick as [[[from to] amt] | err].
  2: { step. exists []. tally. }
  match goal with
  | |- context [getRoutes r1 w1 ?c from to ?a] =>
      destruct (getRoutes r1 w1 c from to a) as [[rRoutes r2] w2]
  end.
  step. destruct rRoutes as [[routes fee] | err].
  - match goal with
    | |- context [tryRebalance_routes params fuel ctx ?ac from to routes amt attempt ?s'] =>
        destruct (routes_loop_summary fuel ctx ac from to routes amt attempt s')
          as (evs' & Htrace' & Hroutes' & Hfailed' & Hres');
        destruct (tryRebalance_routes params fuel ctx ac from to routes amt attempt s')
          as [res' s'']
    end.
    step. step_in Htrace'. step_in Hres'.
    eexists. split; [ rewrite Htrace', <- ?app_assoc; reflexivity | ].
    destruct res' as [[[err' retry'] n'] | ].
    + destruct Hres' as (-> & Hprinted & Hretry). destruct retry'; tally.
    + tally.
  - match goal with
    | |- context [Context.deadlineExceeded ?c ?t] =>
        destruct (Context.deadlineExceeded c t)
    end.
    + step. eexists. split; [ rewrite <- ?app_assoc; reflexivity | ]. tally.
    + destruct (addFailedRoute r2 w2 from to) as [[[] r3] w3]. step.
      eexists. split; [ rewrite <- ?app_assoc; reflexivity | ]. tally.
Qed.

End AttemptCalls.

Lemma deadline_inherited (parent : Context.t) (now d t : Z) :
  Context.deadlineExceeded parent t = true ->
  Context.deadlineExceeded (Context.WithTimeout parent now d) t = true.
Proof.
  unfold Context.deadlineExceeded, Context.WithTimeout. simpl.
  destruct (Context.deadline parent) as [p | ]; [ | discriminate ].
  intros Hp. apply Z.leb_le in Hp. apply Z.leb_le. lia.
Qed.

Section AttemptFacts.

Import Main.

Context {W : Type} {client : LightningClient W} {helpers : Helpers W}.

Variable params : configParams.

Ltac step :=
  cbn -[app tryRebalance tryRebalance_routes tryRapidRebalance_loop sessionLoop
        Context.deadlineExceeded Context.WithTimeout Int64.mul count countPays length].

Ltac tally :=
  change countPays with (count isPay) in *;
  rewrite ?count_app, ?count_cons, ?count_nil;
  cbn [isPay isGetRoutes isAddFailedRoute isPrintRoute length];
  repeat match goal with
         | H : _ /\ _ |- _ => destruct H
         end;
  repeat split; try reflexivity; try assumption; try discriminate; try lia.

(** An attempt that returns an error has printed no route and paid
    nothing, and the attempt counter is as it was; it has recorded a failed
    pair, once, exactly when it asks for another attempt. *)
Theorem attempt_error_pays_nothing (fuel : nat) (ctx : Context.t) (s s' : State W)
    (attempt n : Z) (err : error) (retry : bool) :
  tryRebalance params fuel ctx s attempt = (Some ((Some err, retry), n), s') ->
  n = attempt /\
  countPays (trace s') = countPays (trace s) /\
  count isPrintRoute (trace s') = count isPrintRoute (trace s) /\
  count isAddFailedRoute (trace s')
  = (count isAddFailedRoute (trace s) + (if retry then 1 else 0))%nat.
Proof.
  intros Hrun.
  destruct (tryRebalance_summary params fuel ctx s attempt) as (evs & Htrace & _ & Hres).
  rewrite Hrun in Htrace, Hres. simpl in Htrace, Hres.
  destruct Hres as (-> & Hpaid & Hprinted & Hfailed & _).
  rewrite Htrace. destruct retry; tally.
Qed.

(** An attempt that returns no error has asked for routes once and
    recorded no failed pair.  The routes it printed are one for every step of
    the attempt counter, and one more when it asks for no other attempt: the
    route whose payment succeeded. *)
Theorem attempt_counts_failed_routes (fuel : nat) (ctx : Context.t) (s s' : State W)
    (attempt n : Z) (retry : bool) :
  tryRebalance params fuel ctx s attempt = (Some ((None, retry), n), s') ->
  count isGetRoutes (trace s') = S (count isGetRoutes (trace s)) /\
  count isAddFailedRoute (trace s') = count isAddFailedRoute (trace s) /\
  Z.of_nat (count isPrintRoute (trace s')) - Z.of_nat (count isPrintRoute (trace s))
  = n - attempt + (if retry then 0 else 1) /\
  (retry = false -> (countPays (trace s) < countPays (trace s'))%nat).
Proof.
  intros Hrun.
  destruct (tryRebalance_summary params fuel ctx s attempt) as (evs & Htrace & _ & Hres).
  rewrite Hrun in Htrace, Hres. simpl in Htrace, Hres.
  destruct Hres as (Hroutes & Hfailed & Hprinted & Hpaid).
  rewrite Htrace. destruct retry; tally.
  all: intros _; specialize (Hpaid eq_refl); lia.
Qed.

(** When no pair of channels can be picked the attempt returns the error
    and asks for no other attempt: nothing else was called, and the session
    loop ends with this attempt. *)
Theorem no_pair_ends_session (fuel : nat) (ctx : Context.t) (s : State W)
    (attempt : Z) (err : error) (r1 : regolancer) (w1 : W) :
  let s1 := {| reg := r1; world := w1;
               trace := trace s ++
                 [EvPickChannelPair (Amount params) (MinAmount params)
                                    (RelAmountFrom params) (RelAmountTo params)] |} in
  pickChannelPair (reg s) (world s) (Amount params) (MinAmount params)
                  (RelAmountFrom params) (RelAmountTo params) = (Err err, r1, w1) ->
  tryRebalance params fuel ctx s attempt = (Some ((Some err, false), attempt), s1) /\
  forall attempts, exists ending,
    sessionLoop params (S fuel) ctx s attempt attempts = (Some (ending, S attempts), s1).
Proof.
  intros s1 Hpick.
  assert (Hrun : tryRebalance params fuel ctx s attempt
                 = (Some ((Some err, false), attempt), s1)).
  { unfold tryRebalance, helper. rewrite Hpick. reflexivity. }
  split; [ exact Hrun | ].
  intros attempts. cbn [sessionLoop]. rewrite Hrun. step.
  destruct (Context.deadlineExceeded ctx (time_Now w1)); eexists; reflexivity.
Qed.

(** The contexts are nested: when the route query returns an error and the
    deadline of the session has passed, the query counts as timed out.  No
    failed pair is recorded, and the session loop ends as timed out. *)
Theorem expired_session_records_no_pair (fuel : nat) (ctx : Context.t) (s : State W)
    (attempt : Z) (from to amt : Z) (r1 r2 : regolancer) (w1 w2 : W) (err : error) :
  let attemptCtx := Context.WithTimeout ctx (time_Now (world s))
                      (Int64.mul Minute (TimeoutAttempt params)) in
  let routeCtx := Context.WithTimeout attemptCtx (time_Now w1)
                    (Int64.mul Second (TimeoutRoute params)) in
  let s2 := {| reg := r2; world := w2;
               trace := trace s ++
                 [EvPickChannelPair (Amount params) (MinAmount params)
                                    (RelAmountFrom params) (RelAmountTo params);
                  EvGetRoutes routeCtx from to (Int64.mul amt 1000)] |} in
  pickChannelPair (reg s) (world s) (Amount params) (MinAmount params)
                  (RelAmountFrom params) (RelAmountTo params)
    = (Ok (from, to, amt), r1, w1) ->
  getRoutes r1 w1 routeCtx from to (Int64.mul amt 1000) = (Err err, r2, w2) ->
  Context.deadlineExceeded ctx (time_Now w2) = true ->
  tryRebalance params fuel ctx s attempt = (Some ((Some err, false), attempt), s2) /\
  forall attempts,
    sessionLoop params (S fuel) ctx s attempt attempts
    = (Some (SessionTimedOut, S attempts), s2).
Proof.
  intros attemptCtx routeCtx s2 Hpick Hroutes Hexpired.
  assert (Hroute : Context.deadlineExceeded routeCtx (time_Now w2) = true)
    by (apply deadline_inherited, deadline_inherited; exact Hexpired).
  assert (Hrun : tryRebalance params fuel ctx s attempt
                 = (Some ((Some err, false), attempt), s2)).
  { unfold tryRebalance, helper. rewrite Hpick. step.
    fold attemptCtx. fold routeCtx. rewrite Hroutes. step.
    rewrite Hroute. subst s2. rewrite <- ?app_assoc. reflexivity. }
  split; [ exact Hrun | ].
  intros attempts. cbn [sessionLoop]. rewrite Hrun. step.
  subst s2. cbn [world]. rewrite Hexpired. reflexivity.
Qed.

(** What the session loop does: every attempt asks for routes once at
    most, and a failed pair is recorded only after a route query. *)
Lemma sessionLoop_summary (fuel : nat) (mainCtx : Context.t) (s : State W)
    (attempt : Z) (attempts : nat) :
  exists evs,
    trace (snd (sessionLoop params fuel mainCtx s attempt attempts)) = trace s ++ evs /\
    (count isAddFailedRoute evs <= count isGetRoutes evs)%nat /\
    match fst (sessionLoop params fuel mainCtx s attempt attempts) with
    | Some (_, made) =>
        (attempts < made <= attempts + fuel)%nat /\
        (count isGetRoutes evs <= made - attempts)%nat
    | None => True
    end.
Proof.
  revert s attempt attempts.
  induction fuel as [ | fuel IH]; intros s attempt attempts.
  { exists []. simpl. rewrite app_nil_r. tally. }
  cbn [sessionLoop].
  destruct (tryRebalance_summary params fuel mainCtx s attempt)
    as (evs0 & Htrace0 & Hroutes0 & Hres0).
  destruct (tryRebalance params fuel mainCtx s attempt) as [res0 s0].
  simpl in Htrace0, Hres0.
  destruct res0 as [[[err retry] n] | ].
  2: { simpl. eexists. split; [ exact Htrace0 | ]. tally. }
  assert (Hfailed0 : (count isAddFailedRoute evs0 <= count isGetRoutes evs0)%nat).
  { destruct err as [err | ]; tally. }
  clear Hres0.
  destruct (Context.deadlineExceeded mainCtx (time_Now (world s0))).
  { simpl. eexists. split; [ exact Htrace0 | ]. tally. }
  destruct retry; cbn [negb].
  - destruct (IH s0 n (S attempts)) as (evs' & Htrace' & Hfailed' & Hres').
    destruct (sessionLoop params fuel mainCtx s0 n (S attempts)) as [res' s'].
    simpl in Htrace', Hres'. simpl fst. simpl snd.
    eexists. split.
    { rewrite Htrace', Htrace0, <- app_assoc. reflexivity. }
    destruct res' as [[ending made] | ]; tally.
  - simpl. eexists. split; [ exact Htrace0 | ]. tally.
Qed.

(** The session loop makes at least one attempt and no more than its fuel
    allows; it asks for routes no more often than it makes attempts, and
    records no more failed pairs than it asked for routes. *)
Theorem session_queries_once_per_attempt (fuel : nat) (mainCtx : Context.t)
    (s s' : State W) (attempt : Z) (attempts made : nat) (ending : sessionEnd) :
  sessionLoop params fuel mainCtx s attempt attempts = (Some (ending, made), s') ->
  (attempts < made <= attempts + fuel)%nat /\
  (count isGetRoutes (trace s') - count isGetRoutes (trace s) <= made - attempts)%nat /\
  (count isAddFailedRoute (trace s') - count isAddFailedRoute (trace s)
   <= count isGetRoutes (trace s') - count isGetRoutes (trace s))%nat.
Proof.
  intros Hrun.
  destruct (sessionLoop_summary fuel mainCtx s attempt attempts)
    as (evs & Htrace & Hfailed & Hres).
  rewrite Hrun in Htrace, Hres. simpl in Htrace, Hres.
  rewrite Htrace. tally.
Qed.

End AttemptFacts.

(** The route query fails at once: the error comes back, a failed pair was
    recorded, nothing was paid. *)
Lemma attempt_error_pays_nothing_witness :
  let run := Main.tryRebalance Sample.params 3 sessionCtx (start noRoutes) 1 in
  fst run = Some ((Some (errorString "no route"), true), 1) /\
  countPays (trace (snd run)) = 0%nat /\
  count isAddFailedRoute (trace (snd run)) = 1%nat.
Proof.
  cbv zeta.
  assert (Hrun : Main.tryRebalance Sample.params 3 sessionCtx (start noRoutes) 1
                 = (Some ((Some (errorString "no route"), true), 1),
                    snd (Main.tryRebalance Sample.params 3 sessionCtx (start noRoutes) 1)))
    by (vm_compute; reflexivity).
  destruct (attempt_error_pays_nothing (client := Sample.client) (helpers := Sample.helpers)
              Sample.params 3 sessionCtx (start noRoutes) _ 1 _ _ _ Hrun)
    as (_ & Hpaid & _ & Hfailed).
  refine (conj _ (conj Hpaid Hfailed)). rewrite Hrun at 1. reflexivity.
Defined.

(** The payment of the only route fails: one route printed, the counter
    one further, another attempt asked for. *)
Lemma attempt_counts_failed_routes_witness :
  let run := Main.tryRebalance Sample.params 3 sessionCtx (start calm) 1 in
  fst run = Some ((None, true), 2) /\
  count isGetRoutes (trace (snd run)) = 1%nat /\
  count isAddFailedRoute (trace (snd run)) = 0%nat /\
  Z.of_nat (count isPrintRoute (trace (snd run))) - 0 = 2 - 1 + 0.
Proof.
  cbv zeta.
  assert (Hrun : Main.tryRebalance Sample.params 3 sessionCtx (start calm) 1
                 = (Some ((None, true), 2),
                    snd (Main.tryRebalance Sample.params 3 sessionCtx (start calm) 1)))
    by (vm_compute; reflexivity).
  destruct (attempt_counts_failed_routes (client := Sample.client)
              (helpers := Sample.helpers)
              Sample.params 3 sessionCtx (start calm) _ 1 _ _ Hrun)
    as (Hroutes & Hfailed & Hprinted & _).
  refine (conj _ (conj Hroutes (conj Hfailed Hprinted))). rewrite Hrun at 1. reflexivity.
Defined.

(** No pair to pick: the session makes this one attempt. *)
Lemma no_pair_ends_session_witness :
  exists ending,
    Main.sessionLoop (H0 := Cases.noPair) Sample.params 4 sessionCtx (start calm) 1 0
    = (Some (ending, 1%nat),
       {| reg := bare; world := calm;
          trace := [EvPickChannelPair 100000 10000 0%float 0%float] |}).
Proof.
  destruct (no_pair_ends_session (client := Sample.client) (helpers := Cases.noPair)
              Sample.params 3 sessionCtx (start calm) 1
              (errorString "no channel pair") bare calm eq_refl) as [_ Hsession].
  exact (Hsession 0%nat).
Defined.

(** A session of one second and a route query that fails after one
    second. *)
Lemma expired_session_records_no_pair_witness :
  fst (Main.sessionLoop Sample.params 4 Cases.shortSession (start noRoutes) 1 0)
  = Some (Main.SessionTimedOut, 1%nat) /\
  count isAddFailedRoute
    (trace (snd (Main.sessionLoop Sample.params 4 Cases.shortSession (start noRoutes) 1 0)))
  = 0%nat.
Proof.
  assert (Hexpired : Context.deadlineExceeded Cases.shortSession
                       (time_Now (tick Second noRoutes)) = true)
    by (vm_compute; reflexivity).
  destruct (expired_session_records_no_pair
              (client := Sample.client) (helpers := Sample.helpers)
              Sample.params 3 Cases.shortSession (start noRoutes) 1 1 2 100000
              bare bare noRoutes (tick Second noRoutes) (errorString "no route")
              eq_refl eq_refl Hexpired) as [_ Hsession].
  rewrite (Hsession 0%nat). split; reflexivity.
Defined.

(** The route query times out: one attempt, one route query, no failed
    pair. *)
Lemma session_queries_once_per_attempt_witness :
  let run := Main.sessionLoop Sample.params 4 sessionCtx (start slowRoutes) 1 0 in
  (count isGetRoutes (trace (snd run)) - 0 <= 1 - 0)%nat /\
  (count isAddFailedRoute (trace (snd run)) - 0
   <= count isGetRoutes (trace (snd run)) - 0)%nat.
Proof.
  cbv zeta.
  assert (Hrun : Main.sessionLoop Sample.params 4 sessionCtx (start slowRoutes) 1 0
                 = (Some (Main.SessionFinished, 1%nat),
                    snd (Main.sessionLoop Sample.params 4 sessionCtx (start slowRoutes) 1 0)))
    by (vm_compute; reflexivity).
  destruct (session_queries_once_per_attempt
              (client := Sample.client) (helpers := Sample.helpers)
              Sample.params 4 sessionCtx (start slowRoutes) _ 1 0 1
              Main.SessionFinished Hrun) as (_ & Hroutes & Hfailed).
  split; [ exact Hroutes | exact Hfailed ].
Defined.

(** ** The program, from the parameters on *)

Section MainFacts.

Import Main.

Context {W : Type} {client : LightningClient W} {helpers : Helpers W}.

(** Parameters that the preflight does not accept end the program with
    status 1 before anything is asked of the node: the version flag, or any
    of the six checks.  No call is in the trace and the world is untouched. *)
Theorem main_refuses_before_contact (fuel : nat) (parsed : configParams) (w : W) :
  ~ (Version parsed = false /\ consistent parsed) ->
  main fuel parsed w = (Some 1, {| reg := newRegolancer parsed; world := w; trace := [] |}).
Proof.
  intros Hrefused. unfold main.
  destruct (Version parsed) eqn:Hversion.
  { now rewrite (preflightChecks_version parsed Hversion). }
  destruct (preflightChecks_run parsed Hversion) as (params' & Hrun & _).
  rewrite Hrun.
  destruct (preflightError parsed) as [err | ] eqn:Herr; [ reflexivity | ].
  exfalso. apply Hrefused. split; [ reflexivity | ].
  apply preflightError_consistent. exact Herr.
Qed.


End MainFacts.

(** The version flag: status 1, nothing asked. *)
Lemma main_refuses_before_contact_witness :
  Main.main 5 (config 100000 10000 0 0 0%float false true) calm
  = (Some 1, {| reg := Main.newRegolancer (config 100000 10000 0 0 0%float false true);
                world := calm; trace := [] |}).
Proof.
  apply (main_refuses_before_contact (client := Sample.client) (helpers := Sample.helpers)).
  intros [Hversion _]. discriminate Hversion.
Defined.


(** ** The route finder, call by call *)

Section RouteFinderCalls.

Context {W : Type} {client : LightningClient W}.

(** Whatever it returns, [getRoutes] changes nothing of the rebalancer but
    the channel cache, which only grows.  All it asks of the node is the
    target edge, once at most, and then the routes, once at most and never
    before the edge; it returns routes only after it asked for them. *)
Theorem getRoutes_effects (s : State W) (from to amtMsat : Z) (ratio : float) :
  let run := Routes.getRoutes s from to amtMsat ratio in
  reg (snd run) = set_chanCache (reg s) (chanCache (reg (snd run))) /\
  chanCache (reg s) ⊆ chanCache (reg (snd run)) /\
  exists lookups queries,
    trace (snd run) = trace s ++ lookups ++ queries /\
    (length lookups <= 1)%nat /\ forallb isChanInfoRpc lookups = true /\
    (length queries <= 1)%nat /\ forallb isQueryRoutes queries = true /\
    match fst run with
    | Ok _ => length queries = 1%nat
    | Err _ => True
    end.
Proof.
  cbv zeta. unfold Routes.getRoutes.
  match goal with
  | |- context [Routes.getChanInfo s ?c to] => generalize c; intros ctx
  end.
  assert (Hlookup :
    exists lookups,
      trace (snd (Routes.getChanInfo s ctx to)) = trace s ++ lookups /\
      (length lookups <= 1)%nat /\ forallb isChanInfoRpc lookups = true /\
      reg (snd (Routes.getChanInfo s ctx to))
      = set_chanCache (reg s) (chanCache (reg (snd (Routes.getChanInfo s ctx to)))) /\
      chanCache (reg s) ⊆ chanCache (reg (snd (Routes.getChanInfo s ctx to)))).
  { unfold Routes.getChanInfo, rpc.
    destruct (chanCache (reg s) !! to) as [c | ] eqn:Hcache.
    - exists []. simpl. rewrite app_nil_r, set_chanCache_same. repeat split; auto.
    - destruct (GetChanInfo (world s) ctx to) as [[c | err] w]; simpl;
        eexists; (split; [ reflexivity | ]); simpl.
      + repeat split; auto. now apply insert_subseteq.
      + rewrite set_chanCache_same. repeat split; auto. }
  destruct Hlookup as (lookups & Htrace & Hone & Hkind & Hreg & Hgrows).
  destruct (Routes.getChanInfo s ctx to) as [[c | err] s1]; simpl in Htrace, Hreg, Hgrows.
  2: { simpl. split; [ exact Hreg | ]. split; [ exact Hgrows | ].
       exists lookups, []. rewrite app_nil_r. repeat split; auto. }
  destruct (Routes.lastHop c (myPK (reg s1))) as [key policy].
  destruct (Hex.DecodeString key) as [lastPK [msg | ]].
  { simpl. split; [ exact Hreg | ]. split; [ exact Hgrows | ].
    exists lookups, []. rewrite app_nil_r. repeat split; auto. }
  unfold rpc. destruct (QueryRoutes (world s1) ctx _) as [[routes | err] w2]; simpl;
    (split; [ exact Hreg | ]); (split; [ exact Hgrows | ]);
    eexists lookups, [_]; rewrite Htrace, <- app_assoc;
    (split; [ reflexivity | ]); repeat split; auto.
Qed.

End RouteFinderCalls.
